(** * The query-service node: serving state machine and request gate

    A shallow embedding of [go/vt/vttablet/tabletserver/tabletserver.go]:
    the serving-state variable, [SetServingType] and the start/stop of
    the sub-components, the request gate ([startRequest], [verifyTarget],
    [execRequest], [withTimeout]), [Execute], the hot-row key and the
    error classifier's message construction.

    The node is one mutable struct guarded by a mutex.  The embedding is
    sequential: a method is a function from the struct before the call
    to an outcome and the struct after it.  Calls into the
    sub-components (packages that are not part of this file) are
    recorded in a call trace and change a per-component status. *)

From Stdlib Require Import String Ascii ZArith List Bool Lia.
From Stdlib Require DecimalString.
Import ListNotations.
Local Open Scope string_scope.
Local Open Scope Z_scope.

Set Implicit Arguments.

(** ** Data model *)

(** The five serving states, [StateNotConnected = iota] onwards. *)
Inductive ServingState : Type :=
| StateNotConnected
| StateNotServing
| StateServing
| StateTransitioning
| StateShuttingDown.

(** The [int64] value the constant stands for. *)
Definition state_num (s : ServingState) : Z :=
  match s with
  | StateNotConnected => 0
  | StateNotServing => 1
  | StateServing => 2
  | StateTransitioning => 3
  | StateShuttingDown => 4
  end.

Definition ServingState_eqb (a b : ServingState) : bool :=
  state_num a =? state_num b.

(** [var stateName = []string{...}]: the table, in declaration order. *)
Definition stateName : list string :=
  [ "NOT_SERVING";
    "NOT_SERVING";
    "SERVING";
    "NOT_SERVING";
    "SHUTTING_DOWN" ].

(** [var stateDetail = []string{...}]. *)
Definition stateDetail : list string :=
  [ "Not Connected";
    "Not Serving";
    "";
    "Transitioning";
    "Shutting Down" ].

(** [stateName[state]]: the five constants index the table in range. *)
Definition stateName_at (s : ServingState) : string :=
  nth (Z.to_nat (state_num s)) stateName "".

Definition stateDetail_at (s : ServingState) : string :=
  nth (Z.to_nat (state_num s)) stateDetail "".

(** [stateInfo]. *)
Definition stateInfo (s : ServingState) : string :=
  match s with
  | StateServing => "SERVING"
  | _ => stateName_at s ++ " (" ++ stateDetail_at s ++ ")"
  end.

(** The tablet types of [topodatapb.TabletType].  The enumeration is
    declared outside this file; the constructors are the types the node
    names ([MASTER], [REPLICA], [BATCH], [EXPERIMENTAL]) and the
    remaining values of the enumeration.  [BATCH] is a second name of
    the value [RDONLY], under which it is printed. *)
Inductive TabletType : Type :=
| TabletType_UNKNOWN
| TabletType_MASTER
| TabletType_REPLICA
| TabletType_BATCH
| TabletType_SPARE
| TabletType_EXPERIMENTAL
| TabletType_BACKUP
| TabletType_RESTORE
| TabletType_DRAINED.

Definition TabletType_num (t : TabletType) : Z :=
  match t with
  | TabletType_UNKNOWN => 0
  | TabletType_MASTER => 1
  | TabletType_REPLICA => 2
  | TabletType_BATCH => 3
  | TabletType_SPARE => 4
  | TabletType_EXPERIMENTAL => 5
  | TabletType_BACKUP => 6
  | TabletType_RESTORE => 7
  | TabletType_DRAINED => 8
  end.

Definition TabletType_eqb (a b : TabletType) : bool :=
  TabletType_num a =? TabletType_num b.

(** [TabletType.String()], used by the [%v] verbs of the error texts. *)
Definition TabletType_String (t : TabletType) : string :=
  match t with
  | TabletType_UNKNOWN => "UNKNOWN"
  | TabletType_MASTER => "MASTER"
  | TabletType_REPLICA => "REPLICA"
  | TabletType_BATCH => "RDONLY"
  | TabletType_SPARE => "SPARE"
  | TabletType_EXPERIMENTAL => "EXPERIMENTAL"
  | TabletType_BACKUP => "BACKUP"
  | TabletType_RESTORE => "RESTORE"
  | TabletType_DRAINED => "DRAINED"
  end.

(** [%v] of a [[]TabletType]: the elements between brackets, separated
    by one space. *)
Fixpoint join_space (l : list string) : string :=
  match l with
  | [] => ""
  | [x] => x
  | x :: rest => x ++ " " ++ join_space rest
  end.

Definition TabletTypes_String (l : list TabletType) : string :=
  "[" ++ join_space (map TabletType_String l) ++ "]".

(** The public code set of [vtrpcpb.Code]. *)
Inductive Code : Type :=
| Code_OK
| Code_CANCELED
| Code_UNKNOWN
| Code_INVALID_ARGUMENT
| Code_DEADLINE_EXCEEDED
| Code_NOT_FOUND
| Code_ALREADY_EXISTS
| Code_PERMISSION_DENIED
| Code_RESOURCE_EXHAUSTED
| Code_FAILED_PRECONDITION
| Code_ABORTED
| Code_UNIMPLEMENTED
| Code_INTERNAL
| Code_UNAVAILABLE.

Definition Code_eqb (a b : Code) : bool :=
  match a, b with
  | Code_OK, Code_OK
  | Code_CANCELED, Code_CANCELED
  | Code_UNKNOWN, Code_UNKNOWN
  | Code_INVALID_ARGUMENT, Code_INVALID_ARGUMENT
  | Code_DEADLINE_EXCEEDED, Code_DEADLINE_EXCEEDED
  | Code_NOT_FOUND, Code_NOT_FOUND
  | Code_ALREADY_EXISTS, Code_ALREADY_EXISTS
  | Code_PERMISSION_DENIED, Code_PERMISSION_DENIED
  | Code_RESOURCE_EXHAUSTED, Code_RESOURCE_EXHAUSTED
  | Code_FAILED_PRECONDITION, Code_FAILED_PRECONDITION
  | Code_ABORTED, Code_ABORTED
  | Code_UNIMPLEMENTED, Code_UNIMPLEMENTED
  | Code_INTERNAL, Code_INTERNAL
  | Code_UNAVAILABLE, Code_UNAVAILABLE => true
  | _, _ => false
  end.

(** A Go [error] value.  [VtError c m] is any error that is not a
    [*mysql.SQLError]: [c] is what [vterrors.Code] reports for it and
    [m] its [Error()] text.  [SQLError] carries the fields of
    [mysql.SQLError]. *)
Inductive error : Type :=
| VtError (code : Code) (msg : string)
| SQLError (Num : Z) (State : string) (Message : string) (Query : string).

(** [vterrors.Errorf(code, format, args...)] and [vterrors.New]: the
    formatted text is built at the call site. *)
Definition vterrors_Errorf (c : Code) (text : string) : error := VtError c text.
Definition vterrors_New (c : Code) (text : string) : error := VtError c text.

(** [querypb.Target]. *)
Record Target : Type := mkTarget {
  Keyspace : string;
  Shard : string;
  Target_TabletType : TabletType;
  Cell : string
}.

(** The part of a [context.Context] the node reads: the local-context
    mark ([tabletenv.IsLocalContext]), the immediate caller id
    ([callerid.ImmediateCallerIDFromContext], its [Username]) and the
    deadlines attached so far, innermost first, in nanoseconds. *)
Record Context : Type := mkContext {
  ctx_local : bool;
  ctx_callerID : option string;
  ctx_deadlines : list Z
}.

Definition IsLocalContext (ctx : Context) : bool := ctx_local ctx.

(** [tabletenv.LocalContext()]. *)
Definition LocalContext : Context :=
  {| ctx_local := true; ctx_callerID := None; ctx_deadlines := [] |}.

(** [ctx.Deadline()]: the earliest attached deadline, if any. *)
Fixpoint earliest (l : list Z) : option Z :=
  match l with
  | [] => None
  | d :: rest =>
      match earliest rest with
      | None => Some d
      | Some e => Some (Z.min d e)
      end
  end.

Definition Deadline (ctx : Context) : option Z := earliest (ctx_deadlines ctx).

(** ** The node *)

(** The transaction engine is closed, or open in one of two modes. *)
Inductive TxEngineState : Type :=
| TxNotServing
| TxAcceptingReadWrite
| TxAcceptingReadOnly.

(** Status of the ten sub-components of [TabletServer] ([se], [hw],
    [hr], [vstreamer], [tracker], [watcher], [qe], [txThrottler], [te],
    [messager]).  The components live in other packages; what is kept of
    each is whether it is open, which is what their [Open] and [Close]
    change. *)
Record Components : Type := mkComponents {
  se_open : bool;
  hw_open : bool;
  hr_open : bool;
  vstreamer_open : bool;
  tracker_open : bool;
  watcher_open : bool;
  qe_open : bool;
  txThrottler_open : bool;
  te_state : TxEngineState;
  messager_open : bool
}.

Definition all_closed (c : Components) : Prop :=
  se_open c = false /\ hw_open c = false /\ hr_open c = false /\
  vstreamer_open c = false /\ tracker_open c = false /\
  watcher_open c = false /\ qe_open c = false /\
  txThrottler_open c = false /\ te_state c = TxNotServing /\
  messager_open c = false.

Definition closed_components : Components :=
  mkComponents false false false false false false false false TxNotServing false.

(** A call into a sub-component or into another package, as it appears
    in the source. *)
Inductive Call : Type :=
| Call_NewDBConnection
| Call_DBConnection_Close
| Call_se_Open
| Call_se_MakeNonMaster
| Call_se_Close
| Call_vstreamer_Open (keyspace cell : string)
| Call_vstreamer_Close
| Call_qe_Open
| Call_qe_StopServing
| Call_qe_Close
| Call_qe_GetPlan (sql : string)
| Call_qre_Execute (connID : Z)
| Call_txThrottler_Open
| Call_txThrottler_Close
| Call_te_Init
| Call_te_AcceptReadWrite
| Call_te_AcceptReadOnly
| Call_te_Close
| Call_hw_Open
| Call_hw_Close
| Call_hr_Open
| Call_hr_Close
| Call_tracker_Open
| Call_tracker_Close
| Call_watcher_Open
| Call_watcher_Close
| Call_messager_Open
| Call_messager_Close.

(** [historyRecord], without its time stamp. *)
Record historyRecord : Type := mkHistoryRecord {
  hist_ServingState : string;
  hist_TabletType : string
}.

(** [TabletServer].  [requests] is the counter of the wait group;
    [calls] is the trace of calls made so far, oldest first; [history]
    holds the latest records, oldest first. *)
Record TabletServer : Type := mkTabletServer {
  QueryTimeout : Z;
  TerseErrors : bool;
  enableHotRowProtection : bool;
  state : ServingState;
  lameduck : Z;
  target : Target;
  alsoAllow : list TabletType;
  requests : Z;
  components : Components;
  calls : list Call;
  history : list historyRecord;
  alias_Cell : string
}.

Definition set_state (v : ServingState) (t : TabletServer) : TabletServer :=
  mkTabletServer (QueryTimeout t) (TerseErrors t) (enableHotRowProtection t)
    v (lameduck t) (target t) (alsoAllow t) (requests t) (components t)
    (calls t) (history t) (alias_Cell t).

Definition set_lameduck (v : Z) (t : TabletServer) : TabletServer :=
  mkTabletServer (QueryTimeout t) (TerseErrors t) (enableHotRowProtection t)
    (state t) v (target t) (alsoAllow t) (requests t) (components t)
    (calls t) (history t) (alias_Cell t).

Definition set_target (v : Target) (t : TabletServer) : TabletServer :=
  mkTabletServer (QueryTimeout t) (TerseErrors t) (enableHotRowProtection t)
    (state t) (lameduck t) v (alsoAllow t) (requests t) (components t)
    (calls t) (history t) (alias_Cell t).

Definition set_alsoAllow (v : list TabletType) (t : TabletServer) : TabletServer :=
  mkTabletServer (QueryTimeout t) (TerseErrors t) (enableHotRowProtection t)
    (state t) (lameduck t) (target t) v (requests t) (components t)
    (calls t) (history t) (alias_Cell t).

Definition set_requests (v : Z) (t : TabletServer) : TabletServer :=
  mkTabletServer (QueryTimeout t) (TerseErrors t) (enableHotRowProtection t)
    (state t) (lameduck t) (target t) (alsoAllow t) v (components t)
    (calls t) (history t) (alias_Cell t).

Definition set_components (v : Components) (t : TabletServer) : TabletServer :=
  mkTabletServer (QueryTimeout t) (TerseErrors t) (enableHotRowProtection t)
    (state t) (lameduck t) (target t) (alsoAllow t) (requests t) v
    (calls t) (history t) (alias_Cell t).

Definition set_calls (v : list Call) (t : TabletServer) : TabletServer :=
  mkTabletServer (QueryTimeout t) (TerseErrors t) (enableHotRowProtection t)
    (state t) (lameduck t) (target t) (alsoAllow t) (requests t) (components t)
    v (history t) (alias_Cell t).

Definition set_history (v : list historyRecord) (t : TabletServer) : TabletServer :=
  mkTabletServer (QueryTimeout t) (TerseErrors t) (enableHotRowProtection t)
    (state t) (lameduck t) (target t) (alsoAllow t) (requests t) (components t)
    (calls t) v (alias_Cell t).

(** [tsv.target.TabletType = tabletType]. *)
Definition set_TabletType (v : TabletType) (g : Target) : Target :=
  mkTarget (Keyspace g) (Shard g) v (Cell g).

(** ** Methods as state transformers

    A method either returns a value and the node after the call, or
    blocks for ever on the wait group ([requests.Wait()] with requests
    in flight and nobody left to end them). *)
Inductive Outcome (A : Type) : Type :=
| Returned (a : A) (tsv : TabletServer)
| Blocked (tsv : TabletServer).

Arguments Blocked {A} tsv.

Definition M (A : Type) : Type := TabletServer -> Outcome A.

Definition ret {A} (a : A) : M A := fun tsv => Returned a tsv.

Definition bind {A B} (m : M A) (f : A -> M B) : M B :=
  fun tsv =>
    match m tsv with
    | Returned a tsv' => f a tsv'
    | Blocked tsv' => Blocked tsv'
    end.

Definition get : M TabletServer := fun tsv => Returned tsv tsv.

Definition modify (f : TabletServer -> TabletServer) : M unit :=
  fun tsv => Returned tt (f tsv).

Declare Scope tsv_scope.
Delimit Scope tsv_scope with tsv.
Notation "x <- c1 ;; c2" := (bind c1 (fun x => c2))
  (at level 61, c1 at next level, right associativity) : tsv_scope.
Notation "c1 ;; c2" := (bind c1 (fun _ => c2))
  (at level 61, right associativity) : tsv_scope.
Local Open Scope tsv_scope.

(** Record a call in the trace. *)
Definition call (c : Call) : M unit :=
  modify (fun tsv => set_calls (calls tsv ++ [c])%list tsv).

Definition update_components (f : Components -> Components) : M unit :=
  modify (fun tsv => set_components (f (components tsv)) tsv).

(** [history.New(10)]: a ring of ten records; [Add] drops the oldest. *)
Definition history_capacity : nat := 10.

Definition history_Add (r : historyRecord) (h : list historyRecord) : list historyRecord :=
  let h' := (h ++ [r])%list in
  skipn (length h' - history_capacity) h'.

(** [setState]: the caller holds the lock. *)
Definition setState (s : ServingState) : M unit :=
  modify (fun tsv =>
    set_history
      (history_Add
         (mkHistoryRecord (stateInfo s)
            (TabletType_String (Target_TabletType (target tsv))))
         (history tsv))
      (set_state s tsv)).

(** [transition]. *)
Definition transition (newState : ServingState) : M unit := setState newState.

(** [GetState]. *)
Definition GetState (tsv : TabletServer) : string :=
  if negb (lameduck tsv =? 0) then "NOT_SERVING"
  else stateName_at (state tsv).

(** [IsServing]. *)
Definition IsServing (tsv : TabletServer) : bool :=
  String.eqb (GetState tsv) "SERVING".

(** [EnterLameduck] and [ExitLameduck]. *)
Definition EnterLameduck : M unit := modify (set_lameduck 1).
Definition ExitLameduck : M unit := modify (set_lameduck 0).

(** ** Sub-components *)

Definition set_se_open (v : bool) (c : Components) : Components :=
  mkComponents v (hw_open c) (hr_open c) (vstreamer_open c) (tracker_open c)
    (watcher_open c) (qe_open c) (txThrottler_open c) (te_state c) (messager_open c).

Definition set_hw_open (v : bool) (c : Components) : Components :=
  mkComponents (se_open c) v (hr_open c) (vstreamer_open c) (tracker_open c)
    (watcher_open c) (qe_open c) (txThrottler_open c) (te_state c) (messager_open c).

Definition set_hr_open (v : bool) (c : Components) : Components :=
  mkComponents (se_open c) (hw_open c) v (vstreamer_open c) (tracker_open c)
    (watcher_open c) (qe_open c) (txThrottler_open c) (te_state c) (messager_open c).

Definition set_vstreamer_open (v : bool) (c : Components) : Components :=
  mkComponents (se_open c) (hw_open c) (hr_open c) v (tracker_open c)
    (watcher_open c) (qe_open c) (txThrottler_open c) (te_state c) (messager_open c).

Definition set_tracker_open (v : bool) (c : Components) : Components :=
  mkComponents (se_open c) (hw_open c) (hr_open c) (vstreamer_open c) v
    (watcher_open c) (qe_open c) (txThrottler_open c) (te_state c) (messager_open c).

Definition set_watcher_open (v : bool) (c : Components) : Components :=
  mkComponents (se_open c) (hw_open c) (hr_open c) (vstreamer_open c) (tracker_open c)
    v (qe_open c) (txThrottler_open c) (te_state c) (messager_open c).

Definition set_qe_open (v : bool) (c : Components) : Components :=
  mkComponents (se_open c) (hw_open c) (hr_open c) (vstreamer_open c) (tracker_open c)
    (watcher_open c) v (txThrottler_open c) (te_state c) (messager_open c).

Definition set_txThrottler_open (v : bool) (c : Components) : Components :=
  mkComponents (se_open c) (hw_open c) (hr_open c) (vstreamer_open c) (tracker_open c)
    (watcher_open c) (qe_open c) v (te_state c) (messager_open c).

Definition set_te_state (v : TxEngineState) (c : Components) : Components :=
  mkComponents (se_open c) (hw_open c) (hr_open c) (vstreamer_open c) (tracker_open c)
    (watcher_open c) (qe_open c) (txThrottler_open c) v (messager_open c).

Definition set_messager_open (v : bool) (c : Components) : Components :=
  mkComponents (se_open c) (hw_open c) (hr_open c) (vstreamer_open c) (tracker_open c)
    (watcher_open c) (qe_open c) (txThrottler_open c) (te_state c) v.

(** What an [Open] that can fail does: it opens the component, or it
    returns an error and leaves the component open or not. *)
Inductive OpenResult : Type :=
| Opened
| OpenFailed (e : error) (left_open : bool).

(** The answers of the outside world to one [SetServingType]: the
    database connection of [fullStart], the four fallible [Open]s and
    [te.Init]. *)
Record Externals : Type := mkExternals {
  NewDBConnection_err : option error;
  se_Open_res : OpenResult;
  qe_Open_res : OpenResult;
  txThrottler_Open_res : OpenResult;
  te_Init_err : option error;
  hw_Open_res : OpenResult
}.

(** [x.Open()] with an error result. *)
Definition open_fallible (c : Call) (r : OpenResult)
    (set : bool -> Components -> Components) : M (option error) :=
  call c ;;
  match r with
  | Opened => update_components (set true) ;; ret None
  | OpenFailed e b => update_components (set b) ;; ret (Some e)
  end.

(** [x.Open()] and [x.Close()] without a result. *)
Definition open_ (c : Call) (set : bool -> Components -> Components) : M unit :=
  call c ;; update_components (set true).

Definition close_ (c : Call) (set : bool -> Components -> Components) : M unit :=
  call c ;; update_components (set false).

Definition se_Open (ext : Externals) := open_fallible Call_se_Open (se_Open_res ext) set_se_open.
Definition se_Close := close_ Call_se_Close set_se_open.
Definition se_MakeNonMaster := call Call_se_MakeNonMaster.
Definition vstreamer_Open (keyspace cell : string) :=
  open_ (Call_vstreamer_Open keyspace cell) set_vstreamer_open.
Definition vstreamer_Close := close_ Call_vstreamer_Close set_vstreamer_open.
Definition qe_Open (ext : Externals) := open_fallible Call_qe_Open (qe_Open_res ext) set_qe_open.
Definition qe_StopServing := call Call_qe_StopServing.
Definition qe_Close := close_ Call_qe_Close set_qe_open.
Definition txThrottler_Open (ext : Externals) :=
  open_fallible Call_txThrottler_Open (txThrottler_Open_res ext) set_txThrottler_open.
Definition txThrottler_Close := close_ Call_txThrottler_Close set_txThrottler_open.
Definition te_Init (ext : Externals) : M (option error) :=
  call Call_te_Init ;; ret (te_Init_err ext).
Definition te_AcceptReadWrite : M unit :=
  call Call_te_AcceptReadWrite ;; update_components (set_te_state TxAcceptingReadWrite).
Definition te_AcceptReadOnly : M unit :=
  call Call_te_AcceptReadOnly ;; update_components (set_te_state TxAcceptingReadOnly).
Definition te_Close : M unit :=
  call Call_te_Close ;; update_components (set_te_state TxNotServing).
Definition hw_Open (ext : Externals) := open_fallible Call_hw_Open (hw_Open_res ext) set_hw_open.
Definition hw_Close := close_ Call_hw_Close set_hw_open.
Definition hr_Open := open_ Call_hr_Open set_hr_open.
Definition hr_Close := close_ Call_hr_Close set_hr_open.
Definition tracker_Open := open_ Call_tracker_Open set_tracker_open.
Definition tracker_Close := close_ Call_tracker_Close set_tracker_open.
Definition watcher_Open := open_ Call_watcher_Open set_watcher_open.
Definition watcher_Close := close_ Call_watcher_Close set_watcher_open.
Definition messager_Open := open_ Call_messager_Open set_messager_open.
Definition messager_Close := close_ Call_messager_Close set_messager_open.

(** [requests.Wait()]. *)
Definition requests_Wait : M unit :=
  fun tsv => if requests tsv <=? 0 then Returned tt tsv else Blocked tsv.

(** ** Changing the serving type *)

Inductive Action : Type :=
| actionNone
| actionFullStart
| actionServeNewType
| actionGracefulStop.

(** [decideAction]. *)
Definition decideAction (tabletType : TabletType) (serving : bool)
    (alsoAllow' : list TabletType) : M (Action * option error) :=
  modify (set_alsoAllow alsoAllow') ;;
  tsv <- get ;;
  if TabletType_eqb (Target_TabletType (target tsv)) tabletType
     && (serving && ServingState_eqb (state tsv) StateServing)
  then ret (actionNone, None)
  else
    modify (fun tsv => set_target (set_TabletType tabletType (target tsv)) tsv) ;;
    match state tsv with
    | StateNotConnected =>
        if serving
        then setState StateTransitioning ;; ret (actionFullStart, None)
        else ret (actionNone, None)
    | StateNotServing =>
        if serving
        then setState StateTransitioning ;; ret (actionServeNewType, None)
        else ret (actionNone, None)
    | StateServing =>
        if negb serving
        then setState StateShuttingDown ;; ret (actionGracefulStop, None)
        else setState StateTransitioning ;; ret (actionServeNewType, None)
    | StateTransitioning | StateShuttingDown =>
        ret (actionNone,
             Some (vterrors_Errorf Code_FAILED_PRECONDITION
                     ("cannot SetServingType, current state: "
                      ++ stateName_at (state tsv))))
    end.

(** [serveNewType]. *)
Definition serveNewType (ext : Externals) : M (option error) :=
  tsv <- get ;;
  err <- (if TabletType_eqb (Target_TabletType (target tsv)) TabletType_MASTER
          then
            watcher_Close ;;
            hr_Close ;;
            err <- hw_Open ext ;;
            match err with
            | Some e => ret (Some e)
            | None =>
                tracker_Open ;;
                te_AcceptReadWrite ;;
                messager_Open ;;
                ret None
            end
          else
            messager_Close ;;
            te_AcceptReadOnly ;;
            tracker_Close ;;
            hw_Close ;;
            se_MakeNonMaster ;;
            hr_Open ;;
            watcher_Open ;;
            ret None) ;;
  match err with
  | Some e => ret (Some e)
  | None => transition StateServing ;; ret None
  end.

(** [fullStart]. *)
Definition fullStart (ext : Externals) : M (option error) :=
  call Call_NewDBConnection ;;
  match NewDBConnection_err ext with
  | Some e => ret (Some e)
  | None =>
      call Call_DBConnection_Close ;;
      err <- se_Open ext ;;
      match err with
      | Some e => ret (Some e)
      | None =>
          tsv <- get ;;
          vstreamer_Open (Keyspace (target tsv)) (alias_Cell tsv) ;;
          err <- qe_Open ext ;;
          match err with
          | Some e => ret (Some e)
          | None =>
              err <- txThrottler_Open ext ;;
              match err with
              | Some e => ret (Some e)
              | None =>
                  err <- te_Init ext ;;
                  match err with
                  | Some e => ret (Some e)
                  | None => serveNewType ext
                  end
              end
          end
      end
  end.

(** [waitForShutdown]. *)
Definition waitForShutdown : M unit :=
  messager_Close ;;
  te_Close ;;
  txThrottler_Close ;;
  tracker_Close ;;
  qe_StopServing ;;
  requests_Wait.

(** [gracefulStop].  The time bomb it arms is a watchdog on real time
    and is left out. *)
Definition gracefulStop : M unit :=
  waitForShutdown ;;
  transition StateNotServing.

(** [closeAll]. *)
Definition closeAll : M unit :=
  messager_Close ;;
  te_Close ;;
  txThrottler_Close ;;
  qe_StopServing ;;
  qe_Close ;;
  watcher_Close ;;
  tracker_Close ;;
  vstreamer_Close ;;
  hr_Close ;;
  hw_Close ;;
  se_Close ;;
  transition StateNotConnected.

(** [StopService]. *)
Definition StopService : M unit :=
  tsv <- get ;;
  if negb (ServingState_eqb (state tsv) StateServing)
     && negb (ServingState_eqb (state tsv) StateNotServing)
  then ret tt
  else
    setState StateShuttingDown ;;
    waitForShutdown ;;
    qe_Close ;;
    watcher_Close ;;
    vstreamer_Close ;;
    hr_Close ;;
    hw_Close ;;
    se_Close ;;
    transition StateNotConnected.

(** [SetServingType]; the deferred [ExitLameduck] runs when it returns. *)
Definition SetServingType (ext : Externals) (tabletType : TabletType)
    (serving : bool) (alsoAllow' : list TabletType) : M (bool * option error) :=
  r <- (d <- decideAction tabletType serving alsoAllow' ;;
        match snd d with
        | Some e => ret (false, Some e)
        | None =>
            match fst d with
            | actionNone => ret (false, None)
            | actionFullStart =>
                err <- fullStart ext ;;
                match err with
                | Some e => closeAll ;; ret (true, Some e)
                | None => ret (true, None)
                end
            | actionServeNewType =>
                err <- serveNewType ext ;;
                match err with
                | Some e => closeAll ;; ret (true, Some e)
                | None => ret (true, None)
                end
            | actionGracefulStop =>
                gracefulStop ;; ret (true, None)
            end
        end) ;;
  ExitLameduck ;;
  ret r.

(** ** The request gate *)

(** The loop [for _, otherType := range tsv.alsoAllow]: is some element
    equal to [t]? *)
Fixpoint alsoAllow_has (t : TabletType) (l : list TabletType) : bool :=
  match l with
  | [] => false
  | otherType :: rest =>
      if TabletType_eqb t otherType then true else alsoAllow_has t rest
  end.

(** [verifyTarget]. *)
Definition verifyTarget (ctx : Context) (target' : option Target) : M (option error) :=
  tsv <- get ;;
  match target' with
  | Some tg =>
      if negb (String.eqb (Keyspace tg) (Keyspace (target tsv))) then
        ret (Some (vterrors_Errorf Code_INVALID_ARGUMENT
                     ("invalid keyspace " ++ Keyspace tg)))
      else if negb (String.eqb (Shard tg) (Shard (target tsv))) then
        ret (Some (vterrors_Errorf Code_INVALID_ARGUMENT
                     ("invalid shard " ++ Shard tg)))
      else if negb (TabletType_eqb (Target_TabletType tg)
                      (Target_TabletType (target tsv))) then
        if alsoAllow_has (Target_TabletType tg) (alsoAllow tsv) then ret None
        else
          ret (Some (vterrors_Errorf Code_FAILED_PRECONDITION
                       ("invalid tablet type: "
                        ++ TabletType_String (Target_TabletType tg)
                        ++ ", want: "
                        ++ TabletType_String (Target_TabletType (target tsv))
                        ++ " or " ++ TabletTypes_String (alsoAllow tsv))))
      else ret None
  | None =>
      if negb (IsLocalContext ctx) then
        ret (Some (vterrors_Errorf Code_INVALID_ARGUMENT "No target"))
      else ret None
  end.

(** [startRequest]: the state check, then the block at label
    [verifyTarget], then the block at label [ok]. *)
Definition startRequest (ctx : Context) (target' : option Target)
    (allowOnShutdown : bool) : M (option error) :=
  tsv <- get ;;
  if ServingState_eqb (state tsv) StateServing
     || (allowOnShutdown && ServingState_eqb (state tsv) StateShuttingDown)
  then
    err <- match target' with
           | Some tg =>
               if negb (String.eqb (Keyspace tg) (Keyspace (target tsv))) then
                 ret (Some (vterrors_Errorf Code_INVALID_ARGUMENT
                              ("invalid keyspace " ++ Keyspace tg)))
               else if negb (String.eqb (Shard tg) (Shard (target tsv))) then
                 ret (Some (vterrors_Errorf Code_INVALID_ARGUMENT
                              ("invalid shard " ++ Shard tg)))
               else if negb (TabletType_eqb (Target_TabletType tg)
                               (Target_TabletType (target tsv))) then
                 if alsoAllow_has (Target_TabletType tg) (alsoAllow tsv)
                 then ret None
                 else
                   ret (Some (vterrors_Errorf Code_FAILED_PRECONDITION
                                ("invalid tablet type: "
                                 ++ TabletType_String (Target_TabletType tg)
                                 ++ ", want: "
                                 ++ TabletType_String (Target_TabletType (target tsv))
                                 ++ " or " ++ TabletTypes_String (alsoAllow tsv))))
               else ret None
           | None =>
               if negb (IsLocalContext ctx) then
                 ret (Some (vterrors_Errorf Code_INVALID_ARGUMENT "No target"))
               else ret None
           end ;;
    match err with
    | Some e => ret (Some e)
    | None =>
        modify (fun tsv => set_requests (requests tsv + 1) tsv) ;;
        ret None
    end
  else
    ret (Some (vterrors_Errorf Code_FAILED_PRECONDITION
                 ("operation not allowed in state " ++ stateName_at (state tsv)))).

(** [endRequest]. *)
Definition endRequest : M unit :=
  modify (fun tsv => set_requests (requests tsv - 1) tsv).

(** [querypb.ExecuteOptions]: the fields the node reads. *)
Inductive Workload : Type :=
| Workload_UNSPECIFIED
| Workload_OLTP
| Workload_OLAP
| Workload_DBA.

Record ExecuteOptions : Type := mkExecuteOptions {
  opt_Workload : Workload;
  opt_SkipQueryPlanCache : bool;
  opt_IncludedFields : Z
}.

(** [options.GetWorkload()], defined on a nil receiver. *)
Definition GetWorkload (options : option ExecuteOptions) : Workload :=
  match options with
  | None => Workload_UNSPECIFIED
  | Some o => opt_Workload o
  end.

Definition is_DBA (w : Workload) : bool :=
  match w with Workload_DBA => true | _ => false end.

(** [skipQueryPlanCache]. *)
Definition skipQueryPlanCache (options : option ExecuteOptions) : bool :=
  match options with
  | None => false
  | Some o => opt_SkipQueryPlanCache o
  end.

(** The cancel function returned next to a context: the empty function,
    or the one that stops the timer of the new context. *)
Inductive CancelFunc : Type :=
| cancel_nothing
| cancel_timeout.

(** [context.WithTimeout(ctx, timeout)] at time [now]: the same values,
    and the deadline [now + timeout] on top of those of the parent. *)
Definition context_WithTimeout (now : Z) (ctx : Context) (timeout : Z) : Context :=
  mkContext (ctx_local ctx) (ctx_callerID ctx) ((now + timeout) :: ctx_deadlines ctx).

(** [withTimeout], called at time [now]. *)
Definition withTimeout (now : Z) (ctx : Context) (timeout : Z)
    (options : option ExecuteOptions) : Context * CancelFunc :=
  if (timeout =? 0) || is_DBA (GetWorkload options) || IsLocalContext ctx
  then (ctx, cancel_nothing)
  else (context_WithTimeout now ctx timeout, cancel_timeout).

(** ** Errors, queries and the query engine

    What the node takes from other packages is a parameter of this
    section: the bind variables and their printing, the [%q] verb, the
    log truncation of package [sqlparser], the [Error()] text of a
    [mysql.SQLError], the [switch] of [convertErrorCode] over the error
    numbers of package [mysql], and the plans and executor of the query
    engine. *)
Section Engine.

Variable BindVariable : Type.
(** [%v] of a [*querypb.BindVariable]. *)
Variable BindVariable_String : BindVariable -> string.
(** [%q] of a string. *)
Variable quote : string -> string.
(** [sqlparser.TruncateForLog] and [*sqlparser.TruncateErrLen]. *)
Variable TruncateForLog : string -> string.
Variable TruncateErrLen : Z.
(** [Error()] of a [mysql.SQLError], from number, state, message and query. *)
Variable SQLError_Error : Z -> string -> string -> string -> string.
(** The [switch errnum] of [convertErrorCode]: from the error number, the
    error text and the code so far to the code after the switch. *)
Variable mysql_errno_switch : Z -> string -> Code -> Code.

(** A [map[string]*querypb.BindVariable] as the list of its entries;
    the nil map is the empty list. *)
Definition BindVariables : Type := list (string * BindVariable).

(** [%d] of an [int]. *)
Definition decimal (n : Z) : string :=
  DecimalString.NilZero.string_of_int (Z.to_int n).

(** [sort.Strings]. *)
Fixpoint insert_sorted (k : string) (l : list string) : list string :=
  match l with
  | [] => [k]
  | x :: rest => if String.leb k x then k :: l else x :: insert_sorted k rest
  end.

Definition sort_Strings (l : list string) : list string :=
  fold_right insert_sorted [] l.

(** [bindVariables[key]] for a key of the map. *)
Definition bind_lookup (key : string) (bindVariables : BindVariables) : option BindVariable :=
  match find (fun e => String.eqb (fst e) key) bindVariables with
  | Some e => Some (snd e)
  | None => None
  end.

(** The loop of [queryAsString] and [truncateSQLAndBindVars] that prints
    the entries in key order, [%s: %q] each. *)
Fixpoint write_bindvars (keys : list string) (bindVariables : BindVariables) : string :=
  match keys with
  | [] => ""
  | key :: rest =>
      let valString :=
        match bind_lookup key bindVariables with
        | Some v => BindVariable_String v
        | None => "<nil>"
        end in
      key ++ ": " ++ quote valString ++ write_bindvars rest bindVariables
  end.

(** [queryAsString]. *)
Definition queryAsString (sql : string) (bindVariables : BindVariables) : string :=
  "Sql: " ++ quote sql ++ ", BindVars: {"
  ++ write_bindvars (sort_Strings (map fst bindVariables)) bindVariables
  ++ "}".

(** [truncateSQLAndBindVars]. *)
Definition truncateSQLAndBindVars (sql : string) (bindVariables : BindVariables) : string :=
  let truncatedQuery := TruncateForLog sql in
  let bv := "BindVars: {"
            ++ write_bindvars (sort_Strings (map fst bindVariables)) bindVariables
            ++ "}" in
  let maxLen := TruncateErrLen in
  let bv' := if negb (maxLen =? 0) && (maxLen <? Z.of_nat (String.length bv))
             then substring 0 (Z.to_nat (maxLen - 12)) bv ++ " [TRUNCATED]"
             else bv in
  "Sql: " ++ quote truncatedQuery ++ ", " ++ bv'.

(** [err.Error()]. *)
Definition Error (err : error) : string :=
  match err with
  | VtError _ m => m
  | SQLError n st m q => SQLError_Error n st m q
  end.

(** [vterrors.Code]: a [mysql.SQLError] carries no code of its own. *)
Definition vterrors_Code (err : error) : Code :=
  match err with
  | VtError c _ => c
  | SQLError _ _ _ _ => Code_UNKNOWN
  end.

(** [convertErrorCode]. *)
Definition convertErrorCode (err : error) : Code :=
  let errCode := vterrors_Code err in
  match err with
  | VtError _ _ => errCode
  | SQLError errnum _ _ _ => mysql_errno_switch errnum (Error err) errCode
  end.

(** The logger [convertAndLogError] selects; [None] is the nil
    [logMethod]. *)
Inductive LogMethod : Type :=
| log_Errorf
| logPoolFull_Errorf
| log_Warningf
| log_Infof.

Definition select_logMethod (errCode : Code) : option LogMethod :=
  match errCode with
  | Code_FAILED_PRECONDITION | Code_ALREADY_EXISTS => None
  | Code_RESOURCE_EXHAUSTED => Some logPoolFull_Errorf
  | Code_ABORTED => Some log_Warningf
  | Code_INVALID_ARGUMENT | Code_DEADLINE_EXCEEDED => Some log_Infof
  | _ => Some log_Errorf
  end.

(** [len(bindVariables) != 0]. *)
Definition has_bindvars (bindVariables : BindVariables) : bool :=
  negb (Nat.eqb (length bindVariables) 0).

(** The local [callerID] of [convertAndLogError]: empty without an
    immediate caller id in the context. *)
Definition callerID_suffix (ctx : Context) : string :=
  match ctx_callerID ctx with
  | Some username => " (CallerID: " ++ username ++ ")"
  | None => ""
  end.

(** [convertAndLogError] for a non-nil [err]: the error returned to the
    caller, and what is logged, if anything.  The error counter and the
    log record are left out. *)
Definition convertAndLogError (tsv : TabletServer) (ctx : Context) (sql : string)
    (bindVariables : BindVariables) (err : error)
    : error * option (LogMethod * string) :=
  let errCode := convertErrorCode err in
  let callerID := callerID_suffix ctx in
  let logMethod := select_logMethod errCode in
  let logged (message : string) :=
    match logMethod with
    | Some m => Some (m, message)
    | None => None
    end in
  match err with
  | SQLError _ _ sqlErr_Message _ =>
      let sqlState := match err with SQLError _ st _ _ => st | _ => "" end in
      let errnum := match err with SQLError n _ _ _ => n | _ => 0 end in
      if TerseErrors tsv && has_bindvars bindVariables
         && negb (Code_eqb errCode Code_FAILED_PRECONDITION)
      then
        (vterrors_Errorf errCode
           ("(errno " ++ decimal errnum ++ ") (sqlstate " ++ sqlState ++ ")"
            ++ callerID ++ ": " ++ queryAsString sql []),
         logged (sqlErr_Message ++ " (errno " ++ decimal errnum ++ ") (sqlstate "
                 ++ sqlState ++ ")" ++ callerID ++ ": "
                 ++ truncateSQLAndBindVars sql bindVariables))
      else
        (vterrors_Errorf errCode
           (sqlErr_Message ++ " (errno " ++ decimal errnum ++ ") (sqlstate "
            ++ sqlState ++ ")" ++ callerID ++ ": "
            ++ queryAsString sql bindVariables),
         logged (sqlErr_Message ++ " (errno " ++ decimal errnum ++ ") (sqlstate "
                 ++ sqlState ++ ")" ++ callerID ++ ": "
                 ++ truncateSQLAndBindVars sql bindVariables))
  | VtError _ _ =>
      let err' := vterrors_Errorf errCode (Error err ++ callerID) in
      if TerseErrors tsv && has_bindvars bindVariables
         && negb (Code_eqb errCode Code_FAILED_PRECONDITION)
      then (err', logged (Error err' ++ ": " ++ truncateSQLAndBindVars sql []))
      else (err', logged (Error err' ++ ": " ++ truncateSQLAndBindVars sql bindVariables))
  end.

(** *** Plans and the executor *)

Variable Result : Type.
Variable ParsedQuery : Type.
Variable MarginComments : Type.

(** [sqlparser.SplitMarginComments]. *)
Variable SplitMarginComments : string -> string * MarginComments.
(** [GenerateQuery(bindVariables, nil)] of a [ParsedQuery]. *)
Variable GenerateQuery : ParsedQuery -> BindVariables -> string + error.
(** [StripMetadata] of a [sqltypes.Result], on the included-fields option. *)
Variable StripMetadata : Result -> Z -> Result.

(** The plan kinds of package [planbuilder]: the four that
    [computeTxSerializerKey] names, and the others. *)
Inductive PlanType : Type :=
| PlanSelect
| PlanInsert
| PlanUpdate
| PlanUpdateLimit
| PlanDelete
| PlanDeleteLimit
| PlanDDL
| PlanSet
| PlanOther.

(** What the node reads of a plan: its kind, the name [TableName()]
    returns (empty when the plan has no table) and the where-clause, nil
    or a parsed query. *)
Record Plan : Type := mkPlan {
  PlanID : PlanType;
  TableName : string;
  WhereClause : option ParsedQuery
}.

(** [tableName.IsEmpty()]. *)
Definition IsEmpty (tableName : string) : bool := String.eqb tableName "".

(** [tsv.qe.GetPlan(ctx, logStats, sql, skipQueryPlanCache)]. *)
Variable qe_GetPlan : Context -> string -> bool -> Plan + error.

(** [Execute()] of a [QueryExecutor], from the fields of the executor:
    query, margin comments, bind variables, connection id, options,
    plan, context and tablet type. *)
Variable qre_Execute :
  string -> MarginComments -> BindVariables -> Z -> option ExecuteOptions ->
  Plan -> Context -> TabletType -> option Result * option error.

(** [sqltypes.IncludeFieldsOrDefault]. *)
Definition IncludeFieldsOrDefault (options : option ExecuteOptions) : Z :=
  match options with
  | None => 0
  | Some o => opt_IncludedFields o
  end.

(** [target.GetTabletType()], defined on a nil receiver. *)
Definition GetTabletType (target' : option Target) : TabletType :=
  match target' with
  | None => TabletType_UNKNOWN
  | Some tg => Target_TabletType tg
  end.

(** [execRequest], called at time [now].  The body [exec] is a closure:
    [captured] is the value, before the call, of the variables it
    assigns, and the first component of the result their value after.
    Spans, the log record and the recovery from panics are left out. *)
Definition execRequest {V : Type} (now : Z) (ctx : Context) (timeout : Z)
    (requestName sql : string) (bindVariables : BindVariables)
    (target' : option Target) (options : option ExecuteOptions)
    (allowOnShutdown : bool)
    (exec : Context -> V -> M (V * option error)) (captured : V)
    : M (V * option error) :=
  err <- startRequest ctx target' allowOnShutdown ;;
  match err with
  | Some e => ret (captured, Some e)
  | None =>
      let ctx' := fst (withTimeout now ctx timeout options) in
      r <- exec ctx' captured ;;
      tsv <- get ;;
      let err' :=
        match snd r with
        | Some e => Some (fst (convertAndLogError tsv ctx' sql bindVariables e))
        | None => None
        end in
      endRequest ;;
      ret (fst r, err')
  end.

(** [Execute], called at time [now]. *)
Definition Execute (now : Z) (ctx : Context) (target' : option Target)
    (sql : string) (bindVariables : BindVariables)
    (transactionID reservedID : Z) (options : option ExecuteOptions)
    : M (option Result * option error) :=
  if negb (transactionID =? 0) && negb (reservedID =? 0)
     && negb (transactionID =? reservedID)
  then
    ret (None,
         Some (vterrors_New Code_INTERNAL
                 "transactionID and reserveID must match if both are non-zero"))
  else
    let allowOnShutdown := negb (transactionID =? 0) in
    tsv <- get ;;
    execRequest now ctx (QueryTimeout tsv) "Execute" sql bindVariables
      target' options allowOnShutdown
      (fun ctx result =>
         let query := fst (SplitMarginComments sql) in
         let comments := snd (SplitMarginComments sql) in
         call (Call_qe_GetPlan query) ;;
         match qe_GetPlan ctx query (skipQueryPlanCache options) with
         | inr e => ret (result, Some e)
         | inl plan =>
             let connID :=
               if negb (transactionID =? 0) then transactionID else reservedID in
             call (Call_qre_Execute connID) ;;
             let r := qre_Execute query comments bindVariables connID options
                        plan ctx (GetTabletType target') in
             match snd r with
             | Some e => ret (fst r, Some e)
             | None =>
                 ret (option_map
                        (fun x => StripMetadata x (IncludeFieldsOrDefault options))
                        (fst r),
                      None)
             end
         end)
      None.

(** [computeTxSerializerKey]. *)
Definition computeTxSerializerKey (ctx : Context) (sql : string)
    (bindVariables : BindVariables) : M (string * string) :=
  let sql' := fst (SplitMarginComments sql) in
  call (Call_qe_GetPlan sql') ;;
  match qe_GetPlan ctx sql' false with
  | inr _ => ret ("", "")
  | inl plan =>
      match PlanID plan with
      | PlanUpdate | PlanUpdateLimit | PlanDelete | PlanDeleteLimit =>
          let tableName := TableName plan in
          if IsEmpty tableName then ret ("", "")
          else
            match WhereClause plan with
            | None => ret ("", "")
            | Some whereClause =>
                match GenerateQuery whereClause bindVariables with
                | inr _ => ret ("", "")
                | inl where_ => ret (tableName ++ where_, tableName)
                end
            end
      | _ => ret ("", "")
      end
  end.

End Engine.

(** ** Conditions named in the statements *)

(** The node a call leaves behind. *)
Definition node_after {A : Type} (o : Outcome A) : TabletServer :=
  match o with
  | Returned _ tsv => tsv
  | Blocked tsv => tsv
  end.

(** The state check of [startRequest] as a boolean. *)
Definition gate_open (allowOnShutdown : bool) (s : ServingState) : bool :=
  ServingState_eqb s StateServing
  || (allowOnShutdown && ServingState_eqb s StateShuttingDown).

(** ** A concrete node and a concrete engine

    Inputs on which the definitions above are run in the examples
    below. *)
Module Sample.

Definition master_target : Target := mkTarget "ks" "-80" TabletType_MASTER "zone1".

(** A node that answers for [ks/-80] as master and also allows replica
    traffic, in state [s]. *)
Definition node (s : ServingState) : TabletServer :=
  mkTabletServer 30000000000 true true s 0 master_target
    [TabletType_REPLICA] 0 closed_components [] [] "zone1".

(** A remote caller and a caller with an immediate caller id. *)
Definition remote : Context := mkContext false None [].
Definition remote_dev : Context := mkContext false (Some "dev") [].

Definition other_keyspace : Target := mkTarget "other" "-80" TabletType_MASTER "zone1".
Definition other_shard : Target := mkTarget "ks" "80-" TabletType_MASTER "zone1".
Definition replica_target : Target := mkTarget "ks" "-80" TabletType_REPLICA "zone1".
Definition batch_target : Target := mkTarget "ks" "-80" TabletType_BATCH "zone1".

(** A world in which every step of a start succeeds, and worlds in
    which one step fails. *)
Definition boom : error := VtError Code_UNKNOWN "boom".
Definition all_fine : Externals := mkExternals None Opened Opened Opened None Opened.
Definition no_database : Externals := mkExternals (Some boom) Opened Opened Opened None Opened.
Definition qe_fails : Externals :=
  mkExternals None Opened (OpenFailed boom true) Opened None Opened.
Definition hw_fails : Externals :=
  mkExternals None Opened Opened Opened None (OpenFailed boom true).

(** Bind variables are printed as they are; [%q] puts its argument
    between double quotes. *)
Definition quote (s : string) : string :=
  String "034"%char (s ++ String "034"%char "").

Definition SQLError_Error (n : Z) (st m q : string) : string :=
  m ++ " (errno " ++ decimal n ++ ") (sqlstate " ++ st ++ ")".

(** Two cases of the switch: duplicate entry (1062) and deadlock (1213). *)
Definition errno_switch (n : Z) (errstr : string) (c : Code) : Code :=
  if n =? 1062 then Code_ALREADY_EXISTS
  else if n =? 1213 then Code_ABORTED
  else c.

Definition binds_a : BindVariables string := [("id", "42"); ("name", "alice")].
Definition binds_b : BindVariables string := [("id", "7"); ("name", "bob")].

Definition dup_entry : error :=
  SQLError 1062 "23000" "Duplicate entry 'alice' for key 'name'" "".
Definition deadlock : error :=
  SQLError 1213 "40001" "Deadlock found when trying to get lock" "".
Definition bad_bind : error :=
  VtError Code_INVALID_ARGUMENT "unsupported bind value alice".

(** A query engine that knows one update and one select. *)
Definition SplitMarginComments (sql : string) : string * unit := (sql, tt).

Definition GenerateQuery (pq : string) (bv : BindVariables string) : string + error :=
  match bind_lookup "id" bv with
  | Some v => inl (pq ++ v)
  | None => inr (VtError Code_INVALID_ARGUMENT "missing bind var id")
  end.

Definition update_sql : string := "update t set name = :name where id = :id".
Definition select_sql : string := "select name from t where id = :id".

Definition qe_GetPlan (ctx : Context) (sql : string) (skip : bool)
    : Plan string + error :=
  if String.eqb sql update_sql then inl (mkPlan PlanUpdate "t" (Some " where id = "))
  else if String.eqb sql select_sql then inl (mkPlan PlanSelect "t" (Some " where id = "))
  else inr (VtError Code_INVALID_ARGUMENT "syntax error").

Definition qre_Execute (query : string) (comments : unit)
    (bv : BindVariables string) (connID : Z) (options : option ExecuteOptions)
    (plan : Plan string) (ctx : Context) (tt' : TabletType)
    : option (list string) * option error :=
  (Some [query], None).

Definition StripMetadata (r : list string) (fields : Z) : list string := r.

(** [Execute] on this engine. *)
Definition run_Execute :=
  Execute (fun v : string => v) quote (fun s => s) 0 SQLError_Error errno_switch
    SplitMarginComments StripMetadata qe_GetPlan qre_Execute.

(** [convertAndLogError] on this engine. *)
Definition run_convertAndLogError :=
  convertAndLogError (fun v : string => v) quote (fun s => s) 0
    SQLError_Error errno_switch.

(** [computeTxSerializerKey] on this engine. *)
Definition run_computeTxSerializerKey :=
  computeTxSerializerKey SplitMarginComments GenerateQuery qe_GetPlan.

End Sample.

From Stdlib Require Import Permutation.

(** ** Further conditions named in the statements *)

(** What the starting and stopping of the components leaves alone: the
    configuration, the lameduck flag, the target, [alsoAllow], the drain
    counter and the alias. *)
Definition same_identity (a b : TabletServer) : Prop :=
  QueryTimeout a = QueryTimeout b /\ TerseErrors a = TerseErrors b /\
  enableHotRowProtection a = enableHotRowProtection b /\
  lameduck a = lameduck b /\ target a = target b /\
  alsoAllow a = alsoAllow b /\ requests a = requests b /\
  alias_Cell a = alias_Cell b.

(** The components as the master branch of [serveNewType] leaves them,
    and as its other branch does. *)
Definition master_role (c : Components) : Prop :=
  watcher_open c = false /\ hr_open c = false /\ hw_open c = true /\
  tracker_open c = true /\ te_state c = TxAcceptingReadWrite /\
  messager_open c = true.

Definition replica_role (c : Components) : Prop :=
  messager_open c = false /\ te_state c = TxAcceptingReadOnly /\
  tracker_open c = false /\ hw_open c = false /\ hr_open c = true /\
  watcher_open c = true.

Definition role_of (t : TabletType) (c : Components) : Prop :=
  if TabletType_eqb t TabletType_MASTER then master_role c else replica_role c.

(** Every step of a start succeeds. *)
Definition start_succeeds (ext : Externals) : Prop :=
  NewDBConnection_err ext = None /\ se_Open_res ext = Opened /\
  qe_Open_res ext = Opened /\ txThrottler_Open_res ext = Opened /\
  te_Init_err ext = None /\ hw_Open_res ext = Opened.

(** The target check as a boolean, and the two checks of
    [startRequest] together. *)
Definition target_passes (ctx : Context) (target' : option Target)
    (tsv : TabletServer) : bool :=
  match verifyTarget ctx target' tsv with
  | Returned None _ => true
  | _ => false
  end.

Definition lets_in (ctx : Context) (target' : option Target)
    (allowOnShutdown : bool) (tsv : TabletServer) : bool :=
  gate_open allowOnShutdown (state tsv) && target_passes ctx target' tsv.

(** ** Initialisation, the reachability probe and the heartbeat lag *)

(** [InitDBConfig].  The hand-over of the database configuration to the
    schema engine, the heartbeat writer and reader and the throttler
    changes none of the fields kept here and is not recorded. *)
Definition InitDBConfig (target' : Target) : M (option error) :=
  tsv <- get ;;
  if negb (ServingState_eqb (state tsv) StateNotConnected) then
    ret (Some (vterrors_Errorf Code_UNKNOWN
                 ("InitDBConfig failed, current state: "
                  ++ stateName_at (state tsv))))
  else
    modify (set_target target') ;;
    ret None.

(** [StartService]. *)
Definition StartService (ext : Externals) (target' : Target) : M (option error) :=
  err <- InitDBConfig target' ;;
  match err with
  | Some e => ret (Some e)
  | None =>
      r <- SetServingType ext (Target_TabletType target') true [] ;;
      ret (snd r)
  end.

(** [isMySQLReachable]; [reachable] is the answer of the query engine to
    [IsMySQLReachable()].  The deferred calls run when the function
    returns. *)
Definition isMySQLReachable (reachable : bool) : M bool :=
  tsv <- get ;;
  match state tsv with
  | StateServing =>
      modify (fun tsv => set_requests (requests tsv + 1) tsv) ;;
      modify (fun tsv => set_requests (requests tsv - 1) tsv) ;;
      ret reachable
  | StateNotServing =>
      setState StateTransitioning ;;
      transition StateNotServing ;;
      ret reachable
  | _ => ret true
  end.

(** The goroutine of [CheckMySQL], once the throttling semaphore has let
    it start; the pause of one second before the semaphore is released
    is left out. *)
Definition CheckMySQL (reachable : bool) : M unit :=
  ok <- isMySQLReachable reachable ;;
  if ok then ret tt else StopService.

(** [HeartbeatLag]; [latest] is the answer of the heartbeat reader to
    [GetLatest()], and the reader is open when its component is. *)
Definition HeartbeatLag (latest : Z * option error) (tsv : TabletServer)
    : Z * option error :=
  if negb (hr_open (components tsv)) && negb (IsServing tsv)
  then (0, None)
  else latest.

(** ** The health broadcaster *)

Section Health.

(** [querypb.RealtimeStats]. *)
Variable RealtimeStats : Type.

(** [querypb.StreamHealthResponse]; of the alias the cell is kept. *)
Record StreamHealthResponse : Type := mkStreamHealthResponse {
  shr_Target : Target;
  shr_TabletAlias_Cell : string;
  shr_Serving : bool;
  shr_TabletExternallyReparentedTimestamp : Z;
  shr_RealtimeStats : option RealtimeStats
}.

(** The fields of [TabletServer] that [streamHealthMutex] protects.  A
    channel is the list of the responses it holds, oldest first; the
    map is the list of its entries. *)
Record HealthStreams : Type := mkHealthStreams {
  streamHealthIndex : Z;
  streamHealthMap : list (Z * list StreamHealthResponse);
  lastStreamHealthResponse : option StreamHealthResponse;
  lastStreamHealthExpiration : Z
}.

(** The capacity of the channel made by [streamHealthRegister]. *)
Definition streamHealth_capacity : nat := 10.

(** [delete(m, id)] and [m[id] = ch]. *)
Definition map_delete (id : Z) (m : list (Z * list StreamHealthResponse))
    : list (Z * list StreamHealthResponse) :=
  filter (fun e => negb (fst e =? id)) m.

Definition map_set (id : Z) (ch : list StreamHealthResponse)
    (m : list (Z * list StreamHealthResponse))
    : list (Z * list StreamHealthResponse) :=
  (id, ch) :: map_delete id m.

(** [m[id]]. *)
Definition map_get (id : Z) (m : list (Z * list StreamHealthResponse))
    : option (list StreamHealthResponse) :=
  match find (fun e => fst e =? id) m with
  | Some e => Some (snd e)
  | None => None
  end.

(** [streamHealthRegister]: the id and the node's streams after. *)
Definition streamHealthRegister (hs : HealthStreams) : Z * HealthStreams :=
  let id := streamHealthIndex hs in
  (id,
   mkHealthStreams (streamHealthIndex hs + 1)
     (map_set id [] (streamHealthMap hs))
     (lastStreamHealthResponse hs) (lastStreamHealthExpiration hs)).

(** [streamHealthUnregister]. *)
Definition streamHealthUnregister (id : Z) (hs : HealthStreams) : HealthStreams :=
  mkHealthStreams (streamHealthIndex hs)
    (map_delete id (streamHealthMap hs))
    (lastStreamHealthResponse hs) (lastStreamHealthExpiration hs).

(** [select { case c <- shr: default: }]: a send that does not block. *)
Definition send_nonblocking (shr : StreamHealthResponse)
    (c : list StreamHealthResponse) : list StreamHealthResponse :=
  if (length c <? streamHealth_capacity)%nat then (c ++ [shr])%list else c.

(** [BroadcastHealth], called at time [now]. *)
Definition BroadcastHealth (now terTimestamp : Z) (stats : option RealtimeStats)
    (maxCache : Z) (tsv : TabletServer) (hs : HealthStreams) : HealthStreams :=
  let shr := mkStreamHealthResponse (target tsv) (alias_Cell tsv) (IsServing tsv)
               terTimestamp stats in
  mkHealthStreams (streamHealthIndex hs)
    (map (fun e => (fst e, send_nonblocking shr (snd e))) (streamHealthMap hs))
    (Some shr) (now + maxCache).

(** What a callback of [StreamHealth] answers: nil, [io.EOF], or another
    error. *)
Inductive CallbackResult : Type :=
| callback_ok
| callback_EOF
| callback_error (e : error).

(** The loop of [StreamHealth] over what its channel delivers before the
    context is done. *)
Fixpoint StreamHealth_loop (callback : StreamHealthResponse -> CallbackResult)
    (arrivals : list StreamHealthResponse) : option error :=
  match arrivals with
  | [] => None
  | shr :: rest =>
      match callback shr with
      | callback_ok => StreamHealth_loop callback rest
      | callback_EOF => None
      | callback_error e => Some e
      end
  end.

(** [StreamHealth], called at time [now]; [arrivals] is what the channel
    of the subscription delivers before the context is done. *)
Definition StreamHealth (now : Z) (callback : StreamHealthResponse -> CallbackResult)
    (arrivals : list StreamHealthResponse) (hs : HealthStreams)
    : option error * HealthStreams :=
  let first :=
    match lastStreamHealthResponse hs with
    | Some shr =>
        if now <? lastStreamHealthExpiration hs then callback shr else callback_ok
    | None => callback_ok
    end in
  match first with
  | callback_EOF => (None, hs)
  | callback_error e => (Some e, hs)
  | callback_ok =>
      let id := fst (streamHealthRegister hs) in
      let hs1 := snd (streamHealthRegister hs) in
      (StreamHealth_loop callback arrivals, streamHealthUnregister id hs1)
  end.

End Health.

(** What the health streams keep true: every id in the map is below the
    next index, no id is listed twice, and no channel holds more than
    its capacity. *)
Definition streams_ok {RealtimeStats : Type} (hs : HealthStreams RealtimeStats) : Prop :=
  Forall (fun e => fst e < streamHealthIndex hs) (streamHealthMap hs) /\
  NoDup (map fst (streamHealthMap hs)) /\
  Forall (fun e => (length (snd e) <= streamHealth_capacity)%nat)
    (streamHealthMap hs).

(** ** Transactions *)

(** A call to the transaction engine, the transaction throttler or the
    serializer of the query engine, as it appears in the source;
    [Tx_Done] is the call of the function [txSerializer.Wait] handed
    out. *)
Inductive TxCall : Type :=
| Tx_Throttle
| Tx_Begin (preQueries : list string) (reservedID : Z)
| Tx_Commit (transactionID : Z)
| Tx_Rollback (transactionID : Z)
| Tx_Release (reservedID : Z)
| Tx_ReserveBegin (preQueries : list string)
| Tx_Reserve (transactionID : Z) (preQueries : list string)
| Tx_Wait (key table : string)
| Tx_Done.

Section Transactions.

Variable BindVariable : Type.
Variable BindVariable_String : BindVariable -> string.
Variable quote : string -> string.
Variable TruncateForLog : string -> string.
Variable TruncateErrLen : Z.
Variable SQLError_Error : Z -> string -> string -> string -> string.
Variable mysql_errno_switch : Z -> string -> Code -> Code.
Variable Result : Type.
Variable ParsedQuery : Type.
Variable MarginComments : Type.
Variable SplitMarginComments : string -> string * MarginComments.
Variable GenerateQuery : ParsedQuery -> BindVariables BindVariable -> string + error.
Variable StripMetadata : Result -> Z -> Result.
Variable qe_GetPlan : Context -> string -> bool -> Plan ParsedQuery + error.
Variable qre_Execute :
  string -> MarginComments -> BindVariables BindVariable -> Z ->
  option ExecuteOptions -> Plan ParsedQuery -> Context -> TabletType ->
  option Result * option error.
(** [RowsAffected] of a [sqltypes.Result]. *)
Variable RowsAffected : Result -> Z.

(** The transaction engine, the throttler and the serializer are
    outside this file.  What one of them answers may depend on the calls
    made before, so each takes the calls so far, oldest first.
    [txSerializer_Wait] tells whether the [done] function is non-nil,
    whether the call waited, and the error. *)
Variable txThrottler_Throttle : list TxCall -> bool.
Variable te_Begin :
  list TxCall -> Context -> list string -> Z -> option ExecuteOptions ->
  Z * string * option error.
Variable te_Commit : list TxCall -> Context -> Z -> Z * string * option error.
Variable te_Rollback : list TxCall -> Context -> Z -> Z * option error.
Variable te_Release : list TxCall -> Z -> option error.
Variable te_ReserveBegin :
  list TxCall -> Context -> option ExecuteOptions -> list string ->
  Z * option error.
Variable te_Reserve :
  list TxCall -> Context -> option ExecuteOptions -> Z -> list string ->
  Z * option error.
Variable txSerializer_Wait :
  list TxCall -> Context -> string -> string -> bool * bool * option error.

Local Notation "'execRequest''" :=
  (execRequest BindVariable_String quote TruncateForLog TruncateErrLen
     SQLError_Error mysql_errno_switch) (only parsing).
Local Notation "'Execute''" :=
  (Execute BindVariable_String quote TruncateForLog TruncateErrLen
     SQLError_Error mysql_errno_switch SplitMarginComments StripMetadata
     qe_GetPlan qre_Execute) (only parsing).
Local Notation "'computeTxSerializerKey''" :=
  (computeTxSerializerKey SplitMarginComments GenerateQuery qe_GetPlan)
  (only parsing).

(** [begin], called at time [now] after the calls [log].  The closure
    assigns [transactionID]; the calls made so far travel with it.  The
    result is the transaction id, the alias (its cell), the error and
    the calls.  The text of the statement that [te.Begin] returns goes
    to the statistics only. *)
Definition begin (now : Z) (ctx : Context) (target' : option Target)
    (preQueries : list string) (reservedID : Z)
    (options : option ExecuteOptions) (log : list TxCall)
    : M ((Z * string * option error) * list TxCall) :=
  tsv <- get ;;
  r <- execRequest' now ctx (QueryTimeout tsv) "Begin" "begin" []
         target' options false
         (fun ctx v =>
            let transactionID := fst v in
            let log := snd v in
            if txThrottler_Throttle log then
              ret ((transactionID, (log ++ [Tx_Throttle])%list),
                   Some (vterrors_Errorf Code_RESOURCE_EXHAUSTED
                           "Transaction throttled"))
            else
              let log := (log ++ [Tx_Throttle])%list in
              let b := te_Begin log ctx preQueries reservedID options in
              ret ((fst (fst b), (log ++ [Tx_Begin preQueries reservedID])%list),
                   snd b))
         (0, log) ;;
  ret ((fst (fst r), alias_Cell tsv, snd r), snd (fst r)).

(** [Begin]. *)
Definition Begin (now : Z) (ctx : Context) (target' : option Target)
    (options : option ExecuteOptions) (log : list TxCall)
    : M ((Z * string * option error) * list TxCall) :=
  begin now ctx target' [] 0 options log.

(** [Commit]: the new reserved id, the error and the calls. *)
Definition Commit (now : Z) (ctx : Context) (target' : option Target)
    (transactionID : Z) (log : list TxCall)
    : M ((Z * option error) * list TxCall) :=
  tsv <- get ;;
  r <- execRequest' now ctx (QueryTimeout tsv) "Commit" "commit" []
         target' None true
         (fun ctx v =>
            let log := snd v in
            let c := te_Commit log ctx transactionID in
            ret ((fst (fst c), (log ++ [Tx_Commit transactionID])%list), snd c))
         (0, log) ;;
  ret ((fst (fst r), snd r), snd (fst r)).

(** [Rollback]. *)
Definition Rollback (now : Z) (ctx : Context) (target' : option Target)
    (transactionID : Z) (log : list TxCall)
    : M ((Z * option error) * list TxCall) :=
  tsv <- get ;;
  r <- execRequest' now ctx (QueryTimeout tsv) "Rollback" "rollback" []
         target' None true
         (fun ctx v =>
            let log := snd v in
            let c := te_Rollback log ctx transactionID in
            ret ((fst c, (log ++ [Tx_Rollback transactionID])%list), snd c))
         (0, log) ;;
  ret ((fst (fst r), snd r), snd (fst r)).

(** [Release]. *)
Definition Release (now : Z) (ctx : Context) (target' : option Target)
    (transactionID reservedID : Z) (log : list TxCall)
    : M (option error * list TxCall) :=
  if (reservedID =? 0) && (transactionID =? 0) then
    ret (Some (vterrors_New Code_INVALID_ARGUMENT
                 "Connection Id and Transaction ID does not exists"),
         log)
  else
    tsv <- get ;;
    r <- execRequest' now ctx (QueryTimeout tsv) "Release" "" []
           target' None true
           (fun ctx log =>
              if negb (reservedID =? 0) then
                ret ((log ++ [Tx_Release reservedID])%list,
                     te_Release log reservedID)
              else
                ret ((log ++ [Tx_Rollback transactionID])%list,
                     snd (te_Rollback log ctx transactionID)))
           log ;;
    ret (snd r, fst r).

(** [beginWaitForSameRangeTransactions]: whether [txDone] is non-nil,
    the error and the calls. *)
Definition beginWaitForSameRangeTransactions (now : Z) (ctx : Context)
    (target' : option Target) (options : option ExecuteOptions)
    (sql : string) (bindVariables : BindVariables BindVariable)
    (log : list TxCall)
    : M ((bool * option error) * list TxCall) :=
  tsv <- get ;;
  r <- execRequest' now ctx (QueryTimeout tsv) ""
         "waitForSameRangeTransactions" []
         target' options false
         (fun ctx v =>
            let txDone := fst v in
            let log := snd v in
            kt <- computeTxSerializerKey' ctx sql bindVariables ;;
            if String.eqb (fst kt) "" then ret ((txDone, log), None)
            else
              let w := txSerializer_Wait log ctx (fst kt) (snd kt) in
              ret ((fst (fst w), (log ++ [Tx_Wait (fst kt) (snd kt)])%list),
                   snd w))
         (false, log) ;;
  ret ((fst (fst r), snd r), snd (fst r)).

(** The deferred [txDone()]. *)
Definition deferred_txDone (txDone : bool) (log : list TxCall) : list TxCall :=
  if txDone then (log ++ [Tx_Done])%list else log.

(** [BeginExecute]; [now1], [now2] and [now3] are the times of its three
    requests.  The result, the transaction id, the alias (nil or its
    cell), the error, and the calls. *)
Definition BeginExecute (now1 now2 now3 : Z) (ctx : Context)
    (target' : option Target) (preQueries : list string) (sql : string)
    (bindVariables : BindVariables BindVariable) (reservedID : Z)
    (options : option ExecuteOptions) (log : list TxCall)
    : M ((option Result * Z * option string * option error) * list TxCall) :=
  tsv <- get ;;
  w <- (if enableHotRowProtection tsv && (reservedID =? 0) then
          beginWaitForSameRangeTransactions now1 ctx target' options sql
            bindVariables log
        else ret ((false, None), log)) ;;
  match snd (fst w) with
  | Some e => ret ((None, 0, None, Some e), snd w)
  | None =>
      let txDone := fst (fst w) in
      b <- begin now2 ctx target' preQueries reservedID options (snd w) ;;
      match snd (fst b) with
      | Some e => ret ((None, 0, None, Some e), deferred_txDone txDone (snd b))
      | None =>
          let transactionID := fst (fst (fst b)) in
          let alias := snd (fst (fst b)) in
          x <- Execute' now3 ctx target' sql bindVariables transactionID
                 reservedID options ;;
          ret ((fst x, transactionID, Some alias, snd x),
               deferred_txDone txDone (snd b))
      end
  end.

(** [execDML]; [queryGenerator] is what the generator returns, and
    [now1], [now2] and [now3] are the times of its requests.  The
    deferred calls run in reverse order when the function returns: the
    rollback, the recovery and the end of the request.  A nil result of
    [Execute] makes the last statement panic after the commit; the
    recovery leaves the results as they stand then, zero and nil. *)
Definition execDML (now1 now2 now3 : Z) (ctx : Context)
    (target' : option Target)
    (queryGenerator : (string * BindVariables BindVariable) + error)
    (log : list TxCall)
    : M ((Z * option error) * list TxCall) :=
  err <- startRequest ctx target' false ;;
  match err with
  | Some e => ret ((0, Some e), log)
  | None =>
      r <- match queryGenerator with
           | inr e =>
               ret ((0, Some (vterrors_Errorf Code_INVALID_ARGUMENT (Error SQLError_Error e))),
                    log)
           | inl (query, bv) =>
               b <- Begin now1 ctx target' None log ;;
               match snd (fst b) with
               | Some e => ret ((0, Some e), snd b)
               | None =>
                   let transactionID := fst (fst (fst b)) in
                   x <- Execute' now2 ctx target' query bv transactionID 0 None ;;
                   match snd x with
                   | Some e =>
                       if negb (transactionID =? 0) then
                         k <- Rollback now3 ctx target' transactionID (snd b) ;;
                         ret ((0, Some e), snd k)
                       else ret ((0, Some e), snd b)
                   | None =>
                       c <- Commit now3 ctx target' transactionID (snd b) ;;
                       match snd (fst c) with
                       | Some e => ret ((0, Some e), snd c)
                       | None =>
                           ret ((match fst x with
                                 | Some qr => RowsAffected qr
                                 | None => 0
                                 end, None),
                                snd c)
                       end
                   end
               end
           end ;;
      endRequest ;;
      ret r
  end.

(** [ReserveBeginExecute]: the result, the two ids, the alias, the
    error, and the calls. *)
Definition ReserveBeginExecute (now1 now2 : Z) (ctx : Context)
    (target' : option Target) (sql : string) (preQueries : list string)
    (bindVariables : BindVariables BindVariable)
    (options : option ExecuteOptions) (log : list TxCall)
    : M ((option Result * Z * Z * option string * option error) * list TxCall) :=
  tsv <- get ;;
  r <- execRequest' now1 ctx (QueryTimeout tsv) "ReserveBegin" "begin"
         bindVariables target' options false
         (fun ctx v =>
            let log := snd v in
            let c := te_ReserveBegin log ctx options preQueries in
            ret ((fst c, (log ++ [Tx_ReserveBegin preQueries])%list), snd c))
         (0, log) ;;
  match snd r with
  | Some e => ret ((None, 0, 0, None, Some e), snd (fst r))
  | None =>
      let connID := fst (fst r) in
      x <- Execute' now2 ctx target' sql bindVariables connID connID options ;;
      ret ((fst x, connID, connID, Some (alias_Cell tsv), snd x), snd (fst r))
  end.

(** [ReserveExecute]. *)
Definition ReserveExecute (now1 now2 : Z) (ctx : Context)
    (target' : option Target) (sql : string) (preQueries : list string)
    (bindVariables : BindVariables BindVariable) (transactionID : Z)
    (options : option ExecuteOptions) (log : list TxCall)
    : M ((option Result * Z * option string * option error) * list TxCall) :=
  tsv <- get ;;
  r <- execRequest' now1 ctx (QueryTimeout tsv) "Reserve" ""
         bindVariables target' options false
         (fun ctx v =>
            let log := snd v in
            let c := te_Reserve log ctx options transactionID preQueries in
            ret ((fst c, (log ++ [Tx_Reserve transactionID preQueries])%list),
                 snd c))
         (0, log) ;;
  match snd r with
  | Some e => ret ((None, 0, None, Some e), snd (fst r))
  | None =>
      let connID := fst (fst r) in
      x <- Execute' now2 ctx target' sql bindVariables connID connID options ;;
      ret ((fst x, connID, Some (alias_Cell tsv), snd x), snd (fst r))
  end.

End Transactions.

(** A transaction engine that numbers its transactions and its
    reserved connections by the calls made so far and never fails, a
    throttler that lets everything through, and a serializer that hands
    out a [done] function without waiting. *)
Module SampleTx.

Definition Throttle (log : list TxCall) : bool := false.

Definition te_Begin (log : list TxCall) (ctx : Context) (preQueries : list string)
    (reservedID : Z) (options : option ExecuteOptions)
    : Z * string * option error :=
  (100 + Z.of_nat (length log), "begin", None).

Definition te_Commit (log : list TxCall) (ctx : Context) (transactionID : Z)
    : Z * string * option error :=
  (0, "commit", None).

Definition te_Rollback (log : list TxCall) (ctx : Context) (transactionID : Z)
    : Z * option error :=
  (0, None).

Definition te_ReserveBegin (log : list TxCall) (ctx : Context)
    (options : option ExecuteOptions) (preQueries : list string)
    : Z * option error :=
  (200 + Z.of_nat (length log), None).

Definition te_Reserve (log : list TxCall) (ctx : Context)
    (options : option ExecuteOptions) (transactionID : Z)
    (preQueries : list string) : Z * option error :=
  (200 + Z.of_nat (length log), None).

Definition Wait (log : list TxCall) (ctx : Context) (key table : string)
    : bool * bool * option error :=
  (true, false, None).

End SampleTx.

(** Three subscribers, one of them with a full channel. *)
Definition sample_response (serving : bool) : StreamHealthResponse unit :=
  mkStreamHealthResponse Sample.master_target "cell" serving 0 (@None unit).

Definition sample_streams : HealthStreams unit :=
  mkHealthStreams 5
    [(4, []); (1, repeat (sample_response true) 10); (0, [sample_response false])]
    None 0.

(** * Properties *)

Unset Implicit Arguments.

(** ** Equality tests and small facts *)

Lemma ServingState_eqb_spec a b : reflect (a = b) (ServingState_eqb a b).
Proof. destruct a, b; cbn; constructor; congruence. Qed.

Lemma TabletType_eqb_spec a b : reflect (a = b) (TabletType_eqb a b).
Proof. destruct a, b; cbn; constructor; congruence. Qed.

Lemma TabletType_eqb_refl a : TabletType_eqb a a = true.
Proof. destruct a; reflexivity. Qed.

Lemma Code_eqb_spec a b : reflect (a = b) (Code_eqb a b).
Proof. destruct a, b; cbn; constructor; congruence. Qed.

(** The loop over [alsoAllow] is a membership test. *)
Lemma alsoAllow_has_In t l : alsoAllow_has t l = true <-> In t l.
Proof.
  induction l as [|x l IH]; cbn.
  - split; [discriminate | tauto].
  - destruct (TabletType_eqb_spec t x) as [->|Hne].
    + split; auto.
    + rewrite IH. split; [auto | intros [H|H]; [congruence | exact H]].
Qed.

Lemma alsoAllow_has_not_In t l : alsoAllow_has t l = false <-> ~ In t l.
Proof.
  rewrite <- alsoAllow_has_In. destruct (alsoAllow_has t l); split; congruence.
Qed.

Lemma gate_open_iff allow s :
  gate_open allow s = true <->
  s = StateServing \/ (allow = true /\ s = StateShuttingDown).
Proof.
  unfold gate_open. destruct s, allow; cbn; split; intros H; try discriminate;
    try reflexivity; try tauto;
    destruct H as [H|[H1 H2]]; discriminate.
Qed.

(** A call that the state check turns away leaves the node as it was. *)
Lemma startRequest_turned_away ctx target' allow tsv :
  gate_open allow (state tsv) = false ->
  startRequest ctx target' allow tsv =
  Returned (Some (VtError Code_FAILED_PRECONDITION
                    ("operation not allowed in state " ++ stateName_at (state tsv))))
           tsv.
Proof.
  unfold gate_open, startRequest, bind, get. intros ->. reflexivity.
Qed.

(** Past the state check, [startRequest] runs the same target check as
    [verifyTarget] and counts the request when the check passes. *)
Lemma startRequest_let_in ctx target' allow tsv :
  gate_open allow (state tsv) = true ->
  exists err,
    verifyTarget ctx target' tsv = Returned err tsv /\
    startRequest ctx target' allow tsv =
    Returned err
      (match err with
       | None => set_requests (requests tsv + 1) tsv
       | Some _ => tsv
       end).
Proof.
  unfold gate_open, startRequest, verifyTarget, bind, get. intros ->.
  destruct target' as [tg|]; cbn.
  - destruct (negb (Keyspace tg =? Keyspace (target tsv))%string);
      [eexists; split; reflexivity|].
    destruct (negb (Shard tg =? Shard (target tsv))%string);
      [eexists; split; reflexivity|].
    destruct (negb (TabletType_eqb (Target_TabletType tg)
                      (Target_TabletType (target tsv))));
      [|eexists; split; reflexivity].
    destruct (alsoAllow_has (Target_TabletType tg) (alsoAllow tsv));
      eexists; split; reflexivity.
  - destruct (negb (IsLocalContext ctx)); eexists; split; reflexivity.
Qed.

(** ** The request gate *)

(** C1: [startRequest] can succeed only in state [Serving], or in state
    [ShuttingDown] when [allowOnShutdown] is set; in every other state
    it returns [FAILED_PRECONDITION] with the name of the current state
    in its text; and the drain counter goes up by one exactly when the
    call succeeds, the node being otherwise left as it was. *)
Theorem startRequest_state_gate :
  forall (ctx : Context) (target' : option Target) (allowOnShutdown : bool)
         (tsv : TabletServer),
  exists err tsv',
    startRequest ctx target' allowOnShutdown tsv = Returned err tsv' /\
    (err = None ->
       state tsv = StateServing \/
       (allowOnShutdown = true /\ state tsv = StateShuttingDown)) /\
    (state tsv = StateNotConnected \/ state tsv = StateNotServing \/
     state tsv = StateTransitioning \/
     (state tsv = StateShuttingDown /\ allowOnShutdown = false) ->
       err = Some (VtError Code_FAILED_PRECONDITION
                     ("operation not allowed in state "
                      ++ stateName_at (state tsv)))) /\
    ((err = None /\ tsv' = set_requests (requests tsv + 1) tsv /\
      requests tsv' = requests tsv + 1) \/
     (err <> None /\ tsv' = tsv)).
Proof.
  intros ctx target' allow tsv.
  destruct (gate_open allow (state tsv)) eqn:Hadm.
  - destruct (startRequest_let_in ctx target' allow tsv Hadm) as (err & _ & Hs).
    exists err. eexists. split; [exact Hs|].
    apply gate_open_iff in Hadm. split; [intros _; exact Hadm|]. split.
    + intros Hbad. exfalso.
      destruct Hadm as [H|[H1 H2]]; rewrite ?H, ?H2 in Hbad;
        destruct Hbad as [Hb|[Hb|[Hb|[Hb1 Hb2]]]]; congruence.
    + destruct err; [right; split; [discriminate|reflexivity]|].
      left. repeat split; reflexivity.
  - rewrite (startRequest_turned_away ctx target' allow tsv Hadm).
    do 2 eexists. split; [reflexivity|]. split; [discriminate|].
    split; [reflexivity|]. right. split; [discriminate|reflexivity].
Qed.

(** C2, as stated, fails for [startRequest]: in a state that the state
    check turns away, a target with a foreign keyspace gets
    [FAILED_PRECONDITION], not [INVALID_ARGUMENT]; and a local context
    without a target is refused as well. *)
Lemma startRequest_target_check_behind_state_check :
  Keyspace Sample.other_keyspace <> Keyspace (target (Sample.node StateNotServing)) /\
  startRequest Sample.remote (Some Sample.other_keyspace) false
    (Sample.node StateNotServing)
  = Returned
      (Some (VtError Code_FAILED_PRECONDITION
               "operation not allowed in state NOT_SERVING"))
      (Sample.node StateNotServing) /\
  Code_FAILED_PRECONDITION <> Code_INVALID_ARGUMENT /\
  IsLocalContext LocalContext = true /\
  startRequest LocalContext None false (Sample.node StateNotServing)
  = Returned
      (Some (VtError Code_FAILED_PRECONDITION
               "operation not allowed in state NOT_SERVING"))
      (Sample.node StateNotServing).
Proof.
  split; [cbn; discriminate|].
  split; [reflexivity|].
  split; [discriminate|].
  split; reflexivity.
Qed.

(** C2, amended: [verifyTarget] in every state, and [startRequest]
    whenever its state check lets the call in, run one and the same
    target check.  For a non-null target the check returns
    [INVALID_ARGUMENT] when keyspace or shard differ from the node's,
    [FAILED_PRECONDITION] when they agree and the tablet type is neither
    the node's nor in [alsoAllow], and passes when they agree and the
    tablet type is the node's or in [alsoAllow].  For a null target it
    passes exactly for a local context and is [INVALID_ARGUMENT] with the
    text [No target] otherwise. *)
Theorem target_check_classification :
  forall (ctx : Context) (target' : option Target) (tsv : TabletServer),
  exists err,
    verifyTarget ctx target' tsv = Returned err tsv /\
    (forall allowOnShutdown,
       state tsv = StateServing \/
       (allowOnShutdown = true /\ state tsv = StateShuttingDown) ->
       startRequest ctx target' allowOnShutdown tsv =
       Returned err
         (match err with
          | None => set_requests (requests tsv + 1) tsv
          | Some _ => tsv
          end)) /\
    match target' with
    | Some tg =>
        (Keyspace tg <> Keyspace (target tsv) \/ Shard tg <> Shard (target tsv) ->
         exists m, err = Some (VtError Code_INVALID_ARGUMENT m)) /\
        (Keyspace tg = Keyspace (target tsv) ->
         Shard tg = Shard (target tsv) ->
         Target_TabletType tg <> Target_TabletType (target tsv) ->
         ~ In (Target_TabletType tg) (alsoAllow tsv) ->
         exists m, err = Some (VtError Code_FAILED_PRECONDITION m)) /\
        (Keyspace tg = Keyspace (target tsv) ->
         Shard tg = Shard (target tsv) ->
         Target_TabletType tg = Target_TabletType (target tsv) \/
         In (Target_TabletType tg) (alsoAllow tsv) ->
         err = None)
    | None =>
        (err = None <-> IsLocalContext ctx = true) /\
        (IsLocalContext ctx = false ->
         err = Some (VtError Code_INVALID_ARGUMENT "No target"))
    end.
Proof.
  intros ctx target' tsv.
  assert (Hstart : forall err,
             verifyTarget ctx target' tsv = Returned err tsv ->
             forall allow,
               state tsv = StateServing \/
               (allow = true /\ state tsv = StateShuttingDown) ->
               startRequest ctx target' allow tsv =
               Returned err
                 (match err with
                  | None => set_requests (requests tsv + 1) tsv
                  | Some _ => tsv
                  end)).
  { intros err Hv allow Hopen. apply gate_open_iff in Hopen.
    destruct (startRequest_let_in ctx target' allow tsv Hopen) as (err' & Hv' & Hs).
    rewrite Hv in Hv'. injection Hv' as <-. exact Hs. }
  destruct target' as [tg|].
  - unfold verifyTarget, bind, get in *.
    destruct (String.eqb_spec (Keyspace tg) (Keyspace (target tsv))) as [Hk|Hk]; cbn in *.
    2:{ eexists. split; [reflexivity|]. split; [apply Hstart; reflexivity|].
        repeat split; intros; try congruence. eexists; reflexivity. }
    destruct (String.eqb_spec (Shard tg) (Shard (target tsv))) as [Hs|Hs]; cbn in *.
    2:{ eexists. split; [reflexivity|]. split; [apply Hstart; reflexivity|].
        repeat split; intros; try congruence. eexists; reflexivity. }
    destruct (TabletType_eqb_spec (Target_TabletType tg)
                (Target_TabletType (target tsv))) as [Ht|Ht]; cbn in *.
    { eexists. split; [reflexivity|]. split; [apply Hstart; reflexivity|].
      repeat split; intros; try congruence. tauto. }
    destruct (alsoAllow_has (Target_TabletType tg) (alsoAllow tsv)) eqn:Ha; cbn in *.
    + apply alsoAllow_has_In in Ha.
      eexists. split; [reflexivity|]. split; [apply Hstart; reflexivity|].
      repeat split; intros; try congruence; tauto.
    + apply alsoAllow_has_not_In in Ha.
      eexists. split; [reflexivity|]. split; [apply Hstart; reflexivity|].
      repeat split; intros; try tauto. eexists; reflexivity.
  - unfold verifyTarget, bind, get in *.
    destruct (IsLocalContext ctx) eqn:Hl; cbn in *.
    + eexists. split; [reflexivity|]. split; [apply Hstart; reflexivity|].
      repeat split; intros; congruence.
    + eexists. split; [reflexivity|]. split; [apply Hstart; reflexivity|].
      repeat split; intros; congruence.
Qed.

(** The three verdicts of the target check on a serving node, and the
    tablet type let in by [alsoAllow]. *)
Example startRequest_foreign_shard :
  startRequest Sample.remote (Some Sample.other_shard) false (Sample.node StateServing)
  = Returned (Some (VtError Code_INVALID_ARGUMENT "invalid shard 80-"))
      (Sample.node StateServing).
Proof. reflexivity. Qed.

Example startRequest_foreign_type :
  startRequest Sample.remote (Some Sample.batch_target) false (Sample.node StateServing)
  = Returned
      (Some (VtError Code_FAILED_PRECONDITION
               "invalid tablet type: RDONLY, want: MASTER or [REPLICA]"))
      (Sample.node StateServing).
Proof. reflexivity. Qed.

Example startRequest_also_allowed :
  startRequest Sample.remote (Some Sample.replica_target) false (Sample.node StateServing)
  = Returned None (set_requests 1 (Sample.node StateServing)).
Proof. reflexivity. Qed.

Example verifyTarget_not_serving :
  verifyTarget Sample.remote (Some Sample.other_keyspace) (Sample.node StateNotServing)
  = Returned (Some (VtError Code_INVALID_ARGUMENT "invalid keyspace other"))
      (Sample.node StateNotServing).
Proof. reflexivity. Qed.

(** C10: the table of state names gives [NotConnected], [NotServing]
    and [Transitioning] the one name [NOT_SERVING]; only [Serving] and
    [ShuttingDown] have names of their own.  So [GetState], and the
    error text of [startRequest], are the same in these three states. *)
Theorem stateName_three_states_one_name :
  (stateName_at StateNotConnected = "NOT_SERVING" /\
   stateName_at StateNotServing = "NOT_SERVING" /\
   stateName_at StateTransitioning = "NOT_SERVING" /\
   stateName_at StateServing = "SERVING" /\
   stateName_at StateShuttingDown = "SHUTTING_DOWN") /\
  (forall s1 s2,
     stateName_at s1 = stateName_at s2 <->
     (s1 = s2 \/
      (In s1 [StateNotConnected; StateNotServing; StateTransitioning] /\
       In s2 [StateNotConnected; StateNotServing; StateTransitioning]))) /\
  (forall tsv s1 s2,
     In s1 [StateNotConnected; StateNotServing; StateTransitioning] ->
     In s2 [StateNotConnected; StateNotServing; StateTransitioning] ->
     GetState (set_state s1 tsv) = GetState (set_state s2 tsv)) /\
  (forall ctx target' allowOnShutdown tsv s,
     In s [StateNotConnected; StateNotServing; StateTransitioning] ->
     startRequest ctx target' allowOnShutdown (set_state s tsv) =
     Returned
       (Some (VtError Code_FAILED_PRECONDITION
                "operation not allowed in state NOT_SERVING"))
       (set_state s tsv)).
Proof.
  split; [repeat split; reflexivity|].
  split.
  { intros s1 s2. split.
    - destruct s1, s2; cbn; intros H; try discriminate; tauto.
    - intros [->|[H1 H2]]; [reflexivity|].
      cbn in H1, H2.
      destruct H1 as [<-|[<-|[<-|[]]]]; destruct H2 as [<-|[<-|[<-|[]]]];
        reflexivity. }
  split.
  { intros tsv s1 s2 H1 H2. unfold GetState. cbn.
    destruct (negb (lameduck tsv =? 0)); [reflexivity|].
    cbn in H1, H2.
    destruct H1 as [<-|[<-|[<-|[]]]]; destruct H2 as [<-|[<-|[<-|[]]]];
      reflexivity. }
  intros ctx target' allow tsv s H.
  cbn in H. destruct H as [<-|[<-|[<-|[]]]]; destruct allow; reflexivity.
Qed.

(** ** Changing the serving type *)

(** C3: [decideAction] follows the transition table.  From
    [NotConnected] it selects [FullStart] exactly when serving is
    wanted, and nothing otherwise; from [NotServing] it selects
    [ServeNewType] exactly when serving is wanted, and nothing
    otherwise; from [Serving] it selects [GracefulStop] when serving is
    not wanted, nothing when the tablet type is the current one and
    serving is wanted, and [ServeNewType] otherwise; from
    [Transitioning] and [ShuttingDown] it fails with
    [FAILED_PRECONDITION] whatever the arguments. *)
Theorem decideAction_table :
  forall (tabletType : TabletType) (serving : bool)
         (alsoAllow' : list TabletType) (tsv : TabletServer),
  exists action err tsv',
    decideAction tabletType serving alsoAllow' tsv = Returned (action, err) tsv' /\
    (state tsv = StateNotConnected ->
       err = None /\
       (action = actionFullStart <-> serving = true) /\
       (serving = false -> action = actionNone)) /\
    (state tsv = StateNotServing ->
       err = None /\
       (action = actionServeNewType <-> serving = true) /\
       (serving = false -> action = actionNone)) /\
    (state tsv = StateServing ->
       err = None /\
       (serving = false -> action = actionGracefulStop) /\
       (serving = true -> Target_TabletType (target tsv) = tabletType ->
        action = actionNone) /\
       (serving = true -> Target_TabletType (target tsv) <> tabletType ->
        action = actionServeNewType)) /\
    (state tsv = StateTransitioning \/ state tsv = StateShuttingDown ->
       action = actionNone /\
       err = Some (VtError Code_FAILED_PRECONDITION
                     ("cannot SetServingType, current state: "
                      ++ stateName_at (state tsv)))) /\
    state tsv' =
      match action with
      | actionNone => state tsv
      | actionFullStart | actionServeNewType => StateTransitioning
      | actionGracefulStop => StateShuttingDown
      end /\
    alsoAllow tsv' = alsoAllow'.
Proof.
  intros tabletType serving alsoAllow' tsv.
  unfold decideAction, bind, get, modify, setState, ret. cbn.
  destruct (TabletType_eqb_spec (Target_TabletType (target tsv)) tabletType) as [Ht|Ht];
    destruct serving; destruct (state tsv) eqn:Hst; cbn;
    do 3 eexists; (split; [reflexivity|]);
    repeat split; intros; try reflexivity; try congruence;
    try (cbn; congruence);
    try match goal with
        | H : _ \/ _ |- _ => destruct H; congruence
        end.
Qed.

Example decideAction_cold_start :
  decideAction TabletType_MASTER true [] (Sample.node StateNotConnected)
  = Returned (actionFullStart, None)
      (set_history [mkHistoryRecord "NOT_SERVING (Transitioning)" "MASTER"]
         (set_state StateTransitioning
            (set_alsoAllow [] (Sample.node StateNotConnected)))).
Proof. reflexivity. Qed.

(** C9: a [SetServingType] that is refused because the node is in
    [Transitioning] or [ShuttingDown] has written to the node all the
    same: [alsoAllow] and the tablet type of the target hold the
    requested values and the lameduck flag is cleared; nothing else has
    changed. *)
Theorem SetServingType_refused_still_writes :
  forall (ext : Externals) (tabletType : TabletType) (serving : bool)
         (alsoAllow' : list TabletType) (tsv : TabletServer),
    state tsv = StateTransitioning \/ state tsv = StateShuttingDown ->
    exists tsv',
      SetServingType ext tabletType serving alsoAllow' tsv =
      Returned
        (false,
         Some (VtError Code_FAILED_PRECONDITION
                 ("cannot SetServingType, current state: "
                  ++ stateName_at (state tsv))))
        tsv' /\
      alsoAllow tsv' = alsoAllow' /\
      Target_TabletType (target tsv') = tabletType /\
      lameduck tsv' = 0 /\
      tsv' = set_lameduck 0
               (set_target (set_TabletType tabletType (target tsv))
                  (set_alsoAllow alsoAllow' tsv)).
Proof.
  intros ext tabletType serving alsoAllow' tsv Hst.
  unfold SetServingType, decideAction, bind, get, modify, ret, ExitLameduck. cbn.
  assert (Hns : ServingState_eqb (state tsv) StateServing = false)
    by (destruct Hst as [-> | ->]; reflexivity).
  rewrite Hns, !andb_false_r.
  destruct Hst as [Hst|Hst]; rewrite Hst; cbn;
    eexists; (split; [reflexivity|]); repeat split; reflexivity.
Qed.

(** On a node in lameduck mode that is in a transition, a refused call
    replaces [alsoAllow], the tablet type and the flag. *)
Lemma SetServingType_refused_still_writes_sample :
  exists tsv',
    SetServingType Sample.all_fine TabletType_REPLICA true [TabletType_BATCH]
      (set_lameduck 1 (Sample.node StateTransitioning)) =
    Returned
      (false,
       Some (VtError Code_FAILED_PRECONDITION
               "cannot SetServingType, current state: NOT_SERVING"))
      tsv' /\
    alsoAllow tsv' = [TabletType_BATCH] /\
    Target_TabletType (target tsv') = TabletType_REPLICA /\
    lameduck tsv' = 0 /\
    tsv' <> set_lameduck 1 (Sample.node StateTransitioning).
Proof.
  destruct (SetServingType_refused_still_writes Sample.all_fine TabletType_REPLICA
              true [TabletType_BATCH]
              (set_lameduck 1 (Sample.node StateTransitioning)))
    as (tsv' & Hrun & Ha & Ht & Hl & Heq).
  - left. reflexivity.
  - exists tsv'. repeat split; try assumption.
    intros Hsame. rewrite Hsame in Hl. discriminate.
Defined.

(** From [NotConnected], a wish to serve selects the full start and
    stores the requested tablet type. *)
Lemma decideAction_from_NotConnected tabletType alsoAllow' tsv :
  state tsv = StateNotConnected ->
  exists tsv1,
    decideAction tabletType true alsoAllow' tsv
    = Returned (actionFullStart, None) tsv1 /\
    Target_TabletType (target tsv1) = tabletType.
Proof.
  destruct tsv as [qt te hp st ld tg aa rq cs cl hi al]. cbn.
  intros ->. unfold decideAction, bind, get, modify, setState, ret. cbn.
  rewrite andb_false_r.
  eexists. split; reflexivity.
Qed.

(** [closeAll] never blocks; it closes the ten components, makes the
    eleven calls of its body in order and ends in [NotConnected]. *)
Lemma closeAll_closes tsv :
  exists tsv',
    closeAll tsv = Returned tt tsv' /\
    all_closed (components tsv') /\
    state tsv' = StateNotConnected /\
    calls tsv' =
      (calls tsv ++
       [Call_messager_Close; Call_te_Close; Call_txThrottler_Close;
        Call_qe_StopServing; Call_qe_Close; Call_watcher_Close;
        Call_tracker_Close; Call_vstreamer_Close; Call_hr_Close;
        Call_hw_Close; Call_se_Close])%list.
Proof.
  exists (node_after (closeAll tsv)).
  destruct tsv as [qt te hp st ld tg aa rq [c1 c2 c3 c4 c5 c6 c7 c8 c9 c10] cl hi al].
  cbv -[app history_Add stateInfo TabletType_String].
  repeat rewrite <- app_assoc. repeat split.
Qed.

(** [fullStart] returns an error as soon as one of its steps does; the
    heartbeat writer is a step of it on a master only. *)
Lemma fullStart_fails ext tsv :
  NewDBConnection_err ext <> None \/
  (exists e b, se_Open_res ext = OpenFailed e b) \/
  (exists e b, qe_Open_res ext = OpenFailed e b) \/
  (exists e b, txThrottler_Open_res ext = OpenFailed e b) \/
  te_Init_err ext <> None \/
  (Target_TabletType (target tsv) = TabletType_MASTER /\
   exists e b, hw_Open_res ext = OpenFailed e b) ->
  exists e, fullStart ext tsv = Returned (Some e) (node_after (fullStart ext tsv)).
Proof.
  destruct ext as [db se qe tx ti hw].
  destruct tsv as [qt te hp st ld [ks sh ty ce] aa rq cs cl hi al].
  cbn [NewDBConnection_err se_Open_res qe_Open_res txThrottler_Open_res
       te_Init_err hw_Open_res target Target_TabletType].
  intros Hfail.
  destruct db as [e|]; [exists e; vm_compute; reflexivity|].
  destruct se as [|e b]; [|exists e; vm_compute; reflexivity].
  destruct qe as [|e b]; [|exists e; vm_compute; reflexivity].
  destruct tx as [|e b]; [|exists e; vm_compute; reflexivity].
  destruct ti as [e|]; [exists e; vm_compute; reflexivity|].
  destruct Hfail as [H|[(e & b & H)|[(e & b & H)|[(e & b & H)|[H|(Hm & e & b & H)]]]]];
    try congruence.
  subst hw ty. exists e. vm_compute. reflexivity.
Qed.

(** C4: when a step of [fullStart] fails (the database connection, the
    opening of the schema engine, of the query engine or of the
    transaction throttler, the initialisation of the transaction engine,
    or the delegated [serveNewType], which fails with the heartbeat
    writer of a master), [SetServingType] runs [closeAll] on what the
    failed start left behind and returns the error; every component is
    then closed and the node is in [NotConnected]. *)
Theorem fullStart_failure_closes_everything :
  forall (ext : Externals) (tabletType : TabletType)
         (alsoAllow' : list TabletType) (tsv : TabletServer),
    state tsv = StateNotConnected ->
    NewDBConnection_err ext <> None \/
    (exists e b, se_Open_res ext = OpenFailed e b) \/
    (exists e b, qe_Open_res ext = OpenFailed e b) \/
    (exists e b, txThrottler_Open_res ext = OpenFailed e b) \/
    te_Init_err ext <> None \/
    (tabletType = TabletType_MASTER /\
     exists e b, hw_Open_res ext = OpenFailed e b) ->
    exists e tsv1 tsv2 tsv3,
      decideAction tabletType true alsoAllow' tsv
      = Returned (actionFullStart, None) tsv1 /\
      fullStart ext tsv1 = Returned (Some e) tsv2 /\
      closeAll tsv2 = Returned tt tsv3 /\
      SetServingType ext tabletType true alsoAllow' tsv
      = Returned (true, Some e) (set_lameduck 0 tsv3) /\
      all_closed (components (set_lameduck 0 tsv3)) /\
      state (set_lameduck 0 tsv3) = StateNotConnected.
Proof.
  intros ext tabletType alsoAllow' tsv Hst Hfail.
  destruct (decideAction_from_NotConnected tabletType alsoAllow' tsv Hst)
    as (tsv1 & Hdecide & Htype).
  destruct (fullStart_fails ext tsv1) as (e & Hstart).
  { rewrite Htype. exact Hfail. }
  set (tsv2 := node_after (fullStart ext tsv1)) in *.
  destruct (closeAll_closes tsv2) as (tsv3 & Hclose & Hclosed & Hstate & _).
  exists e, tsv1, tsv2, tsv3.
  repeat split; try assumption; try apply Hclosed.
  unfold SetServingType, bind. rewrite Hdecide. cbn [fst snd].
  rewrite Hstart, Hclose. reflexivity.
Qed.

(** A master whose heartbeat writer does not open: the start undone. *)
Lemma fullStart_failure_closes_everything_sample :
  exists tsv',
    SetServingType Sample.hw_fails TabletType_MASTER true []
      (Sample.node StateNotConnected)
    = Returned (true, Some Sample.boom) tsv' /\
    all_closed (components tsv') /\
    state tsv' = StateNotConnected.
Proof.
  destruct (fullStart_failure_closes_everything Sample.hw_fails TabletType_MASTER []
              (Sample.node StateNotConnected))
    as (e & tsv1 & tsv2 & tsv3 & Hd & Hf & Hc & Hs & Hclosed & Hstate).
  - reflexivity.
  - do 5 right. split; [reflexivity|]. exists Sample.boom, true. reflexivity.
  - exists (set_lameduck 0 tsv3). split; [|split; assumption].
    rewrite Hs.
    assert (He : Some e = Some Sample.boom).
    { pose proof Hs as Hrun. vm_compute in Hrun. unfold Sample.boom. congruence. }
    injection He as ->. reflexivity.
Defined.

(** ** Deadlines *)

Lemma context_WithTimeout_fresh now ctx timeout :
  context_WithTimeout now ctx timeout <> ctx.
Proof.
  destruct ctx as [l c d]. unfold context_WithTimeout. cbn.
  intros H. injection H as H.
  apply (f_equal (@length Z)) in H. cbn in H. lia.
Qed.


Example withTimeout_remote :
  withTimeout 100 Sample.remote 30 None
  = (mkContext false None [130], cancel_timeout).
Proof. reflexivity. Qed.

Example withTimeout_local :
  withTimeout 100 LocalContext 30 None = (LocalContext, cancel_nothing).
Proof. reflexivity. Qed.

Example withTimeout_dba :
  withTimeout 100 Sample.remote 30 (Some (mkExecuteOptions Workload_DBA false 0))
  = (Sample.remote, cancel_nothing).
Proof. reflexivity. Qed.

(** ** The engine: identifiers, the hot-row key, terse errors *)

Section EngineProperties.

Variable BindVariable : Type.
Variable BindVariable_String : BindVariable -> string.
Variable quote : string -> string.
Variable TruncateForLog : string -> string.
Variable TruncateErrLen : Z.
Variable SQLError_Error : Z -> string -> string -> string -> string.
Variable mysql_errno_switch : Z -> string -> Code -> Code.
Variable Result : Type.
Variable ParsedQuery : Type.
Variable MarginComments : Type.
Variable SplitMarginComments : string -> string * MarginComments.
Variable GenerateQuery : ParsedQuery -> BindVariables BindVariable -> string + error.
Variable StripMetadata : Result -> Z -> Result.
Variable qe_GetPlan : Context -> string -> bool -> Plan ParsedQuery + error.
Variable qre_Execute :
  string -> MarginComments -> BindVariables BindVariable -> Z ->
  option ExecuteOptions -> Plan ParsedQuery -> Context -> TabletType ->
  option Result * option error.

(** C5: an [Execute] whose transaction id and reserved id are both
    non-zero and differ returns an [INTERNAL] error and a nil result; the
    request is not performed: the node, its drain counter and its call
    trace are as before. *)
Theorem Execute_rejects_mismatched_ids :
  forall (now : Z) (ctx : Context) (target' : option Target) (sql : string)
         (bindVariables : BindVariables BindVariable)
         (transactionID reservedID : Z) (options : option ExecuteOptions)
         (tsv : TabletServer),
    transactionID <> 0 ->
    reservedID <> 0 ->
    transactionID <> reservedID ->
    Execute BindVariable_String quote TruncateForLog TruncateErrLen
      SQLError_Error mysql_errno_switch SplitMarginComments StripMetadata
      qe_GetPlan qre_Execute
      now ctx target' sql bindVariables transactionID reservedID options tsv
    = Returned
        (None,
         Some (VtError Code_INTERNAL
                 "transactionID and reserveID must match if both are non-zero"))
        tsv.
Proof.
  intros now ctx target' sql bindVariables transactionID reservedID options tsv
    Ht Hr Hne.
  unfold Execute.
  apply Z.eqb_neq in Ht, Hr, Hne. rewrite Ht, Hr, Hne. reflexivity.
Qed.

(** Close the cases in which no key is computed. *)
Ltac no_key :=
  repeat split; intros; try congruence;
  repeat match goal with
         | H : inl _ = inl _ |- _ => injection H as <-
         end;
  try congruence.

(** C7: [computeTxSerializerKey] returns the empty key, and the empty
    table, unless the plan of the query is an update or a delete, with
    or without limit, has a table name that is not empty and a
    where-clause, and the where-clause is rendered with the bind
    variables of the call; when all of this holds the key is the table
    name followed by the rendered where-clause and the table is the
    table name. *)
Theorem computeTxSerializerKey_key :
  forall (ctx : Context) (sql : string)
         (bindVariables : BindVariables BindVariable) (tsv : TabletServer),
  exists key table tsv',
    computeTxSerializerKey SplitMarginComments GenerateQuery qe_GetPlan
      ctx sql bindVariables tsv
    = Returned (key, table) tsv' /\
    (forall plan whereClause where_,
       qe_GetPlan ctx (fst (SplitMarginComments sql)) false = inl plan ->
       PlanID plan = PlanUpdate \/ PlanID plan = PlanUpdateLimit \/
       PlanID plan = PlanDelete \/ PlanID plan = PlanDeleteLimit ->
       TableName plan <> "" ->
       WhereClause plan = Some whereClause ->
       GenerateQuery whereClause bindVariables = inl where_ ->
       key = TableName plan ++ where_ /\ table = TableName plan) /\
    (key <> "" ->
     exists plan whereClause where_,
       qe_GetPlan ctx (fst (SplitMarginComments sql)) false = inl plan /\
       (PlanID plan = PlanUpdate \/ PlanID plan = PlanUpdateLimit \/
        PlanID plan = PlanDelete \/ PlanID plan = PlanDeleteLimit) /\
       TableName plan <> "" /\
       WhereClause plan = Some whereClause /\
       GenerateQuery whereClause bindVariables = inl where_) /\
    (key = "" -> table = "").
Proof.
  intros ctx sql bindVariables tsv.
  unfold computeTxSerializerKey, bind, call, modify, ret, IsEmpty.
  destruct (qe_GetPlan ctx (fst (SplitMarginComments sql)) false)
    as [plan|e] eqn:Hplan.
  2:{ do 3 eexists. split; [reflexivity|]. repeat split; intros; congruence. }
  destruct (String.eqb_spec (TableName plan) "") as [Hname|Hname].
  { do 3 eexists. split; [destruct (PlanID plan); reflexivity|]. no_key. }
  destruct (WhereClause plan) as [whereClause|] eqn:Hwhere.
  2:{ do 3 eexists. split; [destruct (PlanID plan); reflexivity|]. no_key. }
  destruct (GenerateQuery whereClause bindVariables) as [where_|e] eqn:Hgen.
  2:{ do 3 eexists. split; [destruct (PlanID plan); reflexivity|]. no_key. }
  assert (Hkey : TableName plan ++ where_ <> "")
    by (destruct (TableName plan); [congruence|discriminate]).
  destruct (PlanID plan) eqn:Hid;
    do 3 eexists; (split; [reflexivity|]);
    try (no_key; match goal with
                 | H : _ \/ _ |- _ => destruct H as [H|[H|[H|H]]]; congruence
                 end).
  all: split; [|split].
  all: try (intros Hk; contradiction).
  all: try (intros _; exists plan, whereClause, where_;
            repeat split; try assumption; tauto).
  all: intros plan' w' r' Hp Hk Hn Hw Hg; injection Hp as <-;
    rewrite Hwhere in Hw; injection Hw as <-;
    rewrite Hgen in Hg; injection Hg as <-; split; reflexivity.
Qed.


End EngineProperties.

(** Mismatched identifiers on the sample engine. *)
Lemma Execute_rejects_mismatched_ids_sample :
  Sample.run_Execute 0 Sample.remote (Some Sample.master_target)
    Sample.update_sql Sample.binds_a 5 6 None (Sample.node StateServing)
  = Returned
      (None,
       Some (VtError Code_INTERNAL
               "transactionID and reserveID must match if both are non-zero"))
      (Sample.node StateServing).
Proof.
  unfold Sample.run_Execute.
  apply Execute_rejects_mismatched_ids; lia.
Defined.

(** With equal identifiers the request is performed on connection 5. *)
Example Execute_matching_ids :
  Sample.run_Execute 0 Sample.remote (Some Sample.master_target)
    Sample.update_sql Sample.binds_a 5 5 None (Sample.node StateServing)
  = Returned
      (Some [Sample.update_sql], None)
      (set_calls [Call_qe_GetPlan Sample.update_sql; Call_qre_Execute 5]
         (Sample.node StateServing)).
Proof. vm_compute. reflexivity. Qed.

Example computeTxSerializerKey_update :
  Sample.run_computeTxSerializerKey Sample.remote Sample.update_sql Sample.binds_a
    (Sample.node StateServing)
  = Returned ("t where id = 42", "t")
      (set_calls [Call_qe_GetPlan Sample.update_sql] (Sample.node StateServing)).
Proof. vm_compute. reflexivity. Qed.

Example computeTxSerializerKey_select :
  Sample.run_computeTxSerializerKey Sample.remote Sample.select_sql Sample.binds_a
    (Sample.node StateServing)
  = Returned ("", "")
      (set_calls [Call_qe_GetPlan Sample.select_sql] (Sample.node StateServing)).
Proof. vm_compute. reflexivity. Qed.



(** Without terse mode the same error shows the bind variables. *)
Example verbose_error_message :
  fst (Sample.run_convertAndLogError
         (mkTabletServer 0 false true StateServing 0 Sample.master_target [] 0
            closed_components [] [] "zone1")
         Sample.remote Sample.update_sql Sample.binds_a Sample.deadlock)
  = VtError Code_ABORTED
      ("Deadlock found when trying to get lock (errno 1213) (sqlstate 40001): Sql: "
       ++ Sample.quote Sample.update_sql
       ++ ", BindVars: {id: " ++ Sample.quote "42"
       ++ "name: " ++ Sample.quote "alice" ++ "}").
Proof. vm_compute. reflexivity. Qed.

(** * Further properties *)

(** ** Sequencing *)

Lemma bind_Returned {A B : Type} (m : M A) (f : A -> M B) tsv a tsv1 :
  m tsv = Returned a tsv1 -> bind m f tsv = f a tsv1.
Proof. unfold bind. intros ->. reflexivity. Qed.

Lemma bind_Blocked {A B : Type} (m : M A) (f : A -> M B) tsv tsv1 :
  m tsv = Blocked tsv1 -> bind m f tsv = Blocked tsv1.
Proof. unfold bind. intros ->. reflexivity. Qed.

Lemma ExitLameduck_ret {A : Type} (r : A) tsv :
  bind ExitLameduck (fun _ => ret r) tsv = Returned r (set_lameduck 0 tsv).
Proof. reflexivity. Qed.

Lemma SetServingType_eq ext tabletType serving alsoAllow' tsv action err tsv1 :
  decideAction tabletType serving alsoAllow' tsv = Returned (action, err) tsv1 ->
  SetServingType ext tabletType serving alsoAllow' tsv =
  match err with
  | Some e => Returned (false, Some e) (set_lameduck 0 tsv1)
  | None =>
      match action with
      | actionNone => Returned (false, None) (set_lameduck 0 tsv1)
      | actionFullStart =>
          match fullStart ext tsv1 with
          | Returned (Some e) t =>
              match closeAll t with
              | Returned _ k => Returned (true, Some e) (set_lameduck 0 k)
              | Blocked k => Blocked k
              end
          | Returned None t => Returned (true, None) (set_lameduck 0 t)
          | Blocked t => Blocked t
          end
      | actionServeNewType =>
          match serveNewType ext tsv1 with
          | Returned (Some e) t =>
              match closeAll t with
              | Returned _ k => Returned (true, Some e) (set_lameduck 0 k)
              | Blocked k => Blocked k
              end
          | Returned None t => Returned (true, None) (set_lameduck 0 t)
          | Blocked t => Blocked t
          end
      | actionGracefulStop =>
          match gracefulStop tsv1 with
          | Returned _ g => Returned (true, None) (set_lameduck 0 g)
          | Blocked g => Blocked g
          end
      end
  end.
Proof.
  intros Hd. unfold SetServingType.
  destruct err as [e|].
  { rewrite (bind_Returned _ _ _ (false, Some e) tsv1).
    - apply ExitLameduck_ret.
    - rewrite (bind_Returned _ _ _ _ _ Hd). reflexivity. }
  destruct action.
  - rewrite (bind_Returned _ _ _ (false, None) tsv1).
    + apply ExitLameduck_ret.
    + rewrite (bind_Returned _ _ _ _ _ Hd). reflexivity.
  - destruct (fullStart ext tsv1) as [[e|] t|t] eqn:Hf.
    + destruct (closeAll t) as [[] k|k] eqn:Hk.
      * rewrite (bind_Returned _ _ _ (true, Some e) k).
        -- apply ExitLameduck_ret.
        -- rewrite (bind_Returned _ _ _ _ _ Hd). cbn [fst snd].
           rewrite (bind_Returned _ _ _ _ _ Hf).
           rewrite (bind_Returned _ _ _ _ _ Hk). reflexivity.
      * apply bind_Blocked.
        rewrite (bind_Returned _ _ _ _ _ Hd). cbn [fst snd].
        rewrite (bind_Returned _ _ _ _ _ Hf).
        apply bind_Blocked. exact Hk.
    + rewrite (bind_Returned _ _ _ (true, None) t).
      * apply ExitLameduck_ret.
      * rewrite (bind_Returned _ _ _ _ _ Hd). cbn [fst snd].
        rewrite (bind_Returned _ _ _ _ _ Hf). reflexivity.
    + apply bind_Blocked.
      rewrite (bind_Returned _ _ _ _ _ Hd). cbn [fst snd].
      apply bind_Blocked. exact Hf.
  - destruct (serveNewType ext tsv1) as [[e|] t|t] eqn:Hf.
    + destruct (closeAll t) as [[] k|k] eqn:Hk.
      * rewrite (bind_Returned _ _ _ (true, Some e) k).
        -- apply ExitLameduck_ret.
        -- rewrite (bind_Returned _ _ _ _ _ Hd). cbn [fst snd].
           rewrite (bind_Returned _ _ _ _ _ Hf).
           rewrite (bind_Returned _ _ _ _ _ Hk). reflexivity.
      * apply bind_Blocked.
        rewrite (bind_Returned _ _ _ _ _ Hd). cbn [fst snd].
        rewrite (bind_Returned _ _ _ _ _ Hf).
        apply bind_Blocked. exact Hk.
    + rewrite (bind_Returned _ _ _ (true, None) t).
      * apply ExitLameduck_ret.
      * rewrite (bind_Returned _ _ _ _ _ Hd). cbn [fst snd].
        rewrite (bind_Returned _ _ _ _ _ Hf). reflexivity.
    + apply bind_Blocked.
      rewrite (bind_Returned _ _ _ _ _ Hd). cbn [fst snd].
      apply bind_Blocked. exact Hf.
  - destruct (gracefulStop tsv1) as [[] g|g] eqn:Hg.
    + rewrite (bind_Returned _ _ _ (true, None) g).
      * apply ExitLameduck_ret.
      * rewrite (bind_Returned _ _ _ _ _ Hd). cbn [fst snd].
        rewrite (bind_Returned _ _ _ _ _ Hg). reflexivity.
    + apply bind_Blocked.
      rewrite (bind_Returned _ _ _ _ _ Hd). cbn [fst snd].
      apply bind_Blocked. exact Hg.
Qed.

(** ** Starting and stopping, step by step *)

Lemma closeAll_frame tsv :
  exists tsv',
    closeAll tsv = Returned tt tsv' /\
    all_closed (components tsv') /\
    state tsv' = StateNotConnected /\
    same_identity tsv tsv'.
Proof.
  exists (node_after (closeAll tsv)).
  destruct tsv as [qt te hp st ld tg aa rq [c1 c2 c3 c4 c5 c6 c7 c8 c9 c10] cl hi al].
  vm_compute. repeat split.
Qed.

Lemma serveNewType_outcome ext tsv :
  exists err tsv',
    serveNewType ext tsv = Returned err tsv' /\
    same_identity tsv tsv' /\
    se_open (components tsv') = se_open (components tsv) /\
    vstreamer_open (components tsv') = vstreamer_open (components tsv) /\
    qe_open (components tsv') = qe_open (components tsv) /\
    txThrottler_open (components tsv') = txThrottler_open (components tsv) /\
    (err = None ->
     state tsv' = StateServing /\
     role_of (Target_TabletType (target tsv)) (components tsv')) /\
    (forall e, err = Some e ->
     state tsv' = state tsv /\
     Target_TabletType (target tsv) = TabletType_MASTER /\
     exists b, hw_Open_res ext = OpenFailed e b).
Proof.
  destruct ext as [db se qe tx ti hw].
  destruct tsv as [qt te hp st ld [ks sh ty ce] aa rq [c1 c2 c3 c4 c5 c6 c7 c8 c9 c10] cl hi al].
  destruct ty, hw as [|e b]; do 2 eexists; (split; [cbv; reflexivity|]);
    cbv; repeat split; intros; try congruence;
    match goal with
    | H : Some _ = Some _ |- _ => injection H as <-; eexists; reflexivity
    end.
Qed.

Lemma fullStart_outcome ext tsv :
  exists err tsv',
    fullStart ext tsv = Returned err tsv' /\
    same_identity tsv tsv' /\
    (err = None ->
     state tsv' = StateServing /\
     role_of (Target_TabletType (target tsv)) (components tsv') /\
     se_open (components tsv') = true /\
     vstreamer_open (components tsv') = true /\
     qe_open (components tsv') = true /\
     txThrottler_open (components tsv') = true) /\
    (err <> None -> state tsv' = state tsv).
Proof.
  destruct ext as [db se qe tx ti hw].
  destruct tsv as [qt te hp st ld [ks sh ty ce] aa rq [c1 c2 c3 c4 c5 c6 c7 c8 c9 c10] cl hi al].
  destruct db, se, qe, tx, ti; try (do 2 eexists; (split; [cbv; reflexivity|]);
    cbv; repeat split; intros; congruence).
  destruct ty, hw as [|e b]; do 2 eexists; (split; [cbv; reflexivity|]);
    cbv; repeat split; intros; congruence.
Qed.

Lemma gracefulStop_outcome tsv :
  (requests tsv <= 0 ->
   exists tsv',
     gracefulStop tsv = Returned tt tsv' /\
     state tsv' = StateNotServing /\
     same_identity tsv tsv' /\
     messager_open (components tsv') = false /\
     te_state (components tsv') = TxNotServing /\
     txThrottler_open (components tsv') = false /\
     tracker_open (components tsv') = false /\
     se_open (components tsv') = se_open (components tsv) /\
     qe_open (components tsv') = qe_open (components tsv) /\
     vstreamer_open (components tsv') = vstreamer_open (components tsv) /\
     hr_open (components tsv') = hr_open (components tsv) /\
     hw_open (components tsv') = hw_open (components tsv) /\
     watcher_open (components tsv') = watcher_open (components tsv)) /\
  (0 < requests tsv ->
   exists tsv',
     gracefulStop tsv = Blocked tsv' /\
     state tsv' = state tsv /\
     same_identity tsv tsv' /\
     messager_open (components tsv') = false /\
     te_state (components tsv') = TxNotServing /\
     txThrottler_open (components tsv') = false /\
     tracker_open (components tsv') = false).
Proof.
  destruct tsv as [qt te hp st ld tg aa rq [c1 c2 c3 c4 c5 c6 c7 c8 c9 c10] cl hi al].
  cbn [requests].
  split; intros Hrq.
  - apply Z.leb_le in Hrq.
    eexists. split.
    + unfold gracefulStop, waitForShutdown, requests_Wait, bind.
      cbv -[Z.leb app history_Add]. rewrite Hrq. reflexivity.
    + cbv. repeat split.
  - apply Z.leb_gt in Hrq.
    eexists. split.
    + unfold gracefulStop, waitForShutdown, requests_Wait, bind.
      cbv -[Z.leb app history_Add]. rewrite Hrq. reflexivity.
    + cbv. repeat split.
Qed.

Lemma decideAction_outcome tabletType serving alsoAllow' tsv :
  exists action err tsv',
    decideAction tabletType serving alsoAllow' tsv = Returned (action, err) tsv' /\
    QueryTimeout tsv' = QueryTimeout tsv /\ TerseErrors tsv' = TerseErrors tsv /\
    enableHotRowProtection tsv' = enableHotRowProtection tsv /\
    lameduck tsv' = lameduck tsv /\ requests tsv' = requests tsv /\
    alias_Cell tsv' = alias_Cell tsv /\
    components tsv' = components tsv /\ calls tsv' = calls tsv /\
    alsoAllow tsv' = alsoAllow' /\
    target tsv' = set_TabletType tabletType (target tsv) /\
    (action = actionNone -> state tsv' = state tsv /\ history tsv' = history tsv) /\
    match state tsv with
    | StateNotConnected =>
        err = None /\
        if serving
        then action = actionFullStart /\ state tsv' = StateTransitioning
        else action = actionNone
    | StateNotServing =>
        err = None /\
        if serving
        then action = actionServeNewType /\ state tsv' = StateTransitioning
        else action = actionNone
    | StateServing =>
        err = None /\
        if serving
        then if TabletType_eqb (Target_TabletType (target tsv)) tabletType
             then action = actionNone
             else action = actionServeNewType /\ state tsv' = StateTransitioning
        else action = actionGracefulStop /\ state tsv' = StateShuttingDown
    | StateTransitioning | StateShuttingDown =>
        action = actionNone /\
        err = Some (VtError Code_FAILED_PRECONDITION
                      ("cannot SetServingType, current state: "
                       ++ stateName_at (state tsv)))
    end.
Proof.
  destruct tsv as [qt te hp st ld [ks sh ty ce] aa rq cs cl hi al].
  unfold decideAction, bind, get, modify, setState, ret. cbn.
  destruct (TabletType_eqb_spec ty tabletType) as [<-|Hty];
    destruct serving, st; cbn;
    do 3 eexists; (split; [reflexivity|]); cbn;
    repeat split; intros; congruence.
Qed.

(** Which way a returning [SetServingType] went. *)
Lemma SetServingType_inv ext tabletType serving alsoAllow' tsv r tsv' :
  SetServingType ext tabletType serving alsoAllow' tsv = Returned r tsv' ->
  exists action err tsv1,
    decideAction tabletType serving alsoAllow' tsv = Returned (action, err) tsv1 /\
    ((exists e, err = Some e /\ r = (false, Some e) /\ tsv' = set_lameduck 0 tsv1) \/
     (err = None /\ action = actionNone /\
      r = (false, None) /\ tsv' = set_lameduck 0 tsv1) \/
     (err = None /\ action = actionFullStart /\
      exists t, fullStart ext tsv1 = Returned None t /\
                r = (true, None) /\ tsv' = set_lameduck 0 t) \/
     (err = None /\ action = actionFullStart /\
      exists e t k, fullStart ext tsv1 = Returned (Some e) t /\
                    closeAll t = Returned tt k /\
                    r = (true, Some e) /\ tsv' = set_lameduck 0 k) \/
     (err = None /\ action = actionServeNewType /\
      exists t, serveNewType ext tsv1 = Returned None t /\
                r = (true, None) /\ tsv' = set_lameduck 0 t) \/
     (err = None /\ action = actionServeNewType /\
      exists e t k, serveNewType ext tsv1 = Returned (Some e) t /\
                    closeAll t = Returned tt k /\
                    r = (true, Some e) /\ tsv' = set_lameduck 0 k) \/
     (err = None /\ action = actionGracefulStop /\
      exists g, gracefulStop tsv1 = Returned tt g /\
                r = (true, None) /\ tsv' = set_lameduck 0 g)).
Proof.
  intros Hrun.
  destruct (decideAction_outcome tabletType serving alsoAllow' tsv)
    as (action & err & tsv1 & Hd & _).
  exists action, err, tsv1. split; [exact Hd|].
  rewrite (SetServingType_eq ext _ _ _ _ _ _ _ Hd) in Hrun.
  destruct err as [e|].
  { injection Hrun as <- <-. left. exists e. auto. }
  right. destruct action.
  - injection Hrun as <- <-. left. auto.
  - right. destruct (fullStart ext tsv1) as [[e|] t|t] eqn:Hf; [| |discriminate].
    + right. left. destruct (closeAll t) as [[] k|k] eqn:Hk; [|discriminate].
      injection Hrun as <- <-. repeat split. exists e, t, k. auto.
    + left. injection Hrun as <- <-. repeat split. exists t. auto.
  - do 3 right.
    destruct (serveNewType ext tsv1) as [[e|] t|t] eqn:Hf; [| |discriminate].
    + right. left. destruct (closeAll t) as [[] k|k] eqn:Hk; [|discriminate].
      injection Hrun as <- <-. repeat split. exists e, t, k. auto.
    + left. injection Hrun as <- <-. repeat split. exists t. auto.
  - do 5 right. destruct (gracefulStop tsv1) as [[] g|g] eqn:Hg; [|discriminate].
    injection Hrun as <- <-. repeat split. exists g. auto.
Qed.

(** Take a returning [SetServingType] apart: the decision, the way it
    went and what the step taken did. *)
Ltac serving_cases ext tabletType serving alsoAllow' tsv Hrun :=
  let action := fresh "action" in
  let err := fresh "err" in
  let tsv1 := fresh "tsv1" in
  let Hd := fresh "Hd" in
  let Hcase := fresh "Hcase" in
  destruct (SetServingType_inv _ _ _ _ _ _ _ Hrun)
    as (action & err & tsv1 & Hd & Hcase);
  let a := fresh "a" in
  let e := fresh "e" in
  let t := fresh "t" in
  let Hd' := fresh "Hd'" in
  destruct (decideAction_outcome tabletType serving alsoAllow' tsv)
    as (a & e & t & Hd' & Hqt & Hte & Hhp & Hld & Hrq & Hal & Hcs & Hcl
        & Haa & Htg & Hnone & Htable);
  rewrite Hd in Hd'; injection Hd' as <- <- <-;
  destruct Hcase
    as [(e0 & -> & -> & ->)
       |[(-> & -> & -> & ->)
        |[(-> & -> & t0 & Hf & -> & ->)
         |[(-> & -> & e0 & t0 & k0 & Hf & Hk & -> & ->)
          |[(-> & -> & t0 & Hf & -> & ->)
           |[(-> & -> & e0 & t0 & k0 & Hf & Hk & -> & ->)
            |(-> & -> & g0 & Hf & -> & ->)]]]]]];
  [ | | destruct (fullStart_outcome ext tsv1) as (e1 & t1 & Hf1 & Hid & Hok & Hko);
        rewrite Hf in Hf1; injection Hf1 as <- <-;
        destruct (Hok eq_refl) as (Hst1 & Hrole & Hse & Hvs & Hqe & Htx)
    | destruct (fullStart_outcome ext tsv1) as (e1 & t1 & Hf1 & Hid & Hok & Hko);
      rewrite Hf in Hf1; injection Hf1 as <- <-;
      destruct (closeAll_frame t0) as (k1 & Hk1 & Hclosed & Hkst & Hkid);
      rewrite Hk in Hk1; injection Hk1 as <-
    | destruct (serveNewType_outcome ext tsv1)
        as (e1 & t1 & Hf1 & Hid & Hse & Hvs & Hqe & Htx & Hok & Hko);
      rewrite Hf in Hf1; injection Hf1 as <- <-;
      destruct (Hok eq_refl) as (Hst1 & Hrole)
    | destruct (serveNewType_outcome ext tsv1)
        as (e1 & t1 & Hf1 & Hid & Hse & Hvs & Hqe & Htx & Hok & Hko);
      rewrite Hf in Hf1; injection Hf1 as <- <-;
      destruct (Hko _ eq_refl) as (Hst1 & Hmaster & bfail & Hhw);
      destruct (closeAll_frame t0) as (k1 & Hk1 & Hclosed & Hkst & Hkid);
      rewrite Hk in Hk1; injection Hk1 as <-
    | destruct (gracefulStop_outcome tsv1) as (Hgo & Hgb);
      destruct (Z_le_gt_dec (requests tsv1) 0) as [Hle|Hgt];
      [ destruct (Hgo Hle)
          as (g1 & Hg1 & Hgst & Hgid & Hm & Hte' & Htt & Htr & Hgse & Hgqe & Hgvs
              & Hghr & Hghw & Hgw);
        rewrite Hf in Hg1; injection Hg1 as <-
      | destruct (Hgb ltac:(lia)) as (g1 & Hg1 & _);
        rewrite Hf in Hg1; discriminate Hg1 ] ];
  unfold same_identity in *.

(** X1: [SetServingType] from a stable state ([NotConnected], [NotServing],
    [Serving]) never returns with the node in [Transitioning] or
    [ShuttingDown]: without an error the node serves when serving was
    wanted, and is in [NotServing] (or still [NotConnected]) when it was
    not; with an error the node is in [NotConnected] with every component
    closed.  In all cases the lameduck flag is clear, [alsoAllow] and the
    tablet type are the requested ones, keyspace and shard are kept and
    the drain counter is as before. *)
Theorem SetServingType_settles :
  forall (ext : Externals) (tabletType : TabletType) (serving : bool)
         (alsoAllow' : list TabletType) (tsv : TabletServer)
         (r : bool * option error) (tsv' : TabletServer),
    state tsv = StateNotConnected \/ state tsv = StateNotServing \/
    state tsv = StateServing ->
    SetServingType ext tabletType serving alsoAllow' tsv = Returned r tsv' ->
    lameduck tsv' = 0 /\
    alsoAllow tsv' = alsoAllow' /\
    target tsv' = set_TabletType tabletType (target tsv) /\
    requests tsv' = requests tsv /\
    (snd r = None -> serving = true -> state tsv' = StateServing) /\
    (snd r = None -> serving = false ->
     state tsv' = match state tsv with
                  | StateNotConnected => StateNotConnected
                  | _ => StateNotServing
                  end) /\
    (snd r <> None ->
     fst r = true /\ serving = true /\
     state tsv' = StateNotConnected /\ all_closed (components tsv')).
Proof.
  intros ext tabletType serving alsoAllow' tsv r tsv' Hst Hrun.
  serving_cases ext tabletType serving alsoAllow' tsv Hrun; cbn [fst snd];
    cbn [lameduck alsoAllow target requests state components set_lameduck];
    destruct Hst as [Hst|[Hst|Hst]]; rewrite Hst in *;
    destruct serving;
    try destruct (TabletType_eqb (Target_TabletType (target tsv)) tabletType);
    repeat split; intros; try tauto; try apply Hclosed; intuition congruence.
Qed.

(** A node brought to serving. *)
Lemma SetServingType_settles_sample :
  exists tsv',
    SetServingType Sample.all_fine TabletType_REPLICA true [TabletType_BATCH]
      (set_lameduck 1 (Sample.node StateNotServing))
    = Returned (true, None) tsv' /\
    lameduck tsv' = 0 /\ alsoAllow tsv' = [TabletType_BATCH] /\
    state tsv' = StateServing.
Proof.
  assert (Hrun :
            SetServingType Sample.all_fine TabletType_REPLICA true [TabletType_BATCH]
              (set_lameduck 1 (Sample.node StateNotServing))
            = Returned (true, None)
                (node_after
                   (SetServingType Sample.all_fine TabletType_REPLICA true
                      [TabletType_BATCH]
                      (set_lameduck 1 (Sample.node StateNotServing)))))
    by (vm_compute; reflexivity).
  eexists. split; [exact Hrun|].
  destruct (SetServingType_settles Sample.all_fine TabletType_REPLICA true
              [TabletType_BATCH] (set_lameduck 1 (Sample.node StateNotServing))
              (true, None)
              (node_after
                 (SetServingType Sample.all_fine TabletType_REPLICA true
                    [TabletType_BATCH]
                    (set_lameduck 1 (Sample.node StateNotServing)))))
    as (Hl & Ha & _ & _ & Hs & _).
  - right. left. reflexivity.
  - exact Hrun.
  - repeat split; auto.
Defined.

(** X2: When [SetServingType] has made the node serve and reports a change,
    the components are set up for the requested tablet type: for a
    master the heartbeat writer, the schema tracker and the messager are
    open, the transaction engine accepts writes, and the heartbeat
    reader and the replication watcher are closed; for any other type it
    is the other way round and the transaction engine is read-only.
    After a start from [NotConnected] the schema engine, the vstreamer,
    the query engine and the throttler are open as well; a change of
    type leaves these four as they were. *)
Theorem SetServingType_sets_up_role :
  forall (ext : Externals) (tabletType : TabletType)
         (alsoAllow' : list TabletType) (tsv tsv' : TabletServer),
    state tsv = StateNotConnected \/ state tsv = StateNotServing \/
    state tsv = StateServing ->
    SetServingType ext tabletType true alsoAllow' tsv = Returned (true, None) tsv' ->
    role_of tabletType (components tsv') /\
    (state tsv = StateNotConnected ->
     se_open (components tsv') = true /\
     vstreamer_open (components tsv') = true /\
     qe_open (components tsv') = true /\
     txThrottler_open (components tsv') = true) /\
    (state tsv <> StateNotConnected ->
     se_open (components tsv') = se_open (components tsv) /\
     vstreamer_open (components tsv') = vstreamer_open (components tsv) /\
     qe_open (components tsv') = qe_open (components tsv) /\
     txThrottler_open (components tsv') = txThrottler_open (components tsv)).
Proof.
  intros ext tabletType alsoAllow' tsv tsv' Hst Hrun.
  remember (true, @None error) as r eqn:Hr.
  serving_cases ext tabletType true alsoAllow' tsv Hrun;
    try discriminate Hr;
    cbn [components set_lameduck];
    destruct Hst as [Hst|[Hst|Hst]]; rewrite Hst in Htable;
    try destruct (TabletType_eqb (Target_TabletType (target tsv)) tabletType);
    try (exfalso; clear - Htable; intuition congruence);
    rewrite Htg in Hrole; cbn [Target_TabletType set_TabletType] in Hrole;
    (split; [exact Hrole|]);
    split; intros; try congruence;
    repeat split; congruence.
Qed.

(** A cold start as master and as replica. *)
Lemma SetServingType_sets_up_role_sample :
  exists tsv',
    SetServingType Sample.all_fine TabletType_MASTER true []
      (Sample.node StateNotConnected)
    = Returned (true, None) tsv' /\
    components tsv' =
      mkComponents true true false true true false true true
        TxAcceptingReadWrite true.
Proof.
  assert (Hrun :
            SetServingType Sample.all_fine TabletType_MASTER true []
              (Sample.node StateNotConnected)
            = Returned (true, None)
                (node_after
                   (SetServingType Sample.all_fine TabletType_MASTER true []
                      (Sample.node StateNotConnected))))
    by (vm_compute; reflexivity).
  eexists. split; [exact Hrun|].
  destruct (SetServingType_sets_up_role Sample.all_fine TabletType_MASTER []
              (Sample.node StateNotConnected)
              (node_after
                 (SetServingType Sample.all_fine TabletType_MASTER true []
                    (Sample.node StateNotConnected))))
    as (Hrole & Hopen & _).
  - left. reflexivity.
  - exact Hrun.
  - vm_compute. reflexivity.
Defined.

(** On a master the heartbeat writer is a step of [serveNewType]. *)
Lemma serveNewType_fails ext tsv e b :
  Target_TabletType (target tsv) = TabletType_MASTER ->
  hw_Open_res ext = OpenFailed e b ->
  serveNewType ext tsv = Returned (Some e) (node_after (serveNewType ext tsv)).
Proof.
  destruct ext as [db se qe tx ti hw].
  destruct tsv as [qt te hp st ld [ks sh ty ce] aa rq cs cl hi al].
  cbn [target Target_TabletType hw_Open_res]. intros -> ->.
  vm_compute. reflexivity.
Qed.

(** X3: A node that is connected ([NotServing], or [Serving] under another
    type) and is promoted to master loses its connection when the
    heartbeat writer does not open: [SetServingType] returns the error,
    every component is closed and the node is in [NotConnected]. *)
Theorem failed_promotion_disconnects :
  forall (ext : Externals) (alsoAllow' : list TabletType) (tsv : TabletServer)
         (e : error) (b : bool),
    state tsv = StateNotServing \/
    (state tsv = StateServing /\
     Target_TabletType (target tsv) <> TabletType_MASTER) ->
    hw_Open_res ext = OpenFailed e b ->
    exists tsv',
      SetServingType ext TabletType_MASTER true alsoAllow' tsv
      = Returned (true, Some e) tsv' /\
      state tsv' = StateNotConnected /\
      all_closed (components tsv') /\
      Target_TabletType (target tsv') = TabletType_MASTER.
Proof.
  intros ext alsoAllow' tsv e b Hst Hhw.
  destruct (decideAction_outcome TabletType_MASTER true alsoAllow' tsv)
    as (action & err & tsv1 & Hd & _ & _ & _ & _ & _ & _ & _ & _ & _ & Htg & _
        & Htable).
  assert (Hact : action = actionServeNewType /\ err = None).
  { destruct Hst as [Hst|[Hst Hty]]; rewrite Hst in Htable.
    - intuition.
    - destruct (TabletType_eqb_spec (Target_TabletType (target tsv))
                  TabletType_MASTER); [contradiction|]. intuition. }
  destruct Hact as [-> ->].
  assert (Hm : Target_TabletType (target tsv1) = TabletType_MASTER)
    by (rewrite Htg; reflexivity).
  pose proof (serveNewType_fails ext tsv1 e b Hm Hhw) as Hs.
  destruct (serveNewType_outcome ext tsv1)
    as (e1 & t1 & Hs1 & Hid & _).
  rewrite Hs in Hs1. injection Hs1 as <- Ht1.
  destruct (closeAll_frame (node_after (serveNewType ext tsv1)))
    as (k & Hk & Hclosed & Hkst & Hkid).
  exists (set_lameduck 0 k).
  rewrite (SetServingType_eq ext _ _ _ _ _ _ _ Hd), Hs, Hk.
  unfold same_identity in *. rewrite Ht1 in *.
  repeat split; try apply Hclosed; try exact Hkst.
  cbn [target set_lameduck]. intuition congruence.
Qed.

(** A serving replica whose promotion fails. *)
Lemma failed_promotion_disconnects_sample :
  exists tsv',
    SetServingType Sample.hw_fails TabletType_MASTER true []
      (set_target Sample.replica_target (Sample.node StateServing))
    = Returned (true, Some Sample.boom) tsv' /\
    state tsv' = StateNotConnected.
Proof.
  destruct (failed_promotion_disconnects Sample.hw_fails []
              (set_target Sample.replica_target (Sample.node StateServing))
              Sample.boom true)
    as (tsv' & Hrun & Hst & _).
  - right. split; [reflexivity|discriminate].
  - reflexivity.
  - exists tsv'. split; assumption.
Defined.

(** X4: A change of type of a connected node fails only in a promotion to
    master, and only with the error of the heartbeat writer. *)
Theorem type_change_fails_only_on_promotion :
  forall (ext : Externals) (tabletType : TabletType)
         (alsoAllow' : list TabletType) (tsv : TabletServer)
         (r : bool * option error) (tsv' : TabletServer) (e : error),
    state tsv = StateNotServing \/ state tsv = StateServing ->
    SetServingType ext tabletType true alsoAllow' tsv = Returned r tsv' ->
    snd r = Some e ->
    tabletType = TabletType_MASTER /\
    exists b, hw_Open_res ext = OpenFailed e b.
Proof.
  intros ext tabletType alsoAllow' tsv r tsv' e Hst Hrun Herr.
  serving_cases ext tabletType true alsoAllow' tsv Hrun;
    cbn [snd] in Herr; try discriminate Herr;
    destruct Hst as [Hst|Hst]; rewrite Hst in Htable;
    try destruct (TabletType_eqb (Target_TabletType (target tsv)) tabletType);
    try (exfalso; clear - Htable; intuition congruence).
  all: injection Herr as <-;
    rewrite Htg in Hmaster; cbn [Target_TabletType set_TabletType] in Hmaster;
    split; [exact Hmaster|exists bfail; exact Hhw].
Qed.

Lemma type_change_fails_only_on_promotion_sample :
  TabletType_MASTER = TabletType_MASTER /\
  exists b, hw_Open_res Sample.hw_fails = OpenFailed Sample.boom b.
Proof.
  apply (type_change_fails_only_on_promotion Sample.hw_fails TabletType_MASTER []
           (Sample.node StateNotServing) (true, Some Sample.boom)
           (node_after
              (SetServingType Sample.hw_fails TabletType_MASTER true []
                 (Sample.node StateNotServing)))).
  - left. reflexivity.
  - vm_compute. reflexivity.
  - reflexivity.
Defined.

(** X5: When [SetServingType] reports no change (its first result is
    [false], with or without an error), the serving state, the
    components, the call trace, the history and the drain counter are as
    before the call. *)
Theorem SetServingType_no_change :
  forall (ext : Externals) (tabletType : TabletType) (serving : bool)
         (alsoAllow' : list TabletType) (tsv : TabletServer)
         (r : bool * option error) (tsv' : TabletServer),
    SetServingType ext tabletType serving alsoAllow' tsv = Returned r tsv' ->
    fst r = false ->
    state tsv' = state tsv /\
    components tsv' = components tsv /\
    calls tsv' = calls tsv /\
    history tsv' = history tsv /\
    requests tsv' = requests tsv /\
    Keyspace (target tsv') = Keyspace (target tsv) /\
    Shard (target tsv') = Shard (target tsv).
Proof.
  intros ext tabletType serving alsoAllow' tsv r tsv' Hrun Hfalse.
  serving_cases ext tabletType serving alsoAllow' tsv Hrun;
    cbn [fst] in Hfalse; try discriminate Hfalse;
    cbn [state components calls history requests target set_lameduck];
    rewrite Htg; cbn [Keyspace Shard set_TabletType].
  - destruct (state tsv) eqn:Hst; destruct serving;
      try destruct (TabletType_eqb (Target_TabletType (target tsv)) tabletType);
      try (exfalso; clear - Htable; intuition congruence);
      destruct Htable as (Hact & _); destruct (Hnone Hact);
      repeat split; congruence.
  - destruct (Hnone eq_refl). repeat split; congruence.
Qed.

(** A replica that is not serving is told to be a master and not to
    serve: no change is reported, yet the stored tablet type is the new
    one. *)
Lemma SetServingType_no_change_sample :
  exists tsv',
    SetServingType Sample.all_fine TabletType_REPLICA false []
      (Sample.node StateNotServing)
    = Returned (false, None) tsv' /\
    state tsv' = StateNotServing /\
    components tsv' = closed_components /\
    Target_TabletType (target tsv') = TabletType_REPLICA /\
    Target_TabletType (target (Sample.node StateNotServing)) = TabletType_MASTER.
Proof.
  assert (Hrun :
            SetServingType Sample.all_fine TabletType_REPLICA false []
              (Sample.node StateNotServing)
            = Returned (false, None)
                (node_after
                   (SetServingType Sample.all_fine TabletType_REPLICA false []
                      (Sample.node StateNotServing))))
    by (vm_compute; reflexivity).
  eexists. split; [exact Hrun|].
  destruct (SetServingType_no_change _ _ _ _ _ _ _ Hrun eq_refl)
    as (Hs & Hc & _).
  split; [exact Hs|]. split; [exact Hc|]. split; reflexivity.
Defined.

(** ** Draining *)

(** A caller that presents the node's own target passes the target
    check. *)
Lemma verifyTarget_own_target ctx tsv :
  verifyTarget ctx (Some (target tsv)) tsv = Returned None tsv.
Proof.
  unfold verifyTarget, bind, get, ret.
  rewrite !String.eqb_refl, TabletType_eqb_refl. reflexivity.
Qed.

(** X6: [SetServingType] with serving not wanted, on a serving node.  With
    no request in flight it returns with the node in [NotServing]; the
    messager, the transaction engine, the throttler and the tracker are
    closed and the other six components are as they were.  With
    requests in flight it does not return: the node waits in
    [ShuttingDown] with the same four components closed, the drain
    counter untouched and the lameduck flag not yet cleared; there a
    request that is not allowed on shutdown is refused with
    [FAILED_PRECONDITION], and one that is allowed on shutdown and
    presents the node's target is let in. *)
Theorem SetServingType_drains :
  forall (ext : Externals) (tabletType : TabletType)
         (alsoAllow' : list TabletType) (tsv : TabletServer),
    state tsv = StateServing ->
    (requests tsv <= 0 ->
     exists tsv',
       SetServingType ext tabletType false alsoAllow' tsv
       = Returned (true, None) tsv' /\
       state tsv' = StateNotServing /\
       messager_open (components tsv') = false /\
       te_state (components tsv') = TxNotServing /\
       txThrottler_open (components tsv') = false /\
       tracker_open (components tsv') = false /\
       se_open (components tsv') = se_open (components tsv) /\
       qe_open (components tsv') = qe_open (components tsv) /\
       vstreamer_open (components tsv') = vstreamer_open (components tsv) /\
       hr_open (components tsv') = hr_open (components tsv) /\
       hw_open (components tsv') = hw_open (components tsv) /\
       watcher_open (components tsv') = watcher_open (components tsv)) /\
    (0 < requests tsv ->
     exists tsv',
       SetServingType ext tabletType false alsoAllow' tsv = Blocked tsv' /\
       state tsv' = StateShuttingDown /\
       requests tsv' = requests tsv /\
       lameduck tsv' = lameduck tsv /\
       messager_open (components tsv') = false /\
       te_state (components tsv') = TxNotServing /\
       txThrottler_open (components tsv') = false /\
       tracker_open (components tsv') = false /\
       (forall ctx target',
          startRequest ctx target' false tsv'
          = Returned
              (Some (VtError Code_FAILED_PRECONDITION
                       "operation not allowed in state SHUTTING_DOWN"))
              tsv') /\
       (forall ctx,
          startRequest ctx (Some (target tsv')) true tsv'
          = Returned None (set_requests (requests tsv' + 1) tsv'))).
Proof.
  intros ext tabletType alsoAllow' tsv Hst.
  destruct (decideAction_outcome tabletType false alsoAllow' tsv)
    as (action & err & tsv1 & Hd & _ & _ & _ & Hld & Hrq & _ & Hcs & _ & _ & _ & _
        & Htable).
  rewrite Hst in Htable. destruct Htable as (-> & -> & Hst1).
  destruct (gracefulStop_outcome tsv1) as (Hgo & Hgb).
  rewrite Hrq in Hgo, Hgb.
  split; intros Hreq.
  - destruct (Hgo Hreq)
      as (g & Hg & Hgs & _ & Hm & Hte & Htt & Htr & Hse & Hqe & Hvs & Hhr & Hhw & Hw).
    exists (set_lameduck 0 g).
    rewrite (SetServingType_eq ext _ _ _ _ _ _ _ Hd), Hg.
    cbn [state components set_lameduck].
    rewrite <- Hcs. repeat split; assumption.
  - destruct (Hgb Hreq) as (g & Hg & Hgs & Hgid & Hm & Hte & Htt & Htr).
    exists g.
    rewrite (SetServingType_eq ext _ _ _ _ _ _ _ Hd), Hg.
    unfold same_identity in Hgid.
    assert (Hstg : state g = StateShuttingDown) by congruence.
    repeat split; try assumption; try intuition congruence.
    + intros ctx target'.
      rewrite (startRequest_turned_away ctx target' false g);
        rewrite Hstg; reflexivity.
    + intros ctx.
      destruct (startRequest_let_in ctx (Some (target g)) true g)
        as (e & Hv & Hs); [rewrite Hstg; reflexivity|].
      rewrite verifyTarget_own_target in Hv. injection Hv as <-. exact Hs.
Qed.

(** A serving node with one request in flight is told to stop. *)
Lemma SetServingType_drains_sample :
  exists tsv',
    SetServingType Sample.all_fine TabletType_MASTER false []
      (set_requests 1 (Sample.node StateServing))
    = Blocked tsv' /\
    state tsv' = StateShuttingDown /\
    requests tsv' = 1.
Proof.
  destruct (SetServingType_drains Sample.all_fine TabletType_MASTER []
              (set_requests 1 (Sample.node StateServing)) eq_refl)
    as (_ & Hblocked).
  destruct Hblocked as (tsv' & Hrun & Hst & Hrq & _).
  - reflexivity.
  - exists tsv'. repeat split; assumption.
Defined.

(** X7: [StopService] does nothing outside [Serving] and [NotServing].
    From these two states, with no request in flight, it ends in
    [NotConnected] with every component closed; with requests in flight
    it does not return and the node waits in [ShuttingDown]. *)
Theorem StopService_outcome :
  forall tsv : TabletServer,
    (state tsv <> StateServing -> state tsv <> StateNotServing ->
     StopService tsv = Returned tt tsv) /\
    (state tsv = StateServing \/ state tsv = StateNotServing ->
     requests tsv <= 0 ->
     exists tsv',
       StopService tsv = Returned tt tsv' /\
       state tsv' = StateNotConnected /\
       all_closed (components tsv') /\
       same_identity tsv tsv') /\
    (state tsv = StateServing \/ state tsv = StateNotServing ->
     0 < requests tsv ->
     exists tsv',
       StopService tsv = Blocked tsv' /\
       state tsv' = StateShuttingDown /\
       requests tsv' = requests tsv).
Proof.
  intros [qt te hp st ld tg aa rq [c1 c2 c3 c4 c5 c6 c7 c8 c9 c10] cl hi al].
  cbn [state requests].
  split; [|split].
  - intros H1 H2. destruct st; try congruence; reflexivity.
  - intros Hst Hrq. apply Z.leb_le in Hrq.
    eexists. split.
    + unfold StopService, waitForShutdown, requests_Wait, bind.
      destruct Hst as [-> | ->];
        cbv -[Z.leb app history_Add]; rewrite Hrq; reflexivity.
    + destruct Hst as [-> | ->]; cbv; repeat split.
  - intros Hst Hrq. apply Z.leb_gt in Hrq.
    eexists. split.
    + unfold StopService, waitForShutdown, requests_Wait, bind.
      destruct Hst as [-> | ->];
        cbv -[Z.leb app history_Add]; rewrite Hrq; reflexivity.
    + destruct Hst as [-> | ->]; cbv; repeat split.
Qed.

(** ** Lameduck, and the pairing of start and end *)

(** X8: The lameduck flag changes what the node reports and nothing of what
    it admits: [IsServing] holds exactly when the flag is clear and the
    state is [Serving]; with the flag set [GetState] is [NOT_SERVING];
    and [startRequest] gives the same answer, and counts the request in
    the same way, whatever the flag. *)
Theorem lameduck_changes_health_only :
  forall tsv : TabletServer,
    (IsServing tsv = true <-> lameduck tsv = 0 /\ state tsv = StateServing) /\
    (forall v, v <> 0 ->
       GetState (set_lameduck v tsv) = "NOT_SERVING" /\
       IsServing (set_lameduck v tsv) = false) /\
    (forall ctx target' allowOnShutdown v,
       startRequest ctx target' allowOnShutdown (set_lameduck v tsv)
       = match startRequest ctx target' allowOnShutdown tsv with
         | Returned err t => Returned err (set_lameduck v t)
         | Blocked t => Blocked (set_lameduck v t)
         end).
Proof.
  intros [qt te hp st ld tg aa rq cs cl hi al].
  split; [|split].
  - unfold IsServing, GetState. cbn [lameduck state].
    destruct (Z.eqb_spec ld 0) as [->|Hld]; cbn [negb].
    + destruct st; cbn; split; intros H; try discriminate; try tauto;
        destruct H as [_ H]; discriminate.
    + cbn. split; [discriminate|]. intros [H _]. contradiction.
  - intros v Hv. unfold IsServing, GetState. cbn [lameduck set_lameduck].
    apply Z.eqb_neq in Hv. rewrite Hv. split; reflexivity.
  - intros ctx target' allow v.
    unfold startRequest, bind, get, ret, modify.
    cbn [state target alsoAllow requests set_lameduck set_requests].
    destruct (ServingState_eqb st StateServing
              || allow && ServingState_eqb st StateShuttingDown);
      [|reflexivity].
    destruct target' as [tq|].
    + destruct (negb (Keyspace tq =? Keyspace tg)%string); [reflexivity|].
      destruct (negb (Shard tq =? Shard tg)%string); [reflexivity|].
      destruct (negb (TabletType_eqb (Target_TabletType tq) (Target_TabletType tg)));
        [|reflexivity].
      destruct (alsoAllow_has (Target_TabletType tq) aa); reflexivity.
    + destruct (negb (IsLocalContext ctx)); reflexivity.
Qed.

(** A successful [startRequest] followed by [endRequest] gives back the
    node as it was. *)
Lemma startRequest_endRequest_round_trip :
  forall (ctx : Context) (target' : option Target) (allowOnShutdown : bool)
         (tsv tsv1 : TabletServer),
    startRequest ctx target' allowOnShutdown tsv = Returned None tsv1 ->
    endRequest tsv1 = Returned tt tsv.
Proof.
  intros ctx target' allow tsv tsv1 Hstart.
  destruct (gate_open allow (state tsv)) eqn:Hgate.
  - destruct (startRequest_let_in ctx target' allow tsv Hgate) as (err & _ & Hs).
    rewrite Hs in Hstart. injection Hstart as -> <-.
    destruct tsv as [qt te hp st ld tg aa rq cs cl hi al].
    unfold endRequest, modify. cbn.
    replace (rq + 1 - 1) with rq by lia. reflexivity.
  - rewrite (startRequest_turned_away ctx target' allow tsv Hgate) in Hstart.
    discriminate.
Qed.

Lemma startRequest_endRequest_round_trip_sample :
  endRequest (set_requests 1 (Sample.node StateServing))
  = Returned tt (Sample.node StateServing).
Proof.
  apply (startRequest_endRequest_round_trip Sample.remote
           (Some Sample.master_target) false).
  reflexivity.
Defined.

(** ** Requests through [execRequest] *)

Lemma bind_get {B : Type} (f : TabletServer -> M B) tsv :
  bind get f tsv = f tsv tsv.
Proof. reflexivity. Qed.

Lemma call_eq (c : Call) tsv :
  call c tsv = Returned tt (set_calls (calls tsv ++ [c]) tsv).
Proof. reflexivity. Qed.

Section RequestProperties.

Variable BindVariable : Type.
Variable BindVariable_String : BindVariable -> string.
Variable quote : string -> string.
Variable TruncateForLog : string -> string.
Variable TruncateErrLen : Z.
Variable SQLError_Error : Z -> string -> string -> string -> string.
Variable mysql_errno_switch : Z -> string -> Code -> Code.
Variable Result : Type.
Variable ParsedQuery : Type.
Variable MarginComments : Type.
Variable SplitMarginComments : string -> string * MarginComments.
Variable StripMetadata : Result -> Z -> Result.
Variable qe_GetPlan : Context -> string -> bool -> Plan ParsedQuery + error.
Variable qre_Execute :
  string -> MarginComments -> BindVariables BindVariable -> Z ->
  option ExecuteOptions -> Plan ParsedQuery -> Context -> TabletType ->
  option Result * option error.

Local Notation "'execRequest''" :=
  (execRequest BindVariable_String quote TruncateForLog TruncateErrLen
     SQLError_Error mysql_errno_switch) (only parsing).
Local Notation "'convert''" :=
  (convertAndLogError BindVariable_String quote TruncateForLog TruncateErrLen
     SQLError_Error mysql_errno_switch) (only parsing).
Local Notation "'Execute''" :=
  (Execute BindVariable_String quote TruncateForLog TruncateErrLen
     SQLError_Error mysql_errno_switch SplitMarginComments StripMetadata
     qe_GetPlan qre_Execute) (only parsing).

(** A refused request: the body is not run. *)
Lemma execRequest_refused (V : Type) now ctx timeout name sql
    (bv : BindVariables BindVariable) target' options allow
    (exec : Context -> V -> M (V * option error)) captured tsv e tsv1 :
  startRequest ctx target' allow tsv = Returned (Some e) tsv1 ->
  execRequest' now ctx timeout name sql bv target' options allow exec captured tsv
  = Returned (captured, Some e) tsv1.
Proof.
  intros Hs. unfold execRequest.
  rewrite (bind_Returned _ _ _ _ _ Hs). reflexivity.
Qed.

(** An admitted request whose body returns. *)
Lemma execRequest_let_in (V : Type) now ctx timeout name sql
    (bv : BindVariables BindVariable) target' options allow
    (exec : Context -> V -> M (V * option error)) captured tsv tsv1 r tsv2 :
  startRequest ctx target' allow tsv = Returned None tsv1 ->
  exec (fst (withTimeout now ctx timeout options)) captured tsv1 = Returned r tsv2 ->
  execRequest' now ctx timeout name sql bv target' options allow exec captured tsv
  = Returned
      (fst r,
       match snd r with
       | Some e =>
           Some (fst (convert' tsv2 (fst (withTimeout now ctx timeout options))
                        sql bv e))
       | None => None
       end)
      (set_requests (requests tsv2 - 1) tsv2).
Proof.
  intros Hs He. unfold execRequest.
  rewrite (bind_Returned _ _ _ _ _ Hs).
  rewrite (bind_Returned _ _ _ _ _ He).
  rewrite bind_get. reflexivity.
Qed.

(** An admitted request whose body does not return. *)
Lemma execRequest_stuck (V : Type) now ctx timeout name sql
    (bv : BindVariables BindVariable) target' options allow
    (exec : Context -> V -> M (V * option error)) captured tsv tsv1 tsv2 :
  startRequest ctx target' allow tsv = Returned None tsv1 ->
  exec (fst (withTimeout now ctx timeout options)) captured tsv1 = Blocked tsv2 ->
  execRequest' now ctx timeout name sql bv target' options allow exec captured tsv
  = Blocked tsv2.
Proof.
  intros Hs He. unfold execRequest.
  rewrite (bind_Returned _ _ _ _ _ Hs).
  apply bind_Blocked. exact He.
Qed.

(** What [startRequest] does, in one equation. *)
Lemma startRequest_outcome ctx target' allow tsv :
  (exists e, startRequest ctx target' allow tsv = Returned (Some e) tsv) \/
  (startRequest ctx target' allow tsv
   = Returned None (set_requests (requests tsv + 1) tsv) /\
   gate_open allow (state tsv) = true).
Proof.
  destruct (gate_open allow (state tsv)) eqn:Hgate.
  - destruct (startRequest_let_in ctx target' allow tsv Hgate) as ([e|] & _ & Hs).
    + left. exists e. exact Hs.
    + right. split; [exact Hs|reflexivity].
  - left. eexists. apply (startRequest_turned_away ctx target' allow tsv Hgate).
Qed.

(** X9: [execRequest] pairs the start of a request with its end.  For a body
    that returns and leaves the drain counter as it found it, the call
    returns with the drain counter as before.  A refused call hands back
    the error of [startRequest] with the captured values untouched and
    the node unchanged; an admitted call runs the body once, under the
    context of [withTimeout] and with the request counted, and ends the
    request after it. *)
Theorem execRequest_pairs_start_and_end :
  forall (V : Type) (now : Z) (ctx : Context) (timeout : Z)
         (requestName sql : string) (bindVariables : BindVariables BindVariable)
         (target' : option Target) (options : option ExecuteOptions)
         (allowOnShutdown : bool)
         (exec : Context -> V -> M (V * option error)) (captured : V)
         (tsv : TabletServer),
    (forall c v t, exists r t',
        exec c v t = Returned r t' /\ requests t' = requests t) ->
    exists r tsv',
      execRequest' now ctx timeout requestName sql bindVariables target' options
        allowOnShutdown exec captured tsv
      = Returned r tsv' /\
      requests tsv' = requests tsv /\
      ((exists e,
          startRequest ctx target' allowOnShutdown tsv = Returned (Some e) tsv /\
          r = (captured, Some e) /\ tsv' = tsv) \/
       (exists r0 t0,
          startRequest ctx target' allowOnShutdown tsv
          = Returned None (set_requests (requests tsv + 1) tsv) /\
          exec (fst (withTimeout now ctx timeout options)) captured
            (set_requests (requests tsv + 1) tsv)
          = Returned r0 t0 /\
          fst r = fst r0 /\
          (snd r = None <-> snd r0 = None) /\
          tsv' = set_requests (requests t0 - 1) t0)).
Proof.
  intros V now ctx timeout requestName sql bindVariables target' options
    allow exec captured tsv Hexec.
  destruct (startRequest_outcome ctx target' allow tsv) as [(e & Hs)|(Hs & _)].
  - exists (captured, Some e), tsv.
    split; [apply execRequest_refused; exact Hs|].
    split; [reflexivity|]. left. exists e. auto.
  - destruct (Hexec (fst (withTimeout now ctx timeout options)) captured
                (set_requests (requests tsv + 1) tsv))
      as (r0 & t0 & He & Hrq).
    do 2 eexists.
    split; [apply (execRequest_let_in _ _ _ _ _ _ _ _ _ _ _ _ _ _ _ _ Hs He)|].
    split.
    + cbn [requests set_requests]. rewrite Hrq. cbn [requests set_requests]. lia.
    + right. exists r0, t0. repeat split; try assumption;
        cbn [snd]; destruct (snd r0); congruence.
Qed.

(** The identifiers pass the check of [Execute] and the request is
    refused: the error of [startRequest] is handed back. *)
Lemma Execute_refused now ctx target' sql (bv : BindVariables BindVariable)
    transactionID reservedID options tsv e :
  negb (transactionID =? 0) && negb (reservedID =? 0)
  && negb (transactionID =? reservedID) = false ->
  startRequest ctx target' (negb (transactionID =? 0)) tsv = Returned (Some e) tsv ->
  Execute' now ctx target' sql bv transactionID reservedID options tsv
  = Returned (None, Some e) tsv.
Proof.
  intros Hids Hs. unfold Execute. rewrite Hids, bind_get.
  apply execRequest_refused. exact Hs.
Qed.

(** The identifiers pass the check and the request is let in: the plan
    is asked for, and with a plan the executor is run on the connection
    of the transaction, or of the reservation when there is no
    transaction. *)
Lemma Execute_let_in now ctx target' sql (bv : BindVariables BindVariable)
    transactionID reservedID options tsv :
  negb (transactionID =? 0) && negb (reservedID =? 0)
  && negb (transactionID =? reservedID) = false ->
  startRequest ctx target' (negb (transactionID =? 0)) tsv
  = Returned None (set_requests (requests tsv + 1) tsv) ->
  exists r extra,
    Execute' now ctx target' sql bv transactionID reservedID options tsv
    = Returned r
        (set_calls
           (calls tsv ++ Call_qe_GetPlan (fst (SplitMarginComments sql)) :: extra)
           tsv) /\
    (extra = [] \/
     extra = [Call_qre_Execute
                (if negb (transactionID =? 0) then transactionID else reservedID)]).
Proof.
  intros Hids Hs. unfold Execute. rewrite Hids, bind_get.
  set (ctx' := fst (withTimeout now ctx (QueryTimeout tsv) options)).
  destruct tsv as [qt te hp st ld tg aa rq cs cl hi al].
  destruct (qe_GetPlan ctx' (fst (SplitMarginComments sql))
              (skipQueryPlanCache options)) as [plan|e] eqn:Hplan.
  - destruct (snd (qre_Execute (fst (SplitMarginComments sql))
                     (snd (SplitMarginComments sql)) bv
                     (if negb (transactionID =? 0) then transactionID
                      else reservedID)
                     options plan ctx' (GetTabletType target'))) eqn:Hrun.
    + do 2 eexists. split; [|right; reflexivity].
      erewrite execRequest_let_in; [|exact Hs|].
      2:{ cbv beta. fold ctx'.
          rewrite (bind_Returned _ _ _ _ _ (call_eq _ _)). rewrite Hplan.
          rewrite (bind_Returned _ _ _ _ _ (call_eq _ _)). rewrite Hrun.
          reflexivity. }
      cbn [fst snd requests calls set_calls set_requests].
      replace (rq + 1 - 1) with rq by lia.
      rewrite <- app_assoc. reflexivity.
    + do 2 eexists. split; [|right; reflexivity].
      erewrite execRequest_let_in; [|exact Hs|].
      2:{ cbv beta. fold ctx'.
          rewrite (bind_Returned _ _ _ _ _ (call_eq _ _)). rewrite Hplan.
          rewrite (bind_Returned _ _ _ _ _ (call_eq _ _)). rewrite Hrun.
          reflexivity. }
      cbn [fst snd requests calls set_calls set_requests].
      replace (rq + 1 - 1) with rq by lia.
      rewrite <- app_assoc. reflexivity.
  - do 2 eexists. split; [|left; reflexivity].
    erewrite execRequest_let_in; [|exact Hs|].
    2:{ cbv beta. fold ctx'.
        rewrite (bind_Returned _ _ _ _ _ (call_eq _ _)). rewrite Hplan.
        reflexivity. }
    cbn [fst snd requests calls set_calls set_requests].
    replace (rq + 1 - 1) with rq by lia. reflexivity.
Qed.

(** X10: [Execute] always returns, and all it changes of the node is the call
    trace: the serving state, the target, [alsoAllow], the flag, the
    components, the history and the drain counter are as before.  The
    trace grows by nothing (the call was rejected or refused), by the
    request for the plan, or by that request and one run of the executor
    on the connection of the transaction, or of the reservation when the
    transaction id is zero. *)
Theorem Execute_only_extends_the_trace :
  forall (now : Z) (ctx : Context) (target' : option Target) (sql : string)
         (bindVariables : BindVariables BindVariable)
         (transactionID reservedID : Z) (options : option ExecuteOptions)
         (tsv : TabletServer),
  exists r tsv' extra,
    Execute' now ctx target' sql bindVariables transactionID reservedID options tsv
    = Returned r tsv' /\
    tsv' = set_calls (calls tsv ++ extra) tsv /\
    (extra = [] \/
     extra = [Call_qe_GetPlan (fst (SplitMarginComments sql))] \/
     extra = [Call_qe_GetPlan (fst (SplitMarginComments sql));
              Call_qre_Execute
                (if negb (transactionID =? 0) then transactionID else reservedID)]).
Proof.
  intros now ctx target' sql bindVariables transactionID reservedID options tsv.
  assert (Hsame : tsv = set_calls (calls tsv ++ []) tsv).
  { destruct tsv. cbn. rewrite app_nil_r. reflexivity. }
  destruct (negb (transactionID =? 0) && negb (reservedID =? 0)
            && negb (transactionID =? reservedID)) eqn:Hids.
  - exists (None,
            Some (VtError Code_INTERNAL
                    "transactionID and reserveID must match if both are non-zero")),
      tsv, [].
    split; [unfold Execute; rewrite Hids; reflexivity|].
    split; [exact Hsame|left; reflexivity].
  - destruct (startRequest_outcome ctx target' (negb (transactionID =? 0)) tsv)
      as [(e & Hs)|(Hs & _)].
    + exists (None, Some e), tsv, [].
      split; [apply Execute_refused; assumption|].
      split; [exact Hsame|left; reflexivity].
    + destruct (Execute_let_in now ctx target' sql bindVariables transactionID
                  reservedID options tsv Hids Hs)
        as (r & extra & Hrun & Hextra).
      exists r. eexists. eexists. split; [exact Hrun|].
      split; [reflexivity|].
      destruct Hextra as [-> | ->]; auto.
Qed.

(** X11: While the node is shutting down, [Execute] outside a transaction is
    refused with [FAILED_PRECONDITION] and asks nothing of the engine;
    inside a transaction (with no reservation, or the reservation of the
    transaction) a caller that presents the node's target is let in, and
    the executor, if it runs, runs on the connection of the
    transaction. *)
Theorem Execute_while_shutting_down :
  forall (now : Z) (ctx : Context) (target' : option Target) (sql : string)
         (bindVariables : BindVariables BindVariable)
         (transactionID reservedID : Z) (options : option ExecuteOptions)
         (tsv : TabletServer),
    state tsv = StateShuttingDown ->
    (transactionID = 0 ->
     Execute' now ctx target' sql bindVariables transactionID reservedID options tsv
     = Returned
         (None,
          Some (VtError Code_FAILED_PRECONDITION
                  "operation not allowed in state SHUTTING_DOWN"))
         tsv) /\
    (transactionID <> 0 ->
     reservedID = 0 \/ reservedID = transactionID ->
     exists r extra,
       Execute' now ctx (Some (target tsv)) sql bindVariables transactionID
         reservedID options tsv
       = Returned r
           (set_calls
              (calls tsv
               ++ Call_qe_GetPlan (fst (SplitMarginComments sql)) :: extra)
              tsv) /\
       (extra = [] \/ extra = [Call_qre_Execute transactionID])).
Proof.
  intros now ctx target' sql bindVariables transactionID reservedID options tsv Hst.
  split.
  - intros ->.
    rewrite (Execute_refused now ctx target' sql bindVariables 0 reservedID options
               tsv
               (VtError Code_FAILED_PRECONDITION
                  "operation not allowed in state SHUTTING_DOWN")).
    + reflexivity.
    + reflexivity.
    + cbn [Z.eqb negb].
      rewrite (startRequest_turned_away ctx target' false tsv);
        rewrite Hst; reflexivity.
  - intros Htx Hrid.
    assert (Hnz : negb (transactionID =? 0) = true)
      by (apply negb_true_iff, Z.eqb_neq; exact Htx).
    assert (Hids : negb (transactionID =? 0) && negb (reservedID =? 0)
                   && negb (transactionID =? reservedID) = false).
    { destruct Hrid as [-> | ->]; rewrite ?Z.eqb_refl, ?Hnz; reflexivity. }
    assert (Hs : startRequest ctx (Some (target tsv)) (negb (transactionID =? 0)) tsv
                 = Returned None (set_requests (requests tsv + 1) tsv)).
    { rewrite Hnz.
      destruct (startRequest_let_in ctx (Some (target tsv)) true tsv)
        as (e & Hv & Hs); [rewrite Hst; reflexivity|].
      rewrite verifyTarget_own_target in Hv. injection Hv as <-. exact Hs. }
    destruct (Execute_let_in now ctx (Some (target tsv)) sql bindVariables
                transactionID reservedID options tsv Hids Hs)
      as (r & extra & Hrun & Hextra).
    rewrite Hnz in Hextra.
    exists r, extra. split; assumption.
Qed.

End RequestProperties.

(** A request whose body only records a call. *)
Lemma execRequest_pairs_start_and_end_sample :
  exists r tsv',
    execRequest (fun v : string => v) Sample.quote (fun s => s) 0
      Sample.SQLError_Error Sample.errno_switch
      0 Sample.remote 30 "Prepare" "prepare" [] (Some Sample.master_target) None
      true
      (fun _ (v : unit) => bind (call Call_te_Init) (fun _ => ret (v, None)))
      tt (set_requests 3 (Sample.node StateShuttingDown))
    = Returned r tsv' /\
    requests tsv' = 3.
Proof.
  destruct (execRequest_pairs_start_and_end string (fun v : string => v)
              Sample.quote (fun s => s) 0 Sample.SQLError_Error Sample.errno_switch
              unit 0 Sample.remote 30 "Prepare" "prepare" []
              (Some Sample.master_target) None true
              (fun _ (v : unit) => bind (call Call_te_Init) (fun _ => ret (v, None)))
              tt (set_requests 3 (Sample.node StateShuttingDown)))
    as (r & tsv' & Hrun & Hrq & _).
  - intros c v t. do 2 eexists. split; reflexivity.
  - exists r, tsv'. split; assumption.
Defined.

(** A commit-time statement during the drain. *)
Lemma Execute_while_shutting_down_sample :
  Sample.run_Execute 0 Sample.remote (Some Sample.master_target)
    Sample.update_sql Sample.binds_a 0 0 None (Sample.node StateShuttingDown)
  = Returned
      (None,
       Some (VtError Code_FAILED_PRECONDITION
               "operation not allowed in state SHUTTING_DOWN"))
      (Sample.node StateShuttingDown).
Proof.
  unfold Sample.run_Execute.
  apply Execute_while_shutting_down; reflexivity.
Defined.

(** ** Deadlines, once more *)

(** X12: [withTimeout] never gives a request more time than its caller had:
    when the context comes with a deadline, the deadline of the context
    handed back is not later. *)
Theorem withTimeout_never_extends :
  forall (now : Z) (ctx : Context) (timeout : Z)
         (options : option ExecuteOptions) (d : Z),
    Deadline ctx = Some d ->
    exists d',
      Deadline (fst (withTimeout now ctx timeout options)) = Some d' /\ d' <= d.
Proof.
  intros now ctx timeout options d Hd.
  unfold withTimeout.
  destruct ((timeout =? 0) || is_DBA (GetWorkload options) || IsLocalContext ctx);
    cbn [fst].
  - exists d. split; [exact Hd|lia].
  - unfold Deadline in *. cbn. rewrite Hd.
    eexists. split; [reflexivity|lia].
Qed.

Lemma withTimeout_never_extends_sample :
  exists d',
    Deadline (fst (withTimeout 100 (mkContext false None [110]) 30 None))
    = Some d' /\ d' <= 110.
Proof.
  apply (withTimeout_never_extends 100 (mkContext false None [110]) 30 None 110).
  reflexivity.
Defined.

(** ** Printing queries and bind variables *)

Lemma string_length_append (a b : string) :
  String.length (a ++ b) = (String.length a + String.length b)%nat.
Proof. induction a as [|c a IH]; cbn; [reflexivity|rewrite IH; reflexivity]. Qed.

Lemma substring_prefix_length (n : nat) (s : string) :
  (n <= String.length s)%nat -> String.length (substring 0 n s) = n.
Proof.
  revert s. induction n as [|n IH]; intros [|c s] H; cbn in *; try reflexivity.
  - inversion H.
  - rewrite IH; [reflexivity|]. apply le_S_n. exact H.
Qed.

(** The order of strings that [sort.Strings] uses is transitive. *)
Lemma string_leb_trans (a b c : string) :
  String.leb a b = true -> String.leb b c = true -> String.leb a c = true.
Proof.
  unfold String.leb.
  revert b c. induction a as [|x a IH]; intros [|y b] [|z c]; cbn;
    try reflexivity; try discriminate.
  unfold Ascii.compare.
  destruct (N.compare_spec (N_of_ascii x) (N_of_ascii y)) as [Hxy|Hxy|Hxy];
    destruct (N.compare_spec (N_of_ascii y) (N_of_ascii z)) as [Hyz|Hyz|Hyz];
    try discriminate; intros H1 H2.
  - rewrite Hxy, Hyz, N.compare_refl. apply (IH b c); assumption.
  - rewrite Hxy. apply N.compare_lt_iff in Hyz. rewrite Hyz. reflexivity.
  - rewrite <- Hyz. apply N.compare_lt_iff in Hxy. rewrite Hxy. reflexivity.
  - assert (H : (N_of_ascii x < N_of_ascii z)%N) by (eapply N.lt_trans; eassumption).
    apply N.compare_lt_iff in H. rewrite H. reflexivity.
Qed.

(** Inserting two keys in either order gives the same list. *)
Lemma insert_sorted_comm (x y : string) (l : list string) :
  insert_sorted x (insert_sorted y l) = insert_sorted y (insert_sorted x l).
Proof.
  induction l as [|a l IH]; cbn.
  - destruct (String.leb x y) eqn:Hxy; destruct (String.leb y x) eqn:Hyx;
      try reflexivity.
    + rewrite (String.leb_antisym x y Hxy Hyx). reflexivity.
    + destruct (String.leb_total x y); congruence.
  - destruct (String.leb y a) eqn:Hya; destruct (String.leb x a) eqn:Hxa; cbn.
    + destruct (String.leb x y) eqn:Hxy; destruct (String.leb y x) eqn:Hyx;
        rewrite ?Hxa, ?Hya; try reflexivity.
      * rewrite (String.leb_antisym x y Hxy Hyx). reflexivity.
      * destruct (String.leb_total x y); congruence.
    + destruct (String.leb x y) eqn:Hxy.
      * rewrite (string_leb_trans x y a Hxy Hya) in Hxa. discriminate.
      * rewrite Hxa, Hya. reflexivity.
    + destruct (String.leb y x) eqn:Hyx.
      * rewrite (string_leb_trans y x a Hyx Hxa) in Hya. discriminate.
      * rewrite Hxa, Hya. reflexivity.
    + rewrite Hxa, Hya. rewrite IH. reflexivity.
Qed.

Lemma sort_Strings_Permutation (l1 l2 : list string) :
  Permutation l1 l2 -> sort_Strings l1 = sort_Strings l2.
Proof.
  unfold sort_Strings.
  induction 1 as [|x l1 l2 _ IH|x y l|l1 l2 l3 _ IH1 _ IH2]; cbn [fold_right].
  - reflexivity.
  - rewrite IH. reflexivity.
  - apply insert_sorted_comm.
  - congruence.
Qed.

Section PrintingProperties.

Variable BindVariable : Type.
Variable BindVariable_String : BindVariable -> string.
Variable quote : string -> string.
Variable TruncateForLog : string -> string.
Variable TruncateErrLen : Z.
Variable SQLError_Error : Z -> string -> string -> string -> string.
Variable mysql_errno_switch : Z -> string -> Code -> Code.

(** With distinct keys, a lookup does not depend on the order of the
    entries. *)
Lemma bind_lookup_Permutation (key : string) (bv1 bv2 : BindVariables BindVariable) :
  Permutation bv1 bv2 ->
  NoDup (map fst bv1) ->
  bind_lookup key bv1 = bind_lookup key bv2.
Proof.
  unfold bind_lookup.
  induction 1 as [|x l1 l2 Hp IH|x y l|l1 l2 l3 Hp1 IH1 Hp2 IH2]; intros Hnd.
  - reflexivity.
  - cbn in *. inversion Hnd; subst.
    destruct (fst x =? key)%string; [reflexivity|]. apply IH. assumption.
  - cbn in *. inversion Hnd as [|? ? Hin Hnd']; subst.
    destruct (String.eqb_spec (fst y) key) as [Hy|Hy];
      destruct (String.eqb_spec (fst x) key) as [Hx|Hx]; try reflexivity.
    exfalso. apply Hin. left. congruence.
  - rewrite IH1 by assumption. apply IH2.
    apply (Permutation_NoDup (Permutation_map fst Hp1)). assumption.
Qed.

Lemma write_bindvars_ext (keys : list string) (bv1 bv2 : BindVariables BindVariable) :
  (forall key, bind_lookup key bv1 = bind_lookup key bv2) ->
  write_bindvars BindVariable_String quote keys bv1
  = write_bindvars BindVariable_String quote keys bv2.
Proof.
  intros H. induction keys as [|k keys IH]; cbn; [reflexivity|].
  rewrite H, IH. reflexivity.
Qed.

(** X13: A Go map has no order.  What is printed of the bind variables, and
    so the error handed back and the text logged, is the same for any
    order in which the entries of the map are listed. *)
Theorem bind_variables_print_in_key_order :
  forall (tsv : TabletServer) (ctx : Context) (sql : string)
         (bv1 bv2 : BindVariables BindVariable) (err : error),
    Permutation bv1 bv2 ->
    NoDup (map fst bv1) ->
    queryAsString BindVariable_String quote sql bv1
    = queryAsString BindVariable_String quote sql bv2 /\
    truncateSQLAndBindVars BindVariable_String quote TruncateForLog TruncateErrLen
      sql bv1
    = truncateSQLAndBindVars BindVariable_String quote TruncateForLog TruncateErrLen
        sql bv2 /\
    convertAndLogError BindVariable_String quote TruncateForLog TruncateErrLen
      SQLError_Error mysql_errno_switch tsv ctx sql bv1 err
    = convertAndLogError BindVariable_String quote TruncateForLog TruncateErrLen
        SQLError_Error mysql_errno_switch tsv ctx sql bv2 err.
Proof.
  intros tsv ctx sql bv1 bv2 err Hp Hnd.
  assert (Hkeys : sort_Strings (map fst bv1) = sort_Strings (map fst bv2))
    by (apply sort_Strings_Permutation, Permutation_map; exact Hp).
  assert (Hw : write_bindvars BindVariable_String quote
                 (sort_Strings (map fst bv1)) bv1
               = write_bindvars BindVariable_String quote
                   (sort_Strings (map fst bv2)) bv2).
  { rewrite <- Hkeys. apply write_bindvars_ext.
    intros key. apply bind_lookup_Permutation; assumption. }
  assert (Hq : queryAsString BindVariable_String quote sql bv1
               = queryAsString BindVariable_String quote sql bv2)
    by (unfold queryAsString; rewrite Hw; reflexivity).
  assert (Ht : truncateSQLAndBindVars BindVariable_String quote TruncateForLog
                 TruncateErrLen sql bv1
               = truncateSQLAndBindVars BindVariable_String quote TruncateForLog
                   TruncateErrLen sql bv2)
    by (unfold truncateSQLAndBindVars; rewrite Hw; reflexivity).
  split; [exact Hq|]. split; [exact Ht|].
  assert (Hlen : has_bindvars bv1 = has_bindvars bv2)
    by (unfold has_bindvars; rewrite (Permutation_length Hp); reflexivity).
  unfold convertAndLogError. rewrite Hq, Ht, Hlen. reflexivity.
Qed.

(** X14: With a limit of at least twelve bytes, the bind-variable part of a
    log line is never longer than the limit: it is printed in full when
    it fits, and cut to the limit, the mark [ [TRUNCATED]] included, when
    it does not. *)
Theorem truncateSQLAndBindVars_bound :
  forall (sql : string) (bindVariables : BindVariables BindVariable),
    12 <= TruncateErrLen ->
    exists bv : string,
      truncateSQLAndBindVars BindVariable_String quote TruncateForLog
        TruncateErrLen sql bindVariables
      = "Sql: " ++ quote (TruncateForLog sql) ++ ", " ++ bv /\
      Z.of_nat (String.length bv) <= TruncateErrLen /\
      (Z.of_nat
         (String.length
            ("BindVars: {"
             ++ write_bindvars BindVariable_String quote
                  (sort_Strings (map fst bindVariables)) bindVariables
             ++ "}")) <= TruncateErrLen ->
       bv = "BindVars: {"
            ++ write_bindvars BindVariable_String quote
                 (sort_Strings (map fst bindVariables)) bindVariables
            ++ "}") /\
      (TruncateErrLen
       < Z.of_nat
           (String.length
              ("BindVars: {"
               ++ write_bindvars BindVariable_String quote
                    (sort_Strings (map fst bindVariables)) bindVariables
               ++ "}")) ->
       Z.of_nat (String.length bv) = TruncateErrLen /\
       exists kept, bv = kept ++ " [TRUNCATED]").
Proof.
  intros sql bindVariables Hmax.
  unfold truncateSQLAndBindVars.
  set (full := "BindVars: {"
               ++ write_bindvars BindVariable_String quote
                    (sort_Strings (map fst bindVariables)) bindVariables
               ++ "}").
  assert (Hnz : negb (TruncateErrLen =? 0) = true)
    by (apply negb_true_iff, Z.eqb_neq; lia).
  rewrite Hnz. cbn [andb].
  destruct (Z.ltb_spec TruncateErrLen (Z.of_nat (String.length full))) as [Hlt|Hge].
  - eexists. split; [reflexivity|].
    assert (Hlen : String.length
                     (substring 0 (Z.to_nat (TruncateErrLen - 12)) full
                      ++ " [TRUNCATED]")
                   = Z.to_nat TruncateErrLen).
    { rewrite string_length_append, substring_prefix_length by lia.
      cbn [String.length]. lia. }
    split; [rewrite Hlen; lia|].
    split; [intros H; lia|].
    intros _. split; [rewrite Hlen; lia|].
    eexists. reflexivity.
  - eexists. split; [reflexivity|].
    split; [exact Hge|]. split; [reflexivity|]. intros H. lia.
Qed.


End PrintingProperties.

(** Two listings of one map. *)
Lemma bind_variables_print_in_key_order_sample :
  queryAsString (fun v : string => v) Sample.quote Sample.update_sql
    [("name", "alice"); ("id", "42")]
  = queryAsString (fun v : string => v) Sample.quote Sample.update_sql
      Sample.binds_a.
Proof.
  apply (bind_variables_print_in_key_order string (fun v => v) Sample.quote
           (fun s => s) 0 Sample.SQLError_Error Sample.errno_switch
           (Sample.node StateServing) Sample.remote Sample.update_sql
           [("name", "alice"); ("id", "42")] Sample.binds_a Sample.deadlock).
  - apply perm_swap.
  - cbn. repeat constructor; cbn; intuition discriminate.
Defined.

(** A limit of twenty bytes. *)
Lemma truncateSQLAndBindVars_bound_sample :
  exists bv : string,
    truncateSQLAndBindVars (fun v : string => v) Sample.quote (fun s => s) 20
      Sample.update_sql Sample.binds_a
    = "Sql: " ++ Sample.quote Sample.update_sql ++ ", " ++ bv /\
    Z.of_nat (String.length bv) <= 20.
Proof.
  destruct (truncateSQLAndBindVars_bound string (fun v => v) Sample.quote
              (fun s => s) 20 Sample.update_sql Sample.binds_a)
    as (bv & Heq & Hlen & _).
  - lia.
  - exists bv. split; assumption.
Defined.

Example truncateSQLAndBindVars_cut :
  truncateSQLAndBindVars (fun v : string => v) Sample.quote (fun s => s) 20
    Sample.update_sql Sample.binds_a
  = "Sql: " ++ Sample.quote Sample.update_sql ++ ", BindVars [TRUNCATED]".
Proof. vm_compute. reflexivity. Qed.

(** ** Initialisation, probe and heartbeat lag *)

Lemma fullStart_succeeds ext tsv :
  start_succeeds ext ->
  fullStart ext tsv = Returned None (node_after (fullStart ext tsv)).
Proof.
  destruct ext as [db se qe tx ti hw].
  intros (Hdb & Hse & Hqe & Htx & Hti & Hhw). cbn in *. subst.
  destruct tsv as [qt te hp st ld [ks sh ty ce] aa rq cs cl hi al].
  destruct ty; vm_compute; reflexivity.
Qed.

(** X16: [StartService] on a node that is not in [NotConnected] fails with
    the code [UNKNOWN] and the name of the state, and changes nothing,
    not even the lameduck flag.  On a node in [NotConnected], when every
    step of the start succeeds, it returns without error and the node
    serves: its target is the one given, [alsoAllow] is empty, the
    lameduck flag is clear and the components are set up for the tablet
    type of the target. *)
Theorem StartService_outcome :
  forall (ext : Externals) (target' : Target) (tsv : TabletServer),
    (state tsv <> StateNotConnected ->
     StartService ext target' tsv
     = Returned
         (Some (VtError Code_UNKNOWN
                  ("InitDBConfig failed, current state: "
                   ++ stateName_at (state tsv))))
         tsv) /\
    (state tsv = StateNotConnected ->
     start_succeeds ext ->
     exists tsv',
       StartService ext target' tsv = Returned None tsv' /\
       state tsv' = StateServing /\
       target tsv' = target' /\
       alsoAllow tsv' = [] /\
       lameduck tsv' = 0 /\
       IsServing tsv' = true /\
       requests tsv' = requests tsv /\
       role_of (Target_TabletType target') (components tsv')).
Proof.
  intros ext target' tsv. split.
  - intros Hst.
    assert (Hinit : InitDBConfig target' tsv
                    = Returned
                        (Some (VtError Code_UNKNOWN
                                 ("InitDBConfig failed, current state: "
                                  ++ stateName_at (state tsv)))) tsv).
    { unfold InitDBConfig. rewrite bind_get.
      destruct (ServingState_eqb_spec (state tsv) StateNotConnected) as [H|H];
        [contradiction|].
      reflexivity. }
    unfold StartService. rewrite (bind_Returned _ _ _ _ _ Hinit). reflexivity.
  - intros Hst Hext.
    assert (Hinit : InitDBConfig target' tsv = Returned None (set_target target' tsv)).
    { unfold InitDBConfig. rewrite bind_get, Hst. reflexivity. }
    set (tsv0 := set_target target' tsv) in *.
    destruct (decideAction_outcome (Target_TabletType target') true [] tsv0)
      as (action & err & tsv1 & Hd & _ & _ & _ & Hld & Hrq & _ & _ & _ & Haa & Htg
          & _ & Htable).
    assert (Hst0 : state tsv0 = StateNotConnected) by exact Hst.
    rewrite Hst0 in Htable. cbv iota in Htable.
    destruct Htable as [-> [-> Hst1]].
    pose proof (fullStart_succeeds ext tsv1 Hext) as Hf.
    destruct (fullStart_outcome ext tsv1) as (e1 & t1 & Hf1 & Hid & Hok & _).
    assert (He1 : e1 = None) by congruence. subst e1. clear Hf.
    destruct (Hok eq_refl) as (Hs & Hrole & _).
    unfold same_identity in Hid.
    exists (set_lameduck 0 t1).
    split.
    { unfold StartService.
      rewrite (bind_Returned _ _ _ _ _ Hinit).
      rewrite (bind_Returned _ _ _ (true, None) (set_lameduck 0 t1));
        [reflexivity|].
      rewrite (SetServingType_eq ext _ _ _ _ _ _ _ Hd), Hf1. reflexivity. }
    assert (Htarget : target t1 = target').
    { destruct Hid as (_ & _ & _ & _ & <- & _). rewrite Htg.
      unfold tsv0. destruct target'; reflexivity. }
    cbn [state target alsoAllow lameduck requests components set_lameduck].
    repeat split; try assumption.
    + intuition congruence.
    + unfold IsServing, GetState. cbn [lameduck state set_lameduck].
      rewrite Hs. reflexivity.
    + destruct Hid as (_ & _ & _ & _ & _ & _ & <- & _). rewrite Hrq. reflexivity.
    + rewrite Htg in Hrole. exact Hrole.
Qed.

(** X17: [isMySQLReachable] answers [false] only in [Serving] or [NotServing],
    and only when the engine says so; in the other states it answers
    [true] without asking.  It returns with the serving state, the drain
    counter, the target and the components as it found them. *)
Theorem isMySQLReachable_restores :
  forall (reachable : bool) (tsv : TabletServer),
  exists r tsv',
    isMySQLReachable reachable tsv = Returned r tsv' /\
    state tsv' = state tsv /\
    requests tsv' = requests tsv /\
    target tsv' = target tsv /\
    components tsv' = components tsv /\
    calls tsv' = calls tsv /\
    lameduck tsv' = lameduck tsv /\
    (state tsv = StateServing \/ state tsv = StateNotServing -> r = reachable) /\
    (state tsv <> StateServing -> state tsv <> StateNotServing ->
     r = true /\ tsv' = tsv) /\
    (r = false ->
     (state tsv = StateServing \/ state tsv = StateNotServing) /\
     reachable = false).
Proof.
  intros reachable [qt te hp st ld tg aa rq cs cl hi al].
  unfold isMySQLReachable. rewrite bind_get. cbn [state].
  destruct st; do 2 eexists; (split; [cbv -[Z.add Z.sub]; reflexivity|]);
    cbn [state requests target components calls lameduck];
    repeat split; intros; try congruence; try lia; try tauto;
    try (destruct reachable; congruence).
  all: match goal with H : _ \/ _ |- _ => destruct H; congruence end.
Qed.

(** X18: The probe of [CheckMySQL].  In a state other than [Serving] and
    [NotServing] nothing happens.  From these two states, a reachable
    database leaves the serving state, the drain counter and the
    components as they were; an unreachable one, with no request in
    flight, shuts the service down: every component is closed and the
    node is in [NotConnected]. *)
Theorem CheckMySQL_outcome :
  forall (reachable : bool) (tsv : TabletServer),
    (state tsv <> StateServing -> state tsv <> StateNotServing ->
     CheckMySQL reachable tsv = Returned tt tsv) /\
    (state tsv = StateServing \/ state tsv = StateNotServing ->
     reachable = true ->
     exists tsv',
       CheckMySQL reachable tsv = Returned tt tsv' /\
       state tsv' = state tsv /\ requests tsv' = requests tsv /\
       components tsv' = components tsv /\ calls tsv' = calls tsv) /\
    (state tsv = StateServing \/ state tsv = StateNotServing ->
     reachable = false ->
     requests tsv <= 0 ->
     exists tsv',
       CheckMySQL reachable tsv = Returned tt tsv' /\
       state tsv' = StateNotConnected /\
       all_closed (components tsv') /\
       requests tsv' = requests tsv /\ target tsv' = target tsv).
Proof.
  intros reachable [qt te hp st ld tg aa rq [c1 c2 c3 c4 c5 c6 c7 c8 c9 c10] cl hi al].
  cbn [state requests].
  split; [|split].
  - intros H1 H2. destruct st; try congruence; reflexivity.
  - intros Hst ->.
    destruct Hst as [-> | ->]; eexists;
      (split; [cbv -[Z.add Z.sub app history_Add]; reflexivity|]);
      cbn [state requests components calls]; repeat split; lia.
  - intros Hst -> Hrq. apply Z.leb_le in Hrq.
    destruct Hst as [-> | ->].
    + eexists. split.
      * unfold CheckMySQL, isMySQLReachable, StopService, waitForShutdown,
          requests_Wait, bind.
        cbv -[Z.leb Z.add Z.sub app history_Add].
        replace (rq + 1 - 1) with rq by lia. rewrite Hrq. reflexivity.
      * cbv -[Z.add Z.sub]. repeat split; lia.
    + eexists. split.
      * unfold CheckMySQL, isMySQLReachable, StopService, waitForShutdown,
          requests_Wait, bind.
        cbv -[Z.leb Z.add Z.sub app history_Add]. rewrite Hrq. reflexivity.
      * cbv. repeat split.
Qed.

Lemma HeartbeatLag_serving latest tsv :
  lameduck tsv = 0 -> state tsv = StateServing -> HeartbeatLag latest tsv = latest.
Proof.
  intros Hl Hs. unfold HeartbeatLag, IsServing, GetState. rewrite Hl, Hs.
  cbn. rewrite Bool.andb_false_r. reflexivity.
Qed.

Lemma HeartbeatLag_closed latest tsv :
  hr_open (components tsv) = false -> state tsv = StateNotConnected ->
  HeartbeatLag latest tsv = (0, None).
Proof.
  intros Hc Hs. unfold HeartbeatLag, IsServing, GetState. rewrite Hc, Hs.
  destruct (negb (lameduck tsv =? 0)); reflexivity.
Qed.

(** X19: The heartbeat lag after [SetServingType] from a stable state.  When
    the call returned an error, [HeartbeatLag] answers zero without an
    error, whatever the heartbeat reader would say: the reader is closed
    and the node does not serve.  When the call made the node serve, the
    answer is the reader's, also on a master, whose reader is closed. *)
Theorem HeartbeatLag_after_SetServingType :
  forall (ext : Externals) (tabletType : TabletType) (serving : bool)
         (alsoAllow' : list TabletType) (tsv : TabletServer)
         (r : bool * option error) (tsv' : TabletServer)
         (latest : Z * option error),
    state tsv = StateNotConnected \/ state tsv = StateNotServing \/
    state tsv = StateServing ->
    SetServingType ext tabletType serving alsoAllow' tsv = Returned r tsv' ->
    (snd r <> None -> HeartbeatLag latest tsv' = (0, None)) /\
    (snd r = None -> serving = true -> HeartbeatLag latest tsv' = latest).
Proof.
  intros ext tabletType serving alsoAllow' tsv r tsv' latest Hst Hrun.
  serving_cases ext tabletType serving alsoAllow' tsv Hrun; cbn [fst snd];
    (split;
     [ intros Hr;
       first
         [ congruence
         | apply HeartbeatLag_closed;
           cbn [components state set_lameduck];
           [apply Hclosed | exact Hkst]
         | exfalso; destruct Hst as [Hst|[Hst|Hst]]; rewrite Hst in Htable;
           clear - Htable; intuition congruence ]
     | intros Hr;
       first
         [ congruence
         | intros ->; apply HeartbeatLag_serving;
           [ reflexivity
           | cbn [state set_lameduck];
             destruct Hst as [Hst|[Hst|Hst]]; rewrite Hst in *;
             try destruct (TabletType_eqb (Target_TabletType (target tsv))
                             tabletType);
             intuition congruence ] ] ]).
Qed.

(** A promotion that fails, and a cold start as master. *)
Lemma HeartbeatLag_after_SetServingType_sample :
  HeartbeatLag (7, None)
    (node_after (SetServingType Sample.hw_fails TabletType_MASTER true []
                   (Sample.node StateNotServing)))
  = (0, None) /\
  HeartbeatLag (7, None)
    (node_after (SetServingType Sample.all_fine TabletType_MASTER true []
                   (Sample.node StateNotConnected)))
  = (7, None).
Proof.
  split.
  - apply (HeartbeatLag_after_SetServingType Sample.hw_fails TabletType_MASTER true []
             (Sample.node StateNotServing) (true, Some Sample.boom)
             (node_after (SetServingType Sample.hw_fails TabletType_MASTER true []
                            (Sample.node StateNotServing)))
             (7, None)).
    + right. left. reflexivity.
    + vm_compute. reflexivity.
    + discriminate.
  - apply (HeartbeatLag_after_SetServingType Sample.all_fine TabletType_MASTER true []
             (Sample.node StateNotConnected) (true, None)
             (node_after (SetServingType Sample.all_fine TabletType_MASTER true []
                            (Sample.node StateNotConnected)))
             (7, None)).
    + left. reflexivity.
    + vm_compute. reflexivity.
    + reflexivity.
    + reflexivity.
Defined.

(** ** The health broadcaster *)

Section HealthProperties.

Variable RealtimeStats : Type.

Lemma map_delete_absent (id : Z) (m : list (Z * list (StreamHealthResponse RealtimeStats))) :
  Forall (fun e => fst e < id) m -> map_delete id m = m.
Proof.
  induction 1 as [|[j c] m Hj _ IH]; [reflexivity|].
  cbn in *. destruct (Z.eqb_spec j id); [lia|].
  cbn. f_equal. exact IH.
Qed.

Lemma map_delete_set (id : Z) (c : list (StreamHealthResponse RealtimeStats))
    (m : list (Z * list (StreamHealthResponse RealtimeStats))) :
  map_delete id (map_set id c m) = map_delete id m.
Proof.
  unfold map_set, map_delete. cbn [filter fst]. rewrite Z.eqb_refl. cbn [negb].
  induction m as [|[k d] m IH]; [reflexivity|].
  cbn [filter fst]. destruct (negb (k =? id)) eqn:Hk; [|exact IH].
  cbn [filter fst]. rewrite Hk. f_equal. exact IH.
Qed.

Lemma map_get_absent (id : Z) (m : list (Z * list (StreamHealthResponse RealtimeStats))) :
  Forall (fun e => fst e < id) m -> map_get id m = None.
Proof.
  unfold map_get.
  induction 1 as [|[j c] m Hj _ IH]; [reflexivity|].
  cbn in *. destruct (Z.eqb_spec j id); [lia|]. exact IH.
Qed.

Lemma map_get_delete_other (id j : Z) (m : list (Z * list (StreamHealthResponse RealtimeStats))) :
  j <> id -> map_get j (map_delete id m) = map_get j m.
Proof.
  intros Hj. unfold map_get, map_delete.
  induction m as [|[k c] m IH]; [reflexivity|].
  cbn. destruct (Z.eqb_spec k id) as [->|Hk]; cbn.
  - destruct (Z.eqb_spec id j); [congruence|]. exact IH.
  - destruct (Z.eqb_spec k j); [reflexivity|]. exact IH.
Qed.

Lemma map_get_send (shr : StreamHealthResponse RealtimeStats) (id : Z) (m : list (Z * list (StreamHealthResponse RealtimeStats))) :
  map_get id (map (fun e => (fst e, send_nonblocking shr (snd e))) m)
  = option_map (send_nonblocking shr) (map_get id m).
Proof.
  unfold map_get.
  induction m as [|[k c] m IH]; [reflexivity|].
  cbn. destruct (k =? id); [reflexivity|]. exact IH.
Qed.

Lemma send_nonblocking_capacity (shr : StreamHealthResponse RealtimeStats) c :
  (length c <= streamHealth_capacity)%nat ->
  (length (send_nonblocking shr c) <= streamHealth_capacity)%nat.
Proof.
  intros Hc. unfold send_nonblocking.
  destruct (Nat.ltb_spec (length c) streamHealth_capacity); [|exact Hc].
  rewrite length_app. cbn. lia.
Qed.

(** X20: A subscription gets an id that no subscriber holds, with an empty
    channel; the other subscribers keep their channels, the streams stay
    well formed, and unregistering the id gives back the map as it was
    before the subscription. *)
Theorem streamHealthRegister_fresh :
  forall (hs : HealthStreams RealtimeStats),
    streams_ok hs ->
    let id := fst (streamHealthRegister hs) in
    let hs' := snd (streamHealthRegister hs) in
    map_get id (streamHealthMap hs) = None /\
    map_get id (streamHealthMap hs') = Some [] /\
    (forall j, j <> id ->
               map_get j (streamHealthMap hs') = map_get j (streamHealthMap hs)) /\
    streams_ok hs' /\
    streamHealthMap (streamHealthUnregister id hs') = streamHealthMap hs.
Proof.
  intros [ix m lr le] (Hlt & Hnd & Hcap).
  unfold streams_ok, streamHealthRegister, streamHealthUnregister.
  cbn [fst snd streamHealthIndex streamHealthMap] in *.
  pose proof (map_delete_absent ix m Hlt) as Hdel.
  split; [|split; [|split; [|split; [split; [|split]|]]]].
  - apply map_get_absent. exact Hlt.
  - unfold map_get, map_set. cbn. rewrite Z.eqb_refl. reflexivity.
  - intros j Hj. rewrite <- (map_get_delete_other ix j m Hj).
    unfold map_get, map_set. cbn [find fst].
    destruct (Z.eqb_spec ix j); [congruence|]. reflexivity.
  - unfold map_set. rewrite Hdel. constructor; [cbn; lia|].
    eapply Forall_impl; [|exact Hlt]. cbn. intros; lia.
  - unfold map_set. rewrite Hdel. cbn. constructor; [|exact Hnd].
    intros Hin. apply in_map_iff in Hin. destruct Hin as (e & He & Hin).
    rewrite Forall_forall in Hlt. specialize (Hlt e Hin). lia.
  - unfold map_set. rewrite Hdel. constructor; [cbn; lia|exact Hcap].
  - rewrite map_delete_set. exact Hdel.
Qed.

(** X21: [BroadcastHealth] never blocks and never overfills a channel: a
    subscriber whose channel holds fewer than ten responses gets the new
    one at the end, a subscriber whose channel is full keeps its channel
    as it is, and nobody is added or dropped.  The response says whether
    the node serves and carries its target, and it is kept as the last
    response, valid until [maxCache] after the call. *)
Theorem BroadcastHealth_delivery :
  forall (now terTimestamp : Z) (stats : option RealtimeStats) (maxCache : Z)
         (tsv : TabletServer) (hs : HealthStreams RealtimeStats),
    streams_ok hs ->
    let shr := mkStreamHealthResponse (target tsv) (alias_Cell tsv)
                 (IsServing tsv) terTimestamp stats in
    let hs' := BroadcastHealth now terTimestamp stats maxCache tsv hs in
    streams_ok hs' /\
    (forall id,
        map_get id (streamHealthMap hs')
        = match map_get id (streamHealthMap hs) with
          | Some c => Some (if (length c <? 10)%nat then (c ++ [shr])%list else c)
          | None => None
          end) /\
    lastStreamHealthResponse hs' = Some shr /\
    lastStreamHealthExpiration hs' = now + maxCache /\
    streamHealthIndex hs' = streamHealthIndex hs.
Proof.
  intros now terTimestamp stats maxCache tsv [ix m lr le] (Hlt & Hnd & Hcap).
  unfold streams_ok, BroadcastHealth.
  cbn [streamHealthIndex streamHealthMap lastStreamHealthResponse
       lastStreamHealthExpiration] in *.
  repeat split.
  - clear - Hlt. induction Hlt; cbn; constructor; assumption.
  - rewrite map_map. cbn. exact Hnd.
  - clear - Hcap. induction Hcap as [|[j c] m Hc _ IH]; cbn; constructor;
      [apply send_nonblocking_capacity; exact Hc | exact IH].
  - intros id. rewrite map_get_send.
    destruct (map_get id m); reflexivity.
Qed.

(** X22: [StreamHealth] leaves no subscription behind: when it returns, with
    or without an error, the map of subscribers, the last response and
    its expiry are as before the call, and the streams are well formed.
    The index of the next subscription is the same or one more. *)
Theorem StreamHealth_unsubscribes :
  forall (now : Z) (callback : StreamHealthResponse RealtimeStats -> CallbackResult)
         (arrivals : list (StreamHealthResponse RealtimeStats))
         (hs : HealthStreams RealtimeStats),
    streams_ok hs ->
    let hs' := snd (StreamHealth now callback arrivals hs) in
    streamHealthMap hs' = streamHealthMap hs /\
    lastStreamHealthResponse hs' = lastStreamHealthResponse hs /\
    lastStreamHealthExpiration hs' = lastStreamHealthExpiration hs /\
    streamHealthIndex hs <= streamHealthIndex hs' <= streamHealthIndex hs + 1 /\
    streams_ok hs'.
Proof.
  intros now callback arrivals hs Hok. cbv zeta.
  assert (Hreg :
            let hs' := streamHealthUnregister (fst (streamHealthRegister hs))
                         (snd (streamHealthRegister hs)) in
            streamHealthMap hs' = streamHealthMap hs /\
            lastStreamHealthResponse hs' = lastStreamHealthResponse hs /\
            lastStreamHealthExpiration hs' = lastStreamHealthExpiration hs /\
            streamHealthIndex hs <= streamHealthIndex hs' <= streamHealthIndex hs + 1 /\
            streams_ok hs').
  { destruct hs as [ix m lr le]. destruct Hok as (Hlt & Hnd & Hcap).
    unfold streams_ok, streamHealthRegister, streamHealthUnregister.
    cbn [fst snd streamHealthIndex streamHealthMap lastStreamHealthResponse
         lastStreamHealthExpiration] in *.
    pose proof (map_delete_absent ix m Hlt) as Hdel.
    rewrite map_delete_set, Hdel.
    repeat split; try lia; try assumption.
    eapply Forall_impl; [|exact Hlt]. cbn. intros; lia. }
  unfold StreamHealth.
  destruct (lastStreamHealthResponse hs) as [shr|] eqn:Hlast;
    [destruct (now <? lastStreamHealthExpiration hs);
     [destruct (callback shr)|]|];
    cbn [snd]; try exact Hreg;
    repeat split; try lia; try congruence; apply Hok.
Qed.

(** X23: A subscriber that arrives before the last response has expired gets
    it first, as if it had been the first delivery of its channel; one
    that arrives later gets only what its channel delivers. *)
Theorem StreamHealth_replays_fresh_cache :
  forall (t0 terTimestamp : Z) (stats : option RealtimeStats) (maxCache : Z)
         (tsv : TabletServer) (hs : HealthStreams RealtimeStats) (now : Z)
         (callback : StreamHealthResponse RealtimeStats -> CallbackResult)
         (arrivals : list (StreamHealthResponse RealtimeStats)),
    let shr := mkStreamHealthResponse (target tsv) (alias_Cell tsv)
                 (IsServing tsv) terTimestamp stats in
    let hs' := BroadcastHealth t0 terTimestamp stats maxCache tsv hs in
    (now < t0 + maxCache ->
     fst (StreamHealth now callback arrivals hs')
     = StreamHealth_loop callback (shr :: arrivals)) /\
    (t0 + maxCache <= now ->
     fst (StreamHealth now callback arrivals hs')
     = StreamHealth_loop callback arrivals).
Proof.
  intros t0 terTimestamp stats maxCache tsv hs now callback arrivals.
  cbv zeta. unfold StreamHealth.
  cbn [lastStreamHealthResponse lastStreamHealthExpiration BroadcastHealth].
  split; intros Hnow.
  - apply Z.ltb_lt in Hnow. rewrite Hnow. cbn [StreamHealth_loop].
    destruct (callback _); reflexivity.
  - apply Z.ltb_ge in Hnow. rewrite Hnow. reflexivity.
Qed.

End HealthProperties.

Lemma sample_streams_ok : streams_ok sample_streams.
Proof.
  unfold streams_ok, sample_streams. cbn. repeat split.
  - repeat constructor.
  - repeat constructor; cbn; intuition lia.
  - repeat constructor; cbn; lia.
Qed.

Lemma streamHealthRegister_fresh_sample :
  fst (streamHealthRegister sample_streams) = 5 /\
  map_get 5 (streamHealthMap sample_streams) = None /\
  streamHealthMap
    (streamHealthUnregister 5 (snd (streamHealthRegister sample_streams)))
  = streamHealthMap sample_streams.
Proof.
  destruct (streamHealthRegister_fresh unit sample_streams sample_streams_ok)
    as (Hnone & _ & _ & _ & Hback).
  split; [reflexivity|]. split; [exact Hnone|exact Hback].
Defined.

Lemma BroadcastHealth_delivery_sample :
  option_map (@length _)
    (map_get 1
       (streamHealthMap
          (BroadcastHealth 100 0 (@None unit) 30 (Sample.node StateServing)
             sample_streams)))
  = Some 10%nat /\
  option_map (@length _)
    (map_get 0
       (streamHealthMap
          (BroadcastHealth 100 0 (@None unit) 30 (Sample.node StateServing)
             sample_streams)))
  = Some 2%nat.
Proof.
  destruct (BroadcastHealth_delivery unit 100 0 (@None unit) 30 (Sample.node StateServing)
              sample_streams sample_streams_ok)
    as (_ & Hget & _).
  split.
  - rewrite (Hget 1). reflexivity.
  - rewrite (Hget 0). reflexivity.
Defined.

Lemma StreamHealth_unsubscribes_sample :
  streamHealthMap
    (snd (StreamHealth 7 (fun _ => callback_ok)
            [sample_response true]
            sample_streams))
  = streamHealthMap sample_streams.
Proof.
  apply (StreamHealth_unsubscribes unit 7 (fun _ => callback_ok)
           [sample_response true]
           sample_streams sample_streams_ok).
Defined.

(** ** Transactions *)

Lemma startRequest_lets_in ctx target' allow tsv :
  lets_in ctx target' allow tsv = true ->
  startRequest ctx target' allow tsv
  = Returned None (set_requests (requests tsv + 1) tsv).
Proof.
  unfold lets_in, target_passes. intros H.
  apply Bool.andb_true_iff in H. destruct H as [Hgate Hpass].
  destruct (startRequest_let_in ctx target' allow tsv Hgate) as (err & Hv & Hs).
  rewrite Hv in Hpass. destruct err; [discriminate|exact Hs].
Qed.

Lemma startRequest_kept_out ctx target' allow tsv :
  lets_in ctx target' allow tsv = false ->
  exists e, startRequest ctx target' allow tsv = Returned (Some e) tsv.
Proof.
  unfold lets_in, target_passes. intros H.
  destruct (gate_open allow (state tsv)) eqn:Hgate.
  - destruct (startRequest_let_in ctx target' allow tsv Hgate) as (err & Hv & Hs).
    rewrite Hv in H. destruct err as [e|]; [|discriminate].
    exists e. exact Hs.
  - eexists. apply startRequest_turned_away. exact Hgate.
Qed.

Lemma target_passes_frame ctx target' a b :
  target a = target b -> alsoAllow a = alsoAllow b ->
  target_passes ctx target' a = target_passes ctx target' b.
Proof.
  intros Ht Ha. unfold target_passes, verifyTarget, bind, get, ret.
  rewrite Ht, Ha.
  destruct target' as [tg|];
    repeat match goal with
           | |- context [if ?c then _ else _] => destruct c
           end; reflexivity.
Qed.

Lemma lets_in_frame ctx target' allow a b :
  state a = state b -> target a = target b -> alsoAllow a = alsoAllow b ->
  lets_in ctx target' allow a = lets_in ctx target' allow b.
Proof.
  intros Hs Ht Ha. unfold lets_in.
  rewrite Hs, (target_passes_frame ctx target' a b Ht Ha). reflexivity.
Qed.

Lemma lets_in_more ctx target' tsv :
  lets_in ctx target' false tsv = true -> lets_in ctx target' true tsv = true.
Proof.
  unfold lets_in, gate_open. intros H.
  apply Bool.andb_true_iff in H. destruct H as [Hg ->].
  rewrite Bool.orb_false_r in Hg. rewrite Hg. reflexivity.
Qed.

Lemma request_round_trip tsv :
  set_requests (requests (set_requests (requests tsv + 1) tsv) - 1)
    (set_requests (requests tsv + 1) tsv) = tsv.
Proof.
  destruct tsv as [qt te hp st ld tg aa rq cs cl hi al].
  cbv [set_requests requests QueryTimeout TerseErrors enableHotRowProtection
       state lameduck target alsoAllow components calls history alias_Cell].
  replace (rq + 1 - 1) with rq by lia. reflexivity.
Qed.

Lemma callerID_suffix_withTimeout now ctx timeout options :
  callerID_suffix (fst (withTimeout now ctx timeout options)) = callerID_suffix ctx.
Proof.
  unfold withTimeout.
  destruct ((timeout =? 0) || is_DBA (GetWorkload options) || IsLocalContext ctx);
    reflexivity.
Qed.

Section TransactionProperties.

Variable BindVariable : Type.
Variable BindVariable_String : BindVariable -> string.
Variable quote : string -> string.
Variable TruncateForLog : string -> string.
Variable TruncateErrLen : Z.
Variable SQLError_Error : Z -> string -> string -> string -> string.
Variable mysql_errno_switch : Z -> string -> Code -> Code.
Variable Result : Type.
Variable ParsedQuery : Type.
Variable MarginComments : Type.
Variable SplitMarginComments : string -> string * MarginComments.
Variable GenerateQuery : ParsedQuery -> BindVariables BindVariable -> string + error.
Variable StripMetadata : Result -> Z -> Result.
Variable qe_GetPlan : Context -> string -> bool -> Plan ParsedQuery + error.
Variable qre_Execute :
  string -> MarginComments -> BindVariables BindVariable -> Z ->
  option ExecuteOptions -> Plan ParsedQuery -> Context -> TabletType ->
  option Result * option error.
Variable RowsAffected : Result -> Z.
Variable txThrottler_Throttle : list TxCall -> bool.
Variable te_Begin :
  list TxCall -> Context -> list string -> Z -> option ExecuteOptions ->
  Z * string * option error.
Variable te_Commit : list TxCall -> Context -> Z -> Z * string * option error.
Variable te_Rollback : list TxCall -> Context -> Z -> Z * option error.
Variable te_Release : list TxCall -> Z -> option error.
Variable te_ReserveBegin :
  list TxCall -> Context -> option ExecuteOptions -> list string ->
  Z * option error.
Variable te_Reserve :
  list TxCall -> Context -> option ExecuteOptions -> Z -> list string ->
  Z * option error.
Variable txSerializer_Wait :
  list TxCall -> Context -> string -> string -> bool * bool * option error.

Local Notation "'execRequest''" :=
  (execRequest BindVariable_String quote TruncateForLog TruncateErrLen
     SQLError_Error mysql_errno_switch) (only parsing).
Local Notation "'convert''" :=
  (convertAndLogError BindVariable_String quote TruncateForLog TruncateErrLen
     SQLError_Error mysql_errno_switch) (only parsing).
Local Notation "'Execute''" :=
  (Execute BindVariable_String quote TruncateForLog TruncateErrLen
     SQLError_Error mysql_errno_switch SplitMarginComments StripMetadata
     qe_GetPlan qre_Execute) (only parsing).
Local Notation "'begin''" :=
  (begin BindVariable_String quote TruncateForLog TruncateErrLen
     SQLError_Error mysql_errno_switch txThrottler_Throttle te_Begin)
  (only parsing).
Local Notation "'Begin''" :=
  (Begin BindVariable_String quote TruncateForLog TruncateErrLen
     SQLError_Error mysql_errno_switch txThrottler_Throttle te_Begin)
  (only parsing).
Local Notation "'Commit''" :=
  (Commit BindVariable_String quote TruncateForLog TruncateErrLen
     SQLError_Error mysql_errno_switch te_Commit) (only parsing).
Local Notation "'Rollback''" :=
  (Rollback BindVariable_String quote TruncateForLog TruncateErrLen
     SQLError_Error mysql_errno_switch te_Rollback) (only parsing).
Local Notation "'Release''" :=
  (Release BindVariable_String quote TruncateForLog TruncateErrLen
     SQLError_Error mysql_errno_switch te_Rollback te_Release) (only parsing).

Lemma convert_VtError tsv ctx sql (bv : BindVariables BindVariable) c m :
  fst (convert' tsv ctx sql bv (VtError c m))
  = VtError c (m ++ callerID_suffix ctx).
Proof.
  unfold convertAndLogError. cbn.
  destruct (TerseErrors tsv && has_bindvars bv && negb (Code_eqb c Code_FAILED_PRECONDITION));
    reflexivity.
Qed.

(** A request that is let in, with a body that leaves the node alone. *)
Lemma execRequest_const (V : Type) now ctx timeout name sql
    (bv : BindVariables BindVariable) target' options allow
    (exec : Context -> V -> M (V * option error)) captured tsv r :
  lets_in ctx target' allow tsv = true ->
  (forall t, exec (fst (withTimeout now ctx timeout options)) captured t
             = Returned r t) ->
  execRequest' now ctx timeout name sql bv target' options allow exec captured tsv
  = Returned
      (fst r,
       match snd r with
       | Some e =>
           Some (fst (convert' tsv (fst (withTimeout now ctx timeout options))
                        sql bv e))
       | None => None
       end)
      tsv.
Proof.
  intros Hin Hexec. unfold execRequest.
  rewrite (bind_Returned _ _ _ _ _ (startRequest_lets_in _ _ _ _ Hin)).
  rewrite (bind_Returned _ _ _ _ _ (Hexec _)).
  rewrite bind_get. unfold endRequest.
  destruct tsv as [qt te hp st ld tg aa rq cs cl hi al].
  cbv [bind modify ret requests set_requests].
  replace (rq + 1 - 1) with rq by lia. reflexivity.
Qed.

(** A request that is kept out. *)
Lemma execRequest_kept_out (V : Type) now ctx timeout name sql
    (bv : BindVariables BindVariable) target' options allow
    (exec : Context -> V -> M (V * option error)) captured tsv :
  lets_in ctx target' allow tsv = false ->
  exists e,
    startRequest ctx target' allow tsv = Returned (Some e) tsv /\
    execRequest' now ctx timeout name sql bv target' options allow exec captured tsv
    = Returned (captured, Some e) tsv.
Proof.
  intros Hout.
  destruct (startRequest_kept_out ctx target' allow tsv Hout) as (e & Hs).
  exists e. split; [exact Hs|].
  unfold execRequest. rewrite (bind_Returned _ _ _ _ _ Hs). reflexivity.
Qed.


(** [begin] on a node that lets the request in. *)
Lemma begin_let_in now ctx target' preQueries reservedID options log tsv :
  lets_in ctx target' false tsv = true ->
  begin' now ctx target' preQueries reservedID options log tsv
  = Returned
      (if txThrottler_Throttle log then
         ((0, alias_Cell tsv,
           Some (VtError Code_RESOURCE_EXHAUSTED
                   ("Transaction throttled" ++ callerID_suffix ctx))),
          (log ++ [Tx_Throttle])%list)
       else
         ((fst (fst (te_Begin (log ++ [Tx_Throttle])
                       (fst (withTimeout now ctx (QueryTimeout tsv) options))
                       preQueries reservedID options)),
           alias_Cell tsv,
           option_map
             (fun e =>
                fst (convert' tsv
                       (fst (withTimeout now ctx (QueryTimeout tsv) options))
                       "begin" [] e))
             (snd (te_Begin (log ++ [Tx_Throttle])
                     (fst (withTimeout now ctx (QueryTimeout tsv) options))
                     preQueries reservedID options))),
          (log ++ [Tx_Throttle; Tx_Begin preQueries reservedID])%list))
      tsv.
Proof.
  intros Hin. unfold begin. rewrite bind_get.
  destruct (txThrottler_Throttle log) eqn:Hthr.
  - erewrite bind_Returned;
      [|apply execRequest_const;
        [exact Hin|intros t; cbn [fst snd]; rewrite Hthr; reflexivity]].
    cbn [fst snd]. rewrite convert_VtError, callerID_suffix_withTimeout.
    reflexivity.
  - erewrite bind_Returned;
      [|apply execRequest_const;
        [exact Hin|intros t; cbn [fst snd]; rewrite Hthr; reflexivity]].
    cbn [fst snd]. rewrite <- app_assoc. reflexivity.
Qed.

(** [begin] on a node that keeps the request out. *)
Lemma begin_kept_out now ctx target' preQueries reservedID options log tsv :
  lets_in ctx target' false tsv = false ->
  exists e,
    startRequest ctx target' false tsv = Returned (Some e) tsv /\
    begin' now ctx target' preQueries reservedID options log tsv
    = Returned ((0, alias_Cell tsv, Some e), log) tsv.
Proof.
  intros Hout. unfold begin. rewrite bind_get.
  match goal with
  | |- context [execRequest _ _ _ _ _ _ ?n ?c ?t ?nm ?s ?b ?tg ?o ?a ?ex ?cap] =>
      destruct (execRequest_kept_out _ n c t nm s b tg o a ex cap tsv Hout)
        as (e & Hs & Hrun)
  end.
  exists e. split; [exact Hs|].
  rewrite (bind_Returned _ _ _ _ _ Hrun). reflexivity.
Qed.

Lemma Commit_let_in now ctx target' transactionID log tsv :
  lets_in ctx target' true tsv = true ->
  Commit' now ctx target' transactionID log tsv
  = Returned
      ((fst (fst (te_Commit log
                    (fst (withTimeout now ctx (QueryTimeout tsv) None))
                    transactionID)),
        option_map
          (fun e =>
             fst (convert' tsv (fst (withTimeout now ctx (QueryTimeout tsv) None))
                    "commit" [] e))
          (snd (te_Commit log
                  (fst (withTimeout now ctx (QueryTimeout tsv) None))
                  transactionID))),
       (log ++ [Tx_Commit transactionID])%list)
      tsv.
Proof.
  intros Hin. unfold Commit. rewrite bind_get.
  erewrite bind_Returned;
    [|apply execRequest_const; [exact Hin|intros t; reflexivity]].
  reflexivity.
Qed.

Lemma Rollback_let_in now ctx target' transactionID log tsv :
  lets_in ctx target' true tsv = true ->
  Rollback' now ctx target' transactionID log tsv
  = Returned
      ((fst (te_Rollback log
               (fst (withTimeout now ctx (QueryTimeout tsv) None))
               transactionID),
        option_map
          (fun e =>
             fst (convert' tsv (fst (withTimeout now ctx (QueryTimeout tsv) None))
                    "rollback" [] e))
          (snd (te_Rollback log
                  (fst (withTimeout now ctx (QueryTimeout tsv) None))
                  transactionID))),
       (log ++ [Tx_Rollback transactionID])%list)
      tsv.
Proof.
  intros Hin. unfold Rollback. rewrite bind_get.
  erewrite bind_Returned;
    [|apply execRequest_const; [exact Hin|intros t; reflexivity]].
  reflexivity.
Qed.


(** X26: A node that is shutting down lets the transactions in flight end and
    starts no new one: [begin] is refused with [FAILED_PRECONDITION]
    without a call to the throttler or the engine, while [Commit] and
    [Rollback] call the engine as they do on a serving node and hand
    back its new reserved id. *)
Theorem shutdown_lets_transactions_end :
  forall (now : Z) (ctx : Context) (target' : option Target)
         (preQueries : list string) (transactionID reservedID : Z)
         (options : option ExecuteOptions) (log : list TxCall)
         (tsv : TabletServer),
    state tsv = StateShuttingDown ->
    target_passes ctx target' tsv = true ->
    begin' now ctx target' preQueries reservedID options log tsv
    = Returned
        ((0, alias_Cell tsv,
          Some (VtError Code_FAILED_PRECONDITION
                  "operation not allowed in state SHUTTING_DOWN")),
         log)
        tsv /\
    (exists err,
       Commit' now ctx target' transactionID log tsv
       = Returned
           ((fst (fst (te_Commit log
                         (fst (withTimeout now ctx (QueryTimeout tsv) None))
                         transactionID)), err),
            (log ++ [Tx_Commit transactionID])%list)
           tsv /\
       (err = None <->
        snd (te_Commit log (fst (withTimeout now ctx (QueryTimeout tsv) None))
               transactionID) = None)) /\
    (exists err,
       Rollback' now ctx target' transactionID log tsv
       = Returned
           ((fst (te_Rollback log
                    (fst (withTimeout now ctx (QueryTimeout tsv) None))
                    transactionID), err),
            (log ++ [Tx_Rollback transactionID])%list)
           tsv /\
       (err = None <->
        snd (te_Rollback log (fst (withTimeout now ctx (QueryTimeout tsv) None))
               transactionID) = None)).
Proof.
  intros now ctx target' preQueries transactionID reservedID options log tsv
    Hst Hpass.
  assert (Hin : lets_in ctx target' true tsv = true).
  { unfold lets_in. rewrite Hst, Hpass. reflexivity. }
  assert (Hgate : gate_open false (state tsv) = false)
    by (rewrite Hst; reflexivity).
  split; [|split].
  - unfold begin. rewrite bind_get.
    erewrite bind_Returned.
    2:{ unfold execRequest.
        rewrite (bind_Returned _ _ _ _ _
                   (startRequest_turned_away ctx target' false tsv Hgate)).
        reflexivity. }
    cbn [fst snd]. rewrite Hst. reflexivity.
  - rewrite (Commit_let_in _ _ _ _ _ _ Hin). eexists. split; [reflexivity|].
    destruct (snd (te_Commit _ _ _)); cbn; split; congruence.
  - rewrite (Rollback_let_in _ _ _ _ _ _ Hin). eexists. split; [reflexivity|].
    destruct (snd (te_Rollback _ _ _)); cbn; split; congruence.
Qed.

Local Notation "'execDML''" :=
  (execDML BindVariable_String quote TruncateForLog TruncateErrLen
     SQLError_Error mysql_errno_switch SplitMarginComments StripMetadata
     qe_GetPlan qre_Execute RowsAffected txThrottler_Throttle te_Begin te_Commit
     te_Rollback) (only parsing).
Local Notation "'BeginExecute''" :=
  (BeginExecute BindVariable_String quote TruncateForLog TruncateErrLen
     SQLError_Error mysql_errno_switch SplitMarginComments GenerateQuery
     StripMetadata qe_GetPlan qre_Execute txThrottler_Throttle te_Begin
     txSerializer_Wait) (only parsing).
Local Notation "'computeTxSerializerKey''" :=
  (computeTxSerializerKey SplitMarginComments GenerateQuery qe_GetPlan)
  (only parsing).

(** [Execute] returns, and changes the call trace only. *)
Lemma Execute_frame now ctx target' sql (bv : BindVariables BindVariable)
    transactionID reservedID options tsv :
  exists r extra,
    Execute' now ctx target' sql bv transactionID reservedID options tsv
    = Returned r (set_calls (calls tsv ++ extra) tsv).
Proof.
  assert (Hsame : tsv = set_calls (calls tsv ++ []) tsv).
  { destruct tsv. cbn. rewrite app_nil_r. reflexivity. }
  destruct (negb (transactionID =? 0) && negb (reservedID =? 0)
            && negb (transactionID =? reservedID)) eqn:Hids.
  - eexists. exists []. rewrite <- Hsame.
    unfold Execute. rewrite Hids. reflexivity.
  - destruct (startRequest_outcome ctx target' (negb (transactionID =? 0)) tsv)
      as [(e & Hs)|(Hs & _)].
    + exists (None, Some e), []. rewrite <- Hsame.
      apply Execute_refused; assumption.
    + destruct (Execute_let_in BindVariable BindVariable_String quote TruncateForLog
                  TruncateErrLen SQLError_Error mysql_errno_switch Result
                  ParsedQuery MarginComments SplitMarginComments StripMetadata
                  qe_GetPlan qre_Execute now ctx target' sql bv transactionID
                  reservedID options tsv Hids Hs)
        as (r & extra & Hrun & _).
      exists r. eexists. exact Hrun.
Qed.

(** [computeTxSerializerKey] asks for the plan and returns. *)
Lemma computeTxSerializerKey_frame ctx sql (bv : BindVariables BindVariable) :
  exists kt,
    forall tsv,
      computeTxSerializerKey' ctx sql bv tsv
      = Returned kt
          (set_calls (calls tsv ++ [Call_qe_GetPlan (fst (SplitMarginComments sql))])
             tsv).
Proof.
  unfold computeTxSerializerKey.
  destruct (qe_GetPlan ctx (fst (SplitMarginComments sql)) false) as [plan|e].
  - destruct (PlanID plan);
      try (eexists; intros tsv; reflexivity).
    all: destruct (IsEmpty (TableName plan));
      [eexists; intros tsv; reflexivity|];
      destruct (WhereClause plan) as [w|];
      [|eexists; intros tsv; reflexivity];
      destruct (GenerateQuery w bv);
      eexists; intros tsv; reflexivity.
  - eexists. intros tsv. reflexivity.
Qed.

(** The end of a request whose body added to the call trace only. *)
Lemma endRequest_after_calls (A : Type) (a : A) tsv extra :
  (endRequest ;; ret a)
    (set_calls (calls (set_requests (requests tsv + 1) tsv) ++ extra)
       (set_requests (requests tsv + 1) tsv))
  = Returned a (set_calls (calls tsv ++ extra) tsv).
Proof.
  destruct tsv as [qt te hp st ld tg aa rq cs cl hi al].
  cbv [bind endRequest modify ret requests set_requests set_calls calls
       QueryTimeout TerseErrors enableHotRowProtection state lameduck target
       alsoAllow components history alias_Cell].
  replace (rq + 1 - 1) with rq by lia. reflexivity.
Qed.

(** X27: [execDML] always returns, with the drain counter and the serving
    state as before, and a count of zero whenever it returns an error.
    What it asks of the throttler and the transaction engine is one of
    five things: nothing (the request was kept out, or the generator
    failed); the throttler only (it said no); a begin that is followed by
    nothing; a begin and a rollback of that transaction; a begin and a
    commit of that transaction.  It never does both, it rolls back only
    a transaction with a non-zero id and only when it returns an error,
    and a call that returns no error has committed. *)
Theorem execDML_commits_or_rolls_back :
  forall (now1 now2 now3 : Z) (ctx : Context) (target' : option Target)
         (queryGenerator : (string * BindVariables BindVariable) + error)
         (log : list TxCall) (tsv : TabletServer),
    let t := fst (fst (te_Begin (log ++ [Tx_Throttle])
                         (fst (withTimeout now1 ctx (QueryTimeout tsv) None))
                         [] 0 None)) in
    exists r added tsv',
      execDML' now1 now2 now3 ctx target' queryGenerator log tsv
      = Returned (r, (log ++ added)%list) tsv' /\
      requests tsv' = requests tsv /\
      state tsv' = state tsv /\
      (snd r <> None -> fst r = 0) /\
      ((added = [] /\ snd r <> None) \/
       (added = [Tx_Throttle] /\ snd r <> None) \/
       (added = [Tx_Throttle; Tx_Begin [] 0] /\ snd r <> None) \/
       (added = [Tx_Throttle; Tx_Begin [] 0; Tx_Rollback t] /\
        t <> 0 /\ snd r <> None) \/
       added = [Tx_Throttle; Tx_Begin [] 0; Tx_Commit t]).
Proof.
  intros now1 now2 now3 ctx target' queryGenerator log tsv t.
  destruct (lets_in ctx target' false tsv) eqn:Hin.
  2:{ destruct (startRequest_kept_out ctx target' false tsv Hin) as (e & Hs).
      exists (0, Some e), [], tsv.
      split.
      { unfold execDML. rewrite (bind_Returned _ _ _ _ _ Hs), app_nil_r.
        reflexivity. }
      cbn [fst snd]. repeat split; try reflexivity.
      left. split; [reflexivity|discriminate]. }
  pose proof (startRequest_lets_in ctx target' false tsv Hin) as Hs.
  set (t1 := set_requests (requests tsv + 1) tsv) in *.
  assert (Hin1 : lets_in ctx target' false t1 = true).
  { rewrite <- Hin. apply lets_in_frame; reflexivity. }
  assert (Hend : forall (A : Type) (a : A) extra,
             (endRequest ;; ret a) (set_calls (calls t1 ++ extra) t1)
             = Returned a (set_calls (calls tsv ++ extra) tsv)).
  { intros A a extra. apply endRequest_after_calls. }
  assert (Hsame : forall x, set_calls (calls x ++ []) x = x).
  { intros x. destruct x. cbn. rewrite app_nil_r. reflexivity. }
  unfold execDML. rewrite (bind_Returned _ _ _ _ _ Hs). cbv beta iota.
  match goal with
  | |- context [bind ?inner _ t1] =>
      assert (Hinner :
                exists r added extra,
                  inner t1 = Returned (r, (log ++ added)%list)
                               (set_calls (calls t1 ++ extra) t1) /\
                  (snd r <> None -> fst r = 0) /\
                  ((added = [] /\ snd r <> None) \/
                   (added = [Tx_Throttle] /\ snd r <> None) \/
                   (added = [Tx_Throttle; Tx_Begin [] 0] /\ snd r <> None) \/
                   (added = [Tx_Throttle; Tx_Begin [] 0; Tx_Rollback t] /\
                    t <> 0 /\ snd r <> None) \/
                   added = [Tx_Throttle; Tx_Begin [] 0; Tx_Commit t]))
  end.
  { destruct queryGenerator as [[query bv]|ge].
    2:{ exists (0, Some (VtError Code_INVALID_ARGUMENT (Error SQLError_Error ge))),
          [], [].
        rewrite Hsame, app_nil_r. split; [reflexivity|].
        cbn [fst snd]. split; [reflexivity|].
        left. split; [reflexivity|discriminate]. }
    unfold Begin.
    rewrite (bind_Returned _ _ _ _ _ (begin_let_in _ _ _ _ _ _ _ _ Hin1)).
    change (QueryTimeout t1) with (QueryTimeout tsv).
    fold t.
    destruct (txThrottler_Throttle log) eqn:Hthr.
    { cbn [fst snd].
      eexists (0, Some _), [Tx_Throttle], [].
      rewrite Hsame. split; [reflexivity|].
      cbn [fst snd]. split; [reflexivity|].
      right. left. split; [reflexivity|discriminate]. }
    cbn [fst snd].
    destruct (snd (te_Begin (log ++ [Tx_Throttle])
                     (fst (withTimeout now1 ctx (QueryTimeout tsv) None))
                     [] 0 None)) as [be|] eqn:Hberr.
    { cbn [option_map].
      eexists (0, Some _), [Tx_Throttle; Tx_Begin [] 0], [].
      rewrite Hsame. split; [reflexivity|].
      cbn [fst snd]. split; [reflexivity|].
      right. right. left. split; [reflexivity|discriminate]. }
    cbn [option_map].
    destruct (Execute_frame now2 ctx target' query bv t 0 None t1)
      as (x & extra & Hx).
    rewrite (bind_Returned _ _ _ _ _ Hx).
    set (t2 := set_calls (calls t1 ++ extra) t1) in *.
    assert (Hin2 : lets_in ctx target' true t2 = true).
    { apply lets_in_more. rewrite <- Hin1. apply lets_in_frame; reflexivity. }
    destruct (snd x) as [xe|] eqn:Hxerr.
    - destruct (Z.eqb_spec t 0) as [Ht|Ht]; cbn [negb].
      + exists (0, Some xe), [Tx_Throttle; Tx_Begin [] 0], extra.
        split; [reflexivity|]. cbn [fst snd]. split; [reflexivity|].
        right. right. left. split; [reflexivity|discriminate].
      + rewrite (bind_Returned _ _ _ _ _ (Rollback_let_in _ _ _ _ _ _ Hin2)).
        cbn [fst snd].
        exists (0, Some xe), [Tx_Throttle; Tx_Begin [] 0; Tx_Rollback t], extra.
        rewrite <- app_assoc. split; [reflexivity|].
        cbn [fst snd]. split; [reflexivity|].
        right. right. right. left.
        split; [reflexivity|]. split; [exact Ht|discriminate].
    - rewrite (bind_Returned _ _ _ _ _ (Commit_let_in _ _ _ _ _ _ Hin2)).
      cbn [fst snd].
      destruct (snd (te_Commit _ _ _)) as [ce|]; cbn [option_map].
      + eexists (0, Some _), [Tx_Throttle; Tx_Begin [] 0; Tx_Commit t], extra.
        rewrite <- app_assoc. split; [reflexivity|].
        cbn [fst snd]. split; [reflexivity|].
        right. right. right. right. reflexivity.
      + eexists (_, None), [Tx_Throttle; Tx_Begin [] 0; Tx_Commit t], extra.
        rewrite <- app_assoc. split; [reflexivity|].
        cbn [fst snd]. split; [congruence|].
        right. right. right. right. reflexivity. }
  destruct Hinner as (r & added & extra & Hrun & Hzero & Hcases).
  exists r, added, (set_calls (calls tsv ++ extra) tsv).
  split.
  { rewrite (bind_Returned _ _ _ _ _ Hrun). apply Hend. }
  split; [reflexivity|]. split; [reflexivity|].
  split; [exact Hzero|exact Hcases].
Qed.

(** X28: On a reserved connection [BeginExecute] skips the hot row
    protection and hands the transaction id of [te.Begin] and the
    reserved id to [Execute].  When the engine begins a transaction
    under an id that is neither zero nor the reserved id, [Execute]
    rejects the pair: the call returns the error [INTERNAL] together
    with the id of the transaction that was begun; the serializer was
    not asked, no statement was run, and nothing rolls the transaction
    back. *)
Theorem BeginExecute_reserved_connection :
  forall (now1 now2 now3 : Z) (ctx : Context) (target' : option Target)
         (preQueries : list string) (sql : string)
         (bindVariables : BindVariables BindVariable) (reservedID : Z)
         (options : option ExecuteOptions) (log : list TxCall)
         (tsv : TabletServer),
    reservedID <> 0 ->
    lets_in ctx target' false tsv = true ->
    txThrottler_Throttle log = false ->
    let b := te_Begin (log ++ [Tx_Throttle])
               (fst (withTimeout now2 ctx (QueryTimeout tsv) options))
               preQueries reservedID options in
    snd b = None ->
    fst (fst b) <> 0 ->
    fst (fst b) <> reservedID ->
    BeginExecute' now1 now2 now3 ctx target' preQueries sql bindVariables
      reservedID options log tsv
    = Returned
        ((None, fst (fst b), Some (alias_Cell tsv),
          Some (VtError Code_INTERNAL
                  "transactionID and reserveID must match if both are non-zero")),
         (log ++ [Tx_Throttle; Tx_Begin preQueries reservedID])%list)
        tsv.
Proof.
  intros now1 now2 now3 ctx target' preQueries sql bindVariables reservedID
    options log tsv Hr Hin Hthr b Hb Hz Hne.
  assert (Hrz : (reservedID =? 0) = false) by (apply Z.eqb_neq; exact Hr).
  unfold BeginExecute. rewrite bind_get, Hrz, Bool.andb_false_r.
  rewrite (bind_Returned _ _ _ ((false, None), log) tsv) by reflexivity.
  cbn [fst snd].
  rewrite (bind_Returned _ _ _ _ _ (begin_let_in _ _ _ _ _ _ _ _ Hin)).
  rewrite Hthr. fold b. cbn [fst snd]. rewrite Hb. cbn [option_map].
  unfold Execute.
  apply Z.eqb_neq in Hz, Hne. rewrite Hz, Hrz, Hne. cbn [negb andb].
  reflexivity.
Qed.

(** X29: [BeginExecute] with hot row protection, outside a reserved
    connection.  A statement without a serializer key does not wait.
    For a statement with a key the serializer is asked first; when the
    wait fails, the call ends there with the error, without a call to
    the throttler or the engine.  When the wait succeeds and hands out a
    [done] function, that function is called once, last, however
    [begin] and [Execute] end.  The drain counter is as before. *)
Theorem BeginExecute_hot_row :
  forall (now1 now2 now3 : Z) (ctx : Context) (target' : option Target)
         (preQueries : list string) (sql : string)
         (bindVariables : BindVariables BindVariable)
         (options : option ExecuteOptions) (log : list TxCall)
         (tsv : TabletServer) (k table : string) (tsv1 : TabletServer),
    enableHotRowProtection tsv = true ->
    lets_in ctx target' false tsv = true ->
    computeTxSerializerKey'
      (fst (withTimeout now1 ctx (QueryTimeout tsv) options)) sql bindVariables tsv
    = Returned (k, table) tsv1 ->
    let w := txSerializer_Wait log
               (fst (withTimeout now1 ctx (QueryTimeout tsv) options)) k table in
    exists r added tsv',
      BeginExecute' now1 now2 now3 ctx target' preQueries sql bindVariables 0
        options log tsv
      = Returned (r, (log ++ added)%list) tsv' /\
      requests tsv' = requests tsv /\
      (k = "" ->
       added = [Tx_Throttle] \/ added = [Tx_Throttle; Tx_Begin preQueries 0]) /\
      (k <> "" -> snd w <> None ->
       added = [Tx_Wait k table] /\ fst (fst (fst r)) = None /\ snd r <> None) /\
      (k <> "" -> snd w = None ->
       exists mid,
         added = (Tx_Wait k table :: mid
                  ++ (if fst (fst w) then [Tx_Done] else []))%list /\
         (mid = [Tx_Throttle] \/ mid = [Tx_Throttle; Tx_Begin preQueries 0])).
Proof.
  intros now1 now2 now3 ctx target' preQueries sql bindVariables options log
    tsv k table tsv1 Hhot Hin Hkey w.
  set (ctx1 := fst (withTimeout now1 ctx (QueryTimeout tsv) options)) in *.
  destruct (computeTxSerializerKey_frame ctx1 sql bindVariables) as (kt & Hkt).
  assert (kt = (k, table)) as -> by (rewrite Hkt in Hkey; congruence).
  clear Hkey tsv1.
  set (plan_call := Call_qe_GetPlan (fst (SplitMarginComments sql))) in *.
  pose proof (startRequest_lets_in ctx target' false tsv Hin) as Hs.
  (* the node after the wait *)
  set (t1 := set_calls (calls tsv ++ [plan_call]) tsv).
  assert (Hin1 : lets_in ctx target' false t1 = true).
  { rewrite <- Hin. apply lets_in_frame; reflexivity. }
  assert (Hwait :
            beginWaitForSameRangeTransactions BindVariable_String quote
              TruncateForLog TruncateErrLen SQLError_Error mysql_errno_switch
              SplitMarginComments GenerateQuery qe_GetPlan txSerializer_Wait
              now1 ctx target' options sql bindVariables log tsv
            = Returned
                (if String.eqb k "" then ((false, None), log)
                 else
                   ((fst (fst w),
                     option_map
                       (fun e =>
                          fst (convert' t1 ctx1 "waitForSameRangeTransactions" [] e))
                       (snd w)),
                    (log ++ [Tx_Wait k table])%list))
                t1).
  { unfold beginWaitForSameRangeTransactions. rewrite bind_get.
    fold ctx1.
    destruct (String.eqb k "") eqn:Hk.
    - erewrite bind_Returned.
      2:{ unfold execRequest. rewrite (bind_Returned _ _ _ _ _ Hs).
          fold ctx1. cbn [fst snd].
          erewrite bind_Returned.
          2:{ rewrite (bind_Returned _ _ _ _ _ (Hkt _)). cbn [fst snd].
              rewrite Hk. reflexivity. }
          rewrite bind_get. cbv zeta. cbn [fst snd].
          apply endRequest_after_calls. }
      reflexivity.
    - erewrite bind_Returned.
      2:{ unfold execRequest. rewrite (bind_Returned _ _ _ _ _ Hs).
          fold ctx1. cbn [fst snd].
          erewrite bind_Returned.
          2:{ rewrite (bind_Returned _ _ _ _ _ (Hkt _)). cbn [fst snd].
              rewrite Hk. reflexivity. }
          rewrite bind_get. cbv zeta. cbn [fst snd].
          apply endRequest_after_calls. }
      fold w. unfold t1. destruct (snd w); reflexivity. }
  assert (Htail :
            forall txDone log1,
            exists r mid t',
              (b <- begin' now2 ctx target' preQueries 0 options log1 ;;
               match snd (fst b) with
               | Some e =>
                   ret ((@None Result, 0, @None string, Some e),
                        deferred_txDone txDone (snd b))
               | None =>
                   x <- Execute' now3 ctx target' sql bindVariables
                          (fst (fst (fst b))) 0 options ;;
                   ret ((fst x, fst (fst (fst b)), Some (snd (fst (fst b))), snd x),
                        deferred_txDone txDone (snd b))
               end) t1
              = Returned (r, deferred_txDone txDone (log1 ++ mid)%list) t' /\
              requests t' = requests tsv /\
              (mid = [Tx_Throttle] \/ mid = [Tx_Throttle; Tx_Begin preQueries 0])).
  { intros txDone log1.
    rewrite (bind_Returned _ _ _ _ _ (begin_let_in _ _ _ _ _ _ _ _ Hin1)).
    destruct (txThrottler_Throttle log1).
    - cbn [fst snd]. do 3 eexists.
      split; [reflexivity|]. split; [reflexivity|left; reflexivity].
    - cbn [fst snd].
      destruct (snd (te_Begin _ _ _ _ _)) as [be|]; cbn [option_map].
      + do 3 eexists.
        split; [reflexivity|]. split; [reflexivity|right; reflexivity].
      + match goal with
        | |- context [Execute _ _ _ _ _ _ _ _ _ _ ?n ?c ?tg ?q ?bv ?tid ?rid ?o] =>
            destruct (Execute_frame n c tg q bv tid rid o t1) as (x & extra & Hx)
        end.
        rewrite (bind_Returned _ _ _ _ _ Hx).
        do 3 eexists.
        split; [reflexivity|]. split; [reflexivity|right; reflexivity]. }
  unfold BeginExecute. rewrite bind_get, Hhot. cbn [andb Z.eqb].
  rewrite (bind_Returned _ _ _ _ _ Hwait).
  destruct (String.eqb_spec k "") as [Hk|Hk].
  - cbn [fst snd].
    destruct (Htail false log) as (r & mid & t' & Hrun & Hreq & Hmid).
    exists r, mid, t'. split; [exact Hrun|]. split; [exact Hreq|].
    split; [intros _; exact Hmid|]. split; intros; contradiction.
  - cbn [fst snd]. fold w.
    destruct (snd w) as [we|] eqn:Hwerr; cbn [option_map].
    + do 3 eexists. split; [reflexivity|]. split; [reflexivity|].
      split; [intros; contradiction|].
      split; [|intros _ H; discriminate H].
      intros _ _. cbn [fst snd]. repeat split. discriminate.
    + destruct (Htail (fst (fst w)) (log ++ [Tx_Wait k table])%list)
        as (r & mid & t' & Hrun & Hreq & Hmid).
      exists r, (Tx_Wait k table :: mid ++ (if fst (fst w) then [Tx_Done] else []))%list, t'.
      split.
      { rewrite Hrun. do 2 f_equal. unfold deferred_txDone.
        destruct (fst (fst w)); rewrite <- ?app_assoc; cbn [app];
          rewrite ?app_nil_r; reflexivity. }
      split; [exact Hreq|].
      split; [intros; contradiction|].
      split; [intros _ H; contradiction|].
      intros _ _. exists mid. split; [reflexivity|exact Hmid].
Qed.

Local Notation "'ReserveBeginExecute''" :=
  (ReserveBeginExecute BindVariable_String quote TruncateForLog TruncateErrLen
     SQLError_Error mysql_errno_switch SplitMarginComments StripMetadata
     qe_GetPlan qre_Execute te_ReserveBegin) (only parsing).
Local Notation "'ReserveExecute''" :=
  (ReserveExecute BindVariable_String quote TruncateForLog TruncateErrLen
     SQLError_Error mysql_errno_switch SplitMarginComments StripMetadata
     qe_GetPlan qre_Execute te_Reserve) (only parsing).

(** [Execute] under the id of a reserved connection, on a node that lets
    the request in. *)
Lemma Execute_on_reserved now ctx target' sql (bv : BindVariables BindVariable)
    connID options tsv :
  lets_in ctx target' false tsv = true ->
  exists r extra,
    Execute' now ctx target' sql bv connID connID options tsv
    = Returned r
        (set_calls
           (calls tsv ++ Call_qe_GetPlan (fst (SplitMarginComments sql)) :: extra)
           tsv) /\
    (extra = [] \/ extra = [Call_qre_Execute connID]).
Proof.
  intros Hin.
  assert (Hids : negb (connID =? 0) && negb (connID =? 0)
                 && negb (connID =? connID) = false).
  { rewrite Z.eqb_refl. cbn. apply Bool.andb_false_r. }
  assert (Hin' : lets_in ctx target' (negb (connID =? 0)) tsv = true).
  { destruct (negb (connID =? 0)); [apply lets_in_more|]; exact Hin. }
  destruct (Execute_let_in BindVariable BindVariable_String quote TruncateForLog
              TruncateErrLen SQLError_Error mysql_errno_switch Result
              ParsedQuery MarginComments SplitMarginComments StripMetadata
              qe_GetPlan qre_Execute now ctx target' sql bv connID connID
              options tsv Hids (startRequest_lets_in _ _ _ _ Hin'))
    as (r & extra & Hrun & Hextra).
  exists r, extra. split; [exact Hrun|].
  destruct Hextra as [-> | ->]; [left; reflexivity|right].
  destruct (negb (connID =? 0)); reflexivity.
Qed.

(** X30: [ReserveBeginExecute] and [ReserveExecute] reserve first and then
    run the statement on the reserved connection.  When the engine
    refuses to reserve, the call ends with the error, without ids or
    alias, and the query engine is not asked.  Otherwise [Execute] is
    called with the connection id in both places, so that its check of
    the ids passes: the plan is asked for, the executor runs on that
    connection when there is a plan, and the id is handed back.  The
    engine is called once in either case. *)
Theorem Reserve_runs_on_the_reserved_connection :
  forall (now1 now2 : Z) (ctx : Context) (target' : option Target)
         (sql : string) (preQueries : list string)
         (bindVariables : BindVariables BindVariable) (transactionID : Z)
         (options : option ExecuteOptions) (log : list TxCall)
         (tsv : TabletServer),
    lets_in ctx target' false tsv = true ->
    let ctx1 := fst (withTimeout now1 ctx (QueryTimeout tsv) options) in
    let rb := te_ReserveBegin log ctx1 options preQueries in
    let rs := te_Reserve log ctx1 options transactionID preQueries in
    (snd rb <> None ->
     exists e,
       ReserveBeginExecute' now1 now2 ctx target' sql preQueries bindVariables
         options log tsv
       = Returned ((None, 0, 0, None, Some e),
                   (log ++ [Tx_ReserveBegin preQueries])%list) tsv) /\
    (snd rb = None ->
     exists res err extra,
       ReserveBeginExecute' now1 now2 ctx target' sql preQueries bindVariables
         options log tsv
       = Returned ((res, fst rb, fst rb, Some (alias_Cell tsv), err),
                   (log ++ [Tx_ReserveBegin preQueries])%list)
           (set_calls
              (calls tsv
               ++ Call_qe_GetPlan (fst (SplitMarginComments sql)) :: extra)
              tsv) /\
       (extra = [] \/ extra = [Call_qre_Execute (fst rb)])) /\
    (snd rs <> None ->
     exists e,
       ReserveExecute' now1 now2 ctx target' sql preQueries bindVariables
         transactionID options log tsv
       = Returned ((None, 0, None, Some e),
                   (log ++ [Tx_Reserve transactionID preQueries])%list) tsv) /\
    (snd rs = None ->
     exists res err extra,
       ReserveExecute' now1 now2 ctx target' sql preQueries bindVariables
         transactionID options log tsv
       = Returned ((res, fst rs, Some (alias_Cell tsv), err),
                   (log ++ [Tx_Reserve transactionID preQueries])%list)
           (set_calls
              (calls tsv
               ++ Call_qe_GetPlan (fst (SplitMarginComments sql)) :: extra)
              tsv) /\
       (extra = [] \/ extra = [Call_qre_Execute (fst rs)])).
Proof.
  intros now1 now2 ctx target' sql preQueries bindVariables transactionID
    options log tsv Hin ctx1 rb rs.
  unfold rb, rs. clear rb rs.
  split; [|split; [|split]].
  - intros Herr. unfold ReserveBeginExecute. rewrite bind_get.
    erewrite bind_Returned;
      [|apply execRequest_const; [exact Hin|intros t; reflexivity]].
    fold ctx1. cbn [fst snd].
    destruct (snd (te_ReserveBegin log ctx1 options preQueries)) as [e|];
      [|contradiction].
    eexists. reflexivity.
  - intros Hok. unfold ReserveBeginExecute. rewrite bind_get.
    erewrite bind_Returned;
      [|apply execRequest_const; [exact Hin|intros t; reflexivity]].
    fold ctx1. cbn [fst snd]. rewrite Hok.
    destruct (Execute_on_reserved now2 ctx target' sql bindVariables
                (fst (te_ReserveBegin log ctx1 options preQueries))
                options tsv Hin) as (r & extra & Hrun & Hextra).
    rewrite (bind_Returned _ _ _ _ _ Hrun).
    exists (fst r), (snd r), extra. split; [reflexivity|exact Hextra].
  - intros Herr. unfold ReserveExecute. rewrite bind_get.
    erewrite bind_Returned;
      [|apply execRequest_const; [exact Hin|intros t; reflexivity]].
    fold ctx1. cbn [fst snd].
    destruct (snd (te_Reserve log ctx1 options transactionID preQueries)) as [e|];
      [|contradiction].
    eexists. reflexivity.
  - intros Hok. unfold ReserveExecute. rewrite bind_get.
    erewrite bind_Returned;
      [|apply execRequest_const; [exact Hin|intros t; reflexivity]].
    fold ctx1. cbn [fst snd]. rewrite Hok.
    destruct (Execute_on_reserved now2 ctx target' sql bindVariables
                (fst (te_Reserve log ctx1 options transactionID preQueries))
                options tsv Hin) as (r & extra & Hrun & Hextra).
    rewrite (bind_Returned _ _ _ _ _ Hrun).
    exists (fst r), (snd r), extra. split; [reflexivity|exact Hextra].
Qed.

End TransactionProperties.

(** A node that is shutting down, with the engine of [SampleTx]. *)
Lemma shutdown_lets_transactions_end_sample :
  begin (fun v : string => v) Sample.quote (fun s => s) 0 Sample.SQLError_Error
    Sample.errno_switch SampleTx.Throttle SampleTx.te_Begin
    0 Sample.remote (Some Sample.master_target) [] 0 None []
    (Sample.node StateShuttingDown)
  = Returned
      ((0, "zone1",
        Some (VtError Code_FAILED_PRECONDITION
                "operation not allowed in state SHUTTING_DOWN")),
       [])
      (Sample.node StateShuttingDown) /\
  Commit (fun v : string => v) Sample.quote (fun s => s) 0 Sample.SQLError_Error
    Sample.errno_switch SampleTx.te_Commit
    0 Sample.remote (Some Sample.master_target) 105 []
    (Sample.node StateShuttingDown)
  = Returned ((0, None), [Tx_Commit 105]) (Sample.node StateShuttingDown).
Proof.
  destruct (shutdown_lets_transactions_end string (fun v : string => v)
              Sample.quote (fun s => s) 0 Sample.SQLError_Error
              Sample.errno_switch SampleTx.Throttle SampleTx.te_Begin
              SampleTx.te_Commit SampleTx.te_Rollback
              0 Sample.remote (Some Sample.master_target) [] 105 0 None []
              (Sample.node StateShuttingDown))
    as (Hb & (err & Hc & Herr) & _).
  - reflexivity.
  - reflexivity.
  - split; [exact Hb|]. rewrite Hc.
    destruct Herr as [_ Herr]. rewrite (Herr eq_refl). reflexivity.
Defined.

(** The engine of [SampleTx] begins transaction 101 on the reserved
    connection 7. *)
Lemma BeginExecute_reserved_connection_sample :
  BeginExecute (fun v : string => v) Sample.quote (fun s => s) 0
    Sample.SQLError_Error Sample.errno_switch Sample.SplitMarginComments
    Sample.GenerateQuery Sample.StripMetadata Sample.qe_GetPlan
    Sample.qre_Execute SampleTx.Throttle SampleTx.te_Begin SampleTx.Wait
    0 0 0 Sample.remote (Some Sample.master_target) [] Sample.update_sql
    Sample.binds_a 7 None [] (Sample.node StateServing)
  = Returned
      ((None, 101, Some "zone1",
        Some (VtError Code_INTERNAL
                "transactionID and reserveID must match if both are non-zero")),
       [Tx_Throttle; Tx_Begin [] 7])
      (Sample.node StateServing).
Proof.
  apply (BeginExecute_reserved_connection string (fun v : string => v)
           Sample.quote (fun s => s) 0 Sample.SQLError_Error
           Sample.errno_switch (list string) string unit
           Sample.SplitMarginComments Sample.GenerateQuery
           Sample.StripMetadata Sample.qe_GetPlan Sample.qre_Execute
           SampleTx.Throttle SampleTx.te_Begin SampleTx.Wait
           0 0 0 Sample.remote (Some Sample.master_target) []
           Sample.update_sql Sample.binds_a 7 None []
           (Sample.node StateServing)).
  - discriminate.
  - reflexivity.
  - reflexivity.
  - reflexivity.
  - vm_compute. discriminate.
  - vm_compute. discriminate.
Defined.

(** An update of a hot row on the engine of [SampleTx]. *)
Lemma BeginExecute_hot_row_sample :
  exists r added tsv',
    BeginExecute (fun v : string => v) Sample.quote (fun s => s) 0
      Sample.SQLError_Error Sample.errno_switch Sample.SplitMarginComments
      Sample.GenerateQuery Sample.StripMetadata Sample.qe_GetPlan
      Sample.qre_Execute SampleTx.Throttle SampleTx.te_Begin SampleTx.Wait
      0 0 0 Sample.remote (Some Sample.master_target) [] Sample.update_sql
      Sample.binds_a 0 None [] (Sample.node StateServing)
    = Returned (r, added) tsv' /\
    requests tsv' = 0 /\
    exists mid, added = (Tx_Wait "t where id = 42" "t" :: mid ++ [Tx_Done])%list.
Proof.
  destruct (BeginExecute_hot_row string (fun v : string => v)
              Sample.quote (fun s => s) 0 Sample.SQLError_Error
              Sample.errno_switch (list string) string unit
              Sample.SplitMarginComments Sample.GenerateQuery
              Sample.StripMetadata Sample.qe_GetPlan Sample.qre_Execute
              SampleTx.Throttle SampleTx.te_Begin SampleTx.Wait
              0 0 0 Sample.remote (Some Sample.master_target) []
              Sample.update_sql Sample.binds_a None []
              (Sample.node StateServing) "t where id = 42" "t"
              (node_after
                 (Sample.run_computeTxSerializerKey Sample.remote
                    Sample.update_sql Sample.binds_a (Sample.node StateServing))))
    as (r & added & tsv' & Hrun & Hreq & _ & _ & Hok).
  - reflexivity.
  - reflexivity.
  - vm_compute. reflexivity.
  - exists r, added, tsv'. split; [exact Hrun|]. split; [exact Hreq|].
    destruct Hok as (mid & Hadded & _); [discriminate|reflexivity|].
    exists mid. exact Hadded.
Defined.

(** A reservation on the engine of [SampleTx]. *)
Lemma Reserve_runs_on_the_reserved_connection_sample :
  exists res err extra,
    ReserveBeginExecute (fun v : string => v) Sample.quote (fun s => s) 0
      Sample.SQLError_Error Sample.errno_switch Sample.SplitMarginComments
      Sample.StripMetadata Sample.qe_GetPlan Sample.qre_Execute
      SampleTx.te_ReserveBegin
      0 0 Sample.remote (Some Sample.master_target) Sample.select_sql []
      Sample.binds_a None [] (Sample.node StateServing)
    = Returned ((res, 200, 200, Some "zone1", err), [Tx_ReserveBegin []])
        (set_calls (Call_qe_GetPlan Sample.select_sql :: extra)
           (Sample.node StateServing)).
Proof.
  destruct (Reserve_runs_on_the_reserved_connection string (fun v : string => v)
              Sample.quote (fun s => s) 0 Sample.SQLError_Error
              Sample.errno_switch (list string) string unit
              Sample.SplitMarginComments Sample.StripMetadata
              Sample.qe_GetPlan Sample.qre_Execute SampleTx.te_ReserveBegin
              SampleTx.te_Reserve
              0 0 Sample.remote (Some Sample.master_target) Sample.select_sql []
              Sample.binds_a 0 None [] (Sample.node StateServing))
    as (_ & Hok & _).
  - reflexivity.
  - destruct (Hok eq_refl) as (res & err & extra & Hrun & _).
    exists res, err, extra. exact Hrun.
Defined.
